(** * Provider parameter validation and response normalisation

    A shallow embedding of the two model providers of the text service,
    [app/services/model_providers/aliyun.py] and
    [app/services/model_providers/deepseek.py]:

    - Python values are an inductive type [pyval]; a [dict] with string
      keys is a [gmap string pyval];
    - the dictionaries a provider receives and returns are objects of a
      store ([heap]), addressed by location, so that [parameters.copy()]
      and the item assignments on the copy can be told apart from
      assignments on the caller's dictionary;
    - exceptions are results ([Raise]) of a state-and-error monad [M];
    - the client of the upstream service, which [call_model] calls, is a
      function from the arguments of the call to what the client gives
      back, so that a run of [call_model] is its result, its final store
      and the list of the calls it made on the client. *)

From Stdlib Require Import ZArith Ascii String.
From Stdlib Require Import Floats.SpecFloat.
From stdpp Require Import base option list strings pretty gmap fin_maps.

#[local] Set Warnings "-register-all".
#[local] Open Scope Z_scope.

(** ** Values *)

(** The values that reach the providers: what [json] decoding produces
    ([None], [bool], [int], [float], [str], [list], [dict] with string
    keys).  A [float] is an IEEE 754 binary64 datum in the specification
    format of the standard library. *)
Inductive pyval : Type :=
  | VNone
  | VBool (b : bool)
  | VInt (z : Z)
  | VFloat (f : spec_float)
  | VStr (s : string)
  | VList (l : list pyval)
  | VDict (d : gmap string pyval).

Abbreviation dict := (gmap string pyval).

(** ** Exceptions *)

Inductive exc_class : Type :=
  | ValueErrorC
  | TypeErrorC
  | OverflowErrorC
  | KeyErrorC
  | AttributeErrorC
  | SystemErrorC.

(** An exception is its class and its message.  The message is [Some]
    for the [raise] statements of the providers, whose text is in the
    source, and [None] for an exception raised by the interpreter (a
    failed conversion, a missing key or attribute), whose text is not
    modelled. *)
Inductive exn : Type :=
  | Exc (c : exc_class) (msg : option string).

Definition ValueError (msg : string) : exn := Exc ValueErrorC (Some msg).

Definition exn_class (e : exn) : exc_class :=
  match e with Exc c _ => c end.

Inductive result (A : Type) : Type :=
  | Ok (a : A)
  | Raise (e : exn).
Arguments Ok {A} a.
Arguments Raise {A} e.

Definition result_bind {A B : Type} (r : result A) (f : A → result B)
    : result B :=
  match r with
  | Ok a => f a
  | Raise e => Raise e
  end.

Declare Scope result_scope.
Delimit Scope result_scope with result.
Notation "x ← y ; z" := (result_bind y (λ x, z))
  (at level 20, y at level 100, z at level 200, only parsing) : result_scope.

(** ** Floats *)

Module Float.

Definition prec : Z := 53.
Definition emax : Z := 1024.

(** [float(n)] for an integer that fits: rounding to nearest, ties to
    even; an integer beyond the largest double rounds to an infinity. *)
Definition of_Z (z : Z) : spec_float := binary_normalize prec emax z 0 false.

(** The double nearest to [num / den], as the literal [num/den] written
    in decimal is read. *)
Definition lit (num den : Z) : spec_float :=
  SFdiv prec emax (of_Z num) (of_Z den).

Definition zero : spec_float := S754_zero false.
Definition one : spec_float := Eval vm_compute in of_Z 1.
Definition two : spec_float := Eval vm_compute in of_Z 2.
Definition five : spec_float := Eval vm_compute in of_Z 5.
Definition f0_5 : spec_float := Eval vm_compute in lit 1 2.
Definition f0_7 : spec_float := Eval vm_compute in lit 7 10.
Definition f0_9 : spec_float := Eval vm_compute in lit 9 10.

(** [a < b] and [a <= b] on floats: false whenever an operand is a NaN. *)
Definition ltb (a b : spec_float) : bool := SFltb a b.
Definition leb (a b : spec_float) : bool := SFleb a b.

(** The integer part, towards zero, of a finite float. *)
Definition trunc (s : bool) (m : positive) (e : Z) : Z :=
  cond_Zopp s (Z.shiftl (Zpos m) e).

End Float.

(** ** Built-in functions *)

(** The grammar of numeric literals that [int] and [float] accept in a
    string belongs to the interpreter; the development is parametric in
    the two readers. *)
Class NumericLiterals : Type := {
  int_of_str : string → option Z;
  float_of_str : string → option spec_float
}.

Section builtins.
Context `{NumericLiterals}.

(** [int(v)] *)
Definition py_int (v : pyval) : result Z :=
  match v with
  | VBool b => Ok (if b then 1 else 0)
  | VInt z => Ok z
  | VFloat (S754_zero _) => Ok 0
  | VFloat (S754_finite s m e) => Ok (Float.trunc s m e)
  | VFloat (S754_infinity _) => Raise (Exc OverflowErrorC None)
  | VFloat S754_nan => Raise (Exc ValueErrorC None)
  | VStr s =>
      match int_of_str s with
      | Some z => Ok z
      | None => Raise (Exc ValueErrorC None)
      end
  | VNone | VList _ | VDict _ => Raise (Exc TypeErrorC None)
  end.

(** [float(v)] *)
Definition py_float (v : pyval) : result spec_float :=
  match v with
  | VBool b => Ok (if b then Float.one else Float.zero)
  | VInt z =>
      match Float.of_Z z with
      | S754_infinity _ => Raise (Exc OverflowErrorC None)
      | f => Ok f
      end
  | VFloat f => Ok f
  | VStr s =>
      match float_of_str s with
      | Some f => Ok f
      | None => Raise (Exc ValueErrorC None)
      end
  | VNone | VList _ | VDict _ => Raise (Exc TypeErrorC None)
  end.

End builtins.

(** [bool(v)]: the truth value of [v]. *)
Definition py_bool (v : pyval) : bool :=
  match v with
  | VNone => false
  | VBool b => b
  | VInt z => negb (z =? 0)
  | VFloat (S754_zero _) => false
  | VFloat _ => true
  | VStr s => negb (String.eqb s "")
  | VList l => match l with [] => false | _ => true end
  | VDict d => negb (bool_decide (d = ∅))
  end.

(** [min(a, b)] and [max(a, b)] keep their first argument unless the
    second is strictly smaller, respectively strictly greater. *)
Definition py_min (a b : Z) : Z := if b <? a then b else a.
Definition py_max (a b : Z) : Z := if a <? b then b else a.
Definition py_fmin (a b : spec_float) : spec_float :=
  if Float.ltb b a then b else a.
Definition py_fmax (a b : spec_float) : spec_float :=
  if Float.ltb a b then b else a.

(** [", ".join(l)] *)
Definition join (sep : string) (l : list string) : string :=
  String.concat sep l.

(** ** The store of dictionary objects *)

(** A [dict] object lives at a location; a variable that holds a
    dictionary holds its location.  The values inside a dictionary are
    never updated in place by the providers and are kept by value. *)
Abbreviation loc := positive.
Abbreviation heap := (gmap positive (gmap string pyval)).

(** Computations that read and update the store and may raise. *)
Definition M (A : Type) : Type := heap → result A * heap.

Definition ret {A : Type} (a : A) : M A := λ h, (Ok a, h).

Definition bind {A B : Type} (c : M A) (f : A → M B) : M B := λ h,
  match c h with
  | (Ok a, h') => f a h'
  | (Raise e, h') => (Raise e, h')
  end.

Declare Scope py_scope.
Delimit Scope py_scope with py.
Notation "x ← y ; z" := (bind y (λ x, z))
  (at level 20, y at level 100, z at level 200, only parsing) : py_scope.
Notation "x ;; z" := (bind x (λ _, z))
  (at level 100, z at level 200, only parsing, right associativity)
  : py_scope.
#[local] Open Scope py_scope.

Definition raise {A : Type} (e : exn) : M A := λ h, (Raise e, h).

Definition lift {A : Type} (r : result A) : M A := λ h, (r, h).

(** No statement: an [if] without [else]. *)
Definition pass : M unit := ret tt.

(** A location outside the store is no object of the program. *)
Definition dangling : exn := Exc SystemErrorC None.

(** [k in d] *)
Definition contains (k : string) (d : loc) : M bool := λ h,
  match h !! d with
  | Some o => (Ok (bool_decide (is_Some (o !! k))), h)
  | None => (Raise dangling, h)
  end.

(** [d[k]] *)
Definition getitem (d : loc) (k : string) : M pyval := λ h,
  match h !! d with
  | Some o =>
      match o !! k with
      | Some v => (Ok v, h)
      | None => (Raise (Exc KeyErrorC None), h)
      end
  | None => (Raise dangling, h)
  end.

(** [d[k] = v] *)
Definition setitem (d : loc) (k : string) (v : pyval) : M unit := λ h,
  match h !! d with
  | Some o => (Ok tt, <[d := <[k := v]> o]> h)
  | None => (Raise dangling, h)
  end.

(** [del d[k]] *)
Definition delitem (d : loc) (k : string) : M unit := λ h,
  match h !! d with
  | Some o =>
      match o !! k with
      | Some _ => (Ok tt, <[d := delete k o]> h)
      | None => (Raise (Exc KeyErrorC None), h)
      end
  | None => (Raise dangling, h)
  end.

(** [d.copy()]: a new object with the items of [d]. *)
Definition dict_copy (d : loc) : M loc := λ h,
  match h !! d with
  | Some o => let l := fresh (dom h) in (Ok l, <[l := o]> h)
  | None => (Raise dangling, h)
  end.

(** ** Configuration *)

(** [settings] of [app/core/config.py], which is not part of the
    sources: the table of the models each provider serves. *)
Record Settings : Type := {
  PROVIDER_SUPPORTED_MODELS : gmap string (list string)
}.

(** [table.get(key, fallback)] *)
Definition get_default {A : Type} (table : gmap string A) (key : string)
    (fallback : A) : A :=
  default fallback (table !! key).

(** The one-message conversation [[{"role": "user", "content": prompt}]]. *)
Definition user_message (prompt : pyval) : pyval :=
  VList [VDict (<["role" := VStr "user"]> (<["content" := prompt]> ∅))].

(** ** Operations on values of unknown type *)

(** The payload of an upstream service is decoded JSON: the type of a
    field is known only when it is used. *)

Definition is_str (k : string) (v : pyval) : bool :=
  match v with
  | VStr s => String.eqb s k
  | _ => false
  end.

(** [k in v] for a string [k]: a key of a dictionary, an element of a
    list, a substring of a string; no other value is a container. *)
Definition py_in (k : string) (v : pyval) : result bool :=
  match v with
  | VDict d => Ok (bool_decide (is_Some (d !! k)))
  | VList l => Ok (existsb (is_str k) l)
  | VStr s =>
      Ok (match String.index 0 k s with Some _ => true | None => false end)
  | VNone | VBool _ | VInt _ | VFloat _ => Raise (Exc TypeErrorC None)
  end.

(** [v[k]] for a string [k]. *)
Definition py_getitem (v : pyval) (k : string) : result pyval :=
  match v with
  | VDict d =>
      match d !! k with
      | Some x => Ok x
      | None => Raise (Exc KeyErrorC None)
      end
  | _ => Raise (Exc TypeErrorC None)
  end.

(** [v.get(k, fallback)]: only a dictionary has the method. *)
Definition py_get (v : pyval) (k : string) (fallback : pyval) : result pyval :=
  match v with
  | VDict d => Ok (get_default d k fallback)
  | _ => Raise (Exc AttributeErrorC None)
  end.

(** The elements a [for] loop visits.  A dictionary yields its keys;
    their order is the order of the finite map. *)
Definition py_iter (v : pyval) : result (list pyval) :=
  match v with
  | VList l => Ok l
  | VStr s =>
      Ok ((λ c, VStr (String c EmptyString)) <$> list_ascii_of_string s)
  | VDict d => Ok ((λ kv, VStr kv.1) <$> map_to_list d)
  | VNone | VBool _ | VInt _ | VFloat _ => Raise (Exc TypeErrorC None)
  end.

(** ** The Aliyun provider *)

Module Aliyun.
Section provider.
Context `{NumericLiterals}.
Variable settings : Settings.

Definition provider_name : string := "aliyun".

Definition supported_models : list string :=
  get_default (PROVIDER_SUPPORTED_MODELS settings) "aliyun"
    ["qwen-turbo"; "qwen-plus"; "qwen-max";
     "qwen3-235b-a22b"; "qwen3-30b-a3b"; "qwen-plus-latest";
     "qwen-turbo-latest"; "qwen-vl-max"; "qwen-vl-plus"].

Definition validate_parameters (model : string) (parameters : loc) : M loc :=
  if negb (bool_decide (model ∈ supported_models)) then
    let supported := join ", " supported_models in
    raise (ValueError ("Model '" +:+ model +:+
                       "' not supported. Supported models: " +:+ supported))
  else
  has_prompt ← contains "prompt" parameters;
  has_messages ← contains "messages" parameters;
  if negb has_prompt && negb has_messages then
    raise (ValueError "Parameter 'prompt' or 'messages' is required")
  else
  validated ← dict_copy parameters;
  setitem validated "model" (VStr model);;
  (b ← contains "messages" parameters;
   if b then
     v ← getitem parameters "messages";
     setitem validated "messages" v
   else
     b ← contains "prompt" parameters;
     if b then
       v ← getitem parameters "prompt";
       setitem validated "messages" (user_message v)
     else pass);;
  (b ← contains "max_tokens" validated;
   if b then
     v ← getitem validated "max_tokens";
     n ← lift (py_int v);
     setitem validated "max_tokens" (VInt (py_min n 6000))
   else setitem validated "max_tokens" (VInt 2048));;
  (b ← contains "temperature" validated;
   if b then
     v ← getitem validated "temperature";
     x ← lift (py_float v);
     setitem validated "temperature"
       (VFloat (py_fmax Float.zero (py_fmin x Float.one)))
   else setitem validated "temperature" (VFloat Float.f0_7));;
  (b ← contains "top_p" validated;
   if b then
     v ← getitem validated "top_p";
     x ← lift (py_float v);
     setitem validated "top_p"
       (VFloat (py_fmax Float.zero (py_fmin x Float.one)))
   else setitem validated "top_p" (VFloat Float.f0_9));;
  (b ← contains "top_k" validated;
   if b then
     v ← getitem validated "top_k";
     n ← lift (py_int v);
     setitem validated "top_k" (VInt (py_max 1 (py_min n 100)))
   else pass);;
  (b ← contains "stream" validated;
   if b then
     v ← getitem validated "stream";
     setitem validated "stream" (VBool (py_bool v))
   else setitem validated "stream" (VBool false));;
  (b ← contains "seed" validated;
   if b then
     v ← getitem validated "seed";
     n ← lift (py_int v);
     setitem validated "seed" (VInt n)
   else pass);;
  (b ← contains "enable_thinking" validated;
   if negb b then setitem validated "enable_thinking" (VBool false)
   else pass);;
  ret validated.

(** The body of the loop over [enumerate(output["choices"])]. *)
Definition format_choice (i : Z) (choice : pyval) : result pyval :=
  (message ← py_get choice "message" (VDict ∅);
   content ← py_get message "content" (VStr "");
   finish_reason ← py_get choice "finish_reason" (VStr "stop");
   let choice_message : dict :=
     <["role" := VStr "assistant"]> (<["content" := content]> ∅) in
   message ← py_get choice "message" (VDict ∅);
   has_tool_calls ← py_in "tool_calls" message;
   choice_message ←
     (if has_tool_calls : bool then
        message ← py_getitem choice "message";
        tool_calls ← py_getitem message "tool_calls";
        Ok (<["tool_calls" := tool_calls]> choice_message)
      else Ok choice_message);
   Ok (VDict (<["index" := VInt i]>
             (<["message" := VDict choice_message]>
             (<["finish_reason" := finish_reason]> ∅)))))%result.

Fixpoint format_choices (i : Z) (choices : list pyval)
    : result (list pyval) :=
  match choices with
  | [] => Ok []
  | choice :: rest =>
      (choice_data ← format_choice i choice;
       others ← format_choices (i + 1) rest;
       Ok (choice_data :: others))%result
  end.

(** [_format_response]; [uuid4] stands for [str(uuid.uuid4())] and
    [now] for [datetime.now().strftime("%Y-%m-%d %H:%M:%S")]. *)
Definition _format_response (uuid4 now : string)
    (api_response original_params : dict) : result dict :=
  (let output := get_default api_response "output" (VDict ∅) in
   let formatted_response : dict :=
     <["id" := get_default api_response "request_id" (VStr uuid4)]>
     (<["model" := get_default original_params "model" (VStr "")]>
     (<["created" := VStr now]>
     (<["choices" := VList []]>
     (<["usage" := VDict ∅]> ∅)))) in
   has_text ← py_in "text" output;
   choices ←
     (if has_text : bool then
        text ← py_getitem output "text";
        finish_reason ← py_get output "finish_reason" (VStr "stop");
        Ok [VDict (<["index" := VInt 0]>
                  (<["message" :=
                       VDict (<["role" := VStr "assistant"]>
                             (<["content" := text]> ∅))]>
                  (<["finish_reason" := finish_reason]> ∅)))]
      else
        has_choices ← py_in "choices" output;
        if has_choices : bool then
          choices ← py_getitem output "choices";
          items ← py_iter choices;
          format_choices 0 items
        else Ok []);
   let formatted_response :=
     <["choices" := VList choices]> formatted_response in
   let usage := get_default api_response "usage" (VDict ∅) in
   if py_bool usage then
     prompt_tokens ← py_get usage "input_tokens" (VInt 0);
     completion_tokens ← py_get usage "output_tokens" (VInt 0);
     total_tokens ← py_get usage "total_tokens" (VInt 0);
     Ok (<["usage" :=
             VDict (<["prompt_tokens" := prompt_tokens]>
                   (<["completion_tokens" := completion_tokens]>
                   (<["total_tokens" := total_tokens]> ∅)))]>
           formatted_response)
   else Ok formatted_response)%result.

End provider.
End Aliyun.

(** ** The DeepSeek provider *)

Module DeepSeek.

(** The response object of the chat-completion client: the attributes
    [call_model] reads.  [reasoning_content] is [None] when the message
    has no such attribute; [function_call] and [usage] are [None] when the
    attribute is missing or false. *)
Record FunctionCall : Type := {
  name : string;
  arguments : string
}.

Record ChatCompletionMessage : Type := {
  role : string;
  content : pyval;
  reasoning_content : option pyval;
  function_call : option FunctionCall
}.

Record Choice : Type := {
  index : Z;
  message : ChatCompletionMessage;
  finish_reason : string
}.

Record CompletionUsage : Type := {
  prompt_tokens : Z;
  completion_tokens : Z;
  total_tokens : Z
}.

Record ChatCompletion : Type := {
  id : string;
  object : string;
  model : string;
  choices : list Choice;
  usage : option CompletionUsage
}.

Section provider.
Context `{NumericLiterals}.
Variable settings : Settings.

Definition provider_name : string := "deepseek".

Definition supported_models : list string :=
  get_default (PROVIDER_SUPPORTED_MODELS settings) "deepseek"
    ["deepseek-chat"; "deepseek-reasoner"].

Definition validate_parameters (model : string) (parameters : loc) : M loc :=
  if negb (bool_decide (model ∈ supported_models)) then
    let supported := join ", " supported_models in
    raise (ValueError ("Model '" +:+ model +:+
                       "' not supported. Supported models: " +:+ supported))
  else
  has_prompt ← contains "prompt" parameters;
  has_messages ← contains "messages" parameters;
  if negb has_prompt && negb has_messages then
    raise (ValueError "Parameter 'prompt' or 'messages' is required")
  else
  validated ← dict_copy parameters;
  setitem validated "model" (VStr model);;
  (b ← contains "messages" parameters;
   if b then
     v ← getitem parameters "messages";
     setitem validated "messages" v
   else
     b ← contains "prompt" parameters;
     if b then
       v ← getitem parameters "prompt";
       setitem validated "messages" (user_message v);;
       b ← contains "prompt" validated;
       if b then delitem validated "prompt" else pass
     else pass);;
  (b ← contains "max_tokens" validated;
   if b then
     v ← getitem validated "max_tokens";
     n ← lift (py_int v);
     setitem validated "max_tokens" (VInt (py_min n 32768))
   else setitem validated "max_tokens" (VInt 4096));;
  (b ← contains "temperature" validated;
   if b && bool_decide (model ≠ "deepseek-reasoner") then
     v ← getitem validated "temperature";
     x ← lift (py_float v);
     setitem validated "temperature"
       (VFloat (py_fmax Float.zero (py_fmin x Float.two)))
   else if bool_decide (model ≠ "deepseek-reasoner") then
     setitem validated "temperature" (VFloat Float.f0_7)
   else pass);;
  (b ← contains "top_p" validated;
   if b && bool_decide (model ≠ "deepseek-reasoner") then
     v ← getitem validated "top_p";
     x ← lift (py_float v);
     setitem validated "top_p"
       (VFloat (py_fmax Float.zero (py_fmin x Float.one)))
   else if bool_decide (model ≠ "deepseek-reasoner") then
     setitem validated "top_p" (VFloat Float.f0_9)
   else pass);;
  (b ← contains "stream" validated;
   if b then
     v ← getitem validated "stream";
     setitem validated "stream" (VBool (py_bool v))
   else setitem validated "stream" (VBool false));;
  ret validated.

(** The part of [call_model] that follows the call of the client: the
    result built from the response.  [request_model] is the [model]
    argument of [call_model]; [now] stands for
    [datetime.now().strftime("%Y-%m-%d %H:%M:%S")]. *)
Definition choice_data (request_model : string) (choice : Choice) : pyval :=
  let msg : dict :=
    <["role" := VStr (role (message choice))]>
    (<["content" := content (message choice)]> ∅) in
  let msg :=
    match reasoning_content (message choice) with
    | Some r =>
        if bool_decide (request_model = "deepseek-reasoner")
        then <["reasoning_content" := r]> msg else msg
    | None => msg
    end in
  let msg :=
    match function_call (message choice) with
    | Some fc =>
        <["function_call" :=
            VDict (<["name" := VStr (name fc)]>
                  (<["arguments" := VStr (arguments fc)]> ∅))]> msg
    | None => msg
    end in
  VDict (<["index" := VInt (index choice)]>
        (<["message" := VDict msg]>
        (<["finish_reason" := VStr (finish_reason choice)]> ∅))).

Definition call_model_result (request_model now : string)
    (response : ChatCompletion) : dict :=
  let result : dict :=
    <["id" := VStr (id response)]>
    (<["object" := VStr (object response)]>
    (<["created" := VStr now]>
    (<["model" := VStr (model response)]>
    (<["choices" := VList (choice_data request_model <$> choices response)]>
      ∅)))) in
  match usage response with
  | Some u =>
      <["usage" :=
          VDict (<["prompt_tokens" := VInt (prompt_tokens u)]>
                (<["completion_tokens" := VInt (completion_tokens u)]>
                (<["total_tokens" := VInt (total_tokens u)]> ∅)))]> result
  | None => result
  end.

End provider.
End DeepSeek.

(** ** The providers of the registry *)

(** The two classes the package registers with [register_provider]; a
    call on a provider dispatches on its class. *)
Inductive provider : Type :=
  | aliyun
  | deepseek.

Section dispatch.
Context `{NumericLiterals}.
Variable settings : Settings.

Definition supported_models (P : provider) : list string :=
  match P with
  | aliyun => Aliyun.supported_models settings
  | deepseek => DeepSeek.supported_models settings
  end.

Definition validate_parameters (P : provider) (model : string)
    (parameters : loc) : M loc :=
  match P with
  | aliyun => Aliyun.validate_parameters settings model parameters
  | deepseek => DeepSeek.validate_parameters settings model parameters
  end.

End dispatch.

(** * The calls of the upstream services *)

(** Further fields of [settings]: the key and the address of each
    service, [None] when the configuration has none. *)
Record Endpoints : Type := {
  ALIYUN_API_KEY : option string;
  ALIYUN_API_URL : option string;
  DEEPSEEK_API_KEY : option string;
  DEEPSEEK_API_URL : option string
}.

(** [not s] for an optional string. *)
Definition unset (s : option string) : bool :=
  match s with
  | None => true
  | Some s => String.eqb s ""
  end.

(** [str(e)], when the text of the exception is modelled. *)
Definition exn_text (e : exn) : option string :=
  match e with Exc _ msg => msg end.

(** [ValueError(f"{prefix}{str(e)}")] *)
Definition api_error (prefix : string) (e : exn) : exn :=
  Exc ValueErrorC ((λ text, prefix +:+ text) <$> exn_text e).

(** What a run of [call_model] leaves: its result or exception, the
    store, and the calls it made on the client of the service
    ([client.post], [client.chat.completions.create]), each with its
    arguments, the first one first.  What the client does with a call is
    its own affair: it may refuse a body it cannot encode before anything
    is on the wire, or repeat a request that failed. *)
Record outcome (R : Type) : Type := {
  returned : result dict;
  final : heap;
  calls : list R
}.
Arguments returned {R} _.
Arguments final {R} _.
Arguments calls {R} _.

Module AliyunCall.

(** The arguments of [client.post]. *)
Record request : Type := {
  url : string;
  json : dict;
  headers : gmap string string
}.

(** What [client.post], [raise_for_status] and [response.json] give for
    a call: the decoded document of a successful response; a status
    [raise_for_status] rejects, with the text of [error_detail]; or
    another exception [e], with [str(e)], raised by the client before or
    after it sent anything, or by the decoding. *)
Inductive reply : Type :=
  | Document (body : pyval)
  | BadStatus (status_code : Z) (error_detail : string)
  | Failure (text : string).

Section provider.
Context `{NumericLiterals}.
Variable settings : Settings.
Variable endpoints : Endpoints.

Definition default_url : string :=
  "https://dashscope.aliyuncs.com/api/v1/services/aigc/text-generation/generation".

Definition exclude_keys : list string := ["model"; "messages"; "prompt"].

(** [request_data], as [call_model] builds it. *)
Definition request_data (validated_params : dict) : result dict :=
  (model ← py_getitem (VDict validated_params) "model";
   messages ← py_getitem (VDict validated_params) "messages";
   Ok (<["model" := model]>
      (<["input" := VDict {[ "messages" := messages ]}]>
      (<["parameters" :=
           VDict (filter (λ kv, kv.1 ∉ exclude_keys) validated_params)]>
         ∅))))%result.

(** [headers], as [call_model] builds them. *)
Definition request_headers (api_key : string) (validated_params : dict)
    : gmap string string :=
  let stream := get_default validated_params "stream" (VBool false) in
  <["Content-Type" := "application/json"]>
  (<["Authorization" := "Bearer " +:+ api_key]>
  (<["X-DashScope-SSE" := if py_bool stream then "enable" else "disable"]>
  (<["X-DashScope-DataInspection" := "disable"]> ∅))).

(** The last handler of the [try] statement, for an exception raised
    while the request is built or the response is formatted. *)
Definition wrapped (r : result dict) : result dict :=
  match r with
  | Ok v => Ok v
  | Raise e => Raise (api_error "Aliyun API error: " e)
  end.

(** [call_model]; [post] stands for the exchange with the service. *)
Definition call_model (post : request → reply) (uuid4 now : string)
    (model : string) (parameters : loc) (h : heap) : outcome request :=
  match Aliyun.validate_parameters settings model parameters h with
  | (Raise e, h') => {| returned := Raise e; final := h'; calls := [] |}
  | (Ok validated, h') =>
      if unset (ALIYUN_API_KEY endpoints) then
        {| returned := Raise (ValueError "Aliyun API key not configured");
           final := h'; calls := [] |}
      else
        let api_key := default "" (ALIYUN_API_KEY endpoints) in
        let api_url :=
          if unset (ALIYUN_API_URL endpoints) then default_url
          else default "" (ALIYUN_API_URL endpoints) in
        match h' !! validated with
        | None => {| returned := Raise dangling; final := h'; calls := [] |}
        | Some validated_params =>
            match request_data validated_params with
            | Raise e =>
                {| returned := wrapped (Raise e); final := h'; calls := [] |}
            | Ok data =>
                let request :=
                  {| url := api_url; json := data;
                     headers := request_headers api_key validated_params |} in
                {| returned :=
                     match post request with
                     | Document (VDict api_response) =>
                         wrapped (Aliyun._format_response uuid4 now
                                    api_response validated_params)
                     | Document _ =>
                         wrapped (Raise (Exc AttributeErrorC None))
                     | BadStatus status_code error_detail =>
                         Raise (ValueError
                                  ("Aliyun API HTTP error: " +:+
                                   pretty status_code +:+ ", " +:+
                                   error_detail))
                     | Failure text =>
                         Raise (ValueError ("Aliyun API error: " +:+ text))
                     end;
                   final := h'; calls := [request] |}
            end
        end
  end.

End provider.
End AliyunCall.

Module DeepSeekCall.

(** A call of [client.chat.completions.create]: the client's key and
    address and the keyword arguments. *)
Record request : Type := {
  api_key : string;
  base_url : string;
  kwargs : dict
}.

(** What the client gives for a call: a completion; an exception [e],
    with [str(e)]; or an object that is no completion, as the stream of
    chunks the client returns for a true [stream], which has none of the
    attributes [call_model] reads. *)
Inductive reply : Type :=
  | Completion (response : DeepSeek.ChatCompletion)
  | Failure (text : string)
  | NoCompletion.

Section provider.
Context `{NumericLiterals}.
Variable settings : Settings.
Variable endpoints : Endpoints.

(** [call_model]; [create] stands for the client and the service.  On an
    object that is no completion the first attribute read, [response.id],
    raises, and the handler wraps the exception. *)
Definition call_model (create : request → reply) (now : string)
    (model : string) (parameters : loc) (h : heap) : outcome request :=
  match DeepSeek.validate_parameters settings model parameters h with
  | (Raise e, h') => {| returned := Raise e; final := h'; calls := [] |}
  | (Ok validated, h') =>
      if unset (DEEPSEEK_API_KEY endpoints) then
        {| returned := Raise (ValueError "DeepSeek API key not configured");
           final := h'; calls := [] |}
      else
        let api_key := default "" (DEEPSEEK_API_KEY endpoints) in
        let base_url :=
          if unset (DEEPSEEK_API_URL endpoints) then "https://api.deepseek.com"
          else default "" (DEEPSEEK_API_URL endpoints) in
        match h' !! validated with
        | None => {| returned := Raise dangling; final := h'; calls := [] |}
        | Some validated_params =>
            let request :=
              {| api_key := api_key; base_url := base_url;
                 kwargs := validated_params |} in
            {| returned :=
                 match create request with
                 | Completion response =>
                     Ok (DeepSeek.call_model_result model now response)
                 | Failure text =>
                     Raise (ValueError ("DeepSeek API error: " +:+ text))
                 | NoCompletion =>
                     Raise (api_error "DeepSeek API error: "
                              (Exc AttributeErrorC None))
                 end;
               final := h'; calls := [request] |}
        end
  end.

End provider.
End DeepSeekCall.

(** * Specification *)

(** ** Weakest preconditions *)

(** [wp c h Q E]: run from the store [h], the computation [c] returns a
    value and a store that satisfy [Q], or raises an exception that
    satisfies [E] with the store it leaves. *)
Definition wp {A : Type} (c : M A) (h : heap)
    (Q : A → heap → Prop) (E : exn → heap → Prop) : Prop :=
  match c h with
  | (Ok a, h') => Q a h'
  | (Raise e, h') => E e h'
  end.

(** ** The validated dictionary, key by key *)

(** While the statements of [validate_parameters] run, the object
    [validated] agrees with the caller's dictionary [d] on every key no
    statement has reached yet, and holds at every key in [done] what the
    provider's rule [rule] for that key prescribes. *)
Definition Inv (rule : string → option pyval → Prop) (d : dict)
    (done : list string) (o : dict) : Prop :=
  ∀ k, if decide (k ∈ done) then rule k (o !! k) else o !! k = d !! k.

(** The store while [validated] is being filled: the caller's store [h]
    and one more object, [validated], at [lv]. *)
Definition filling (h : heap) (lv : loc) (R : dict → Prop) : heap → Prop :=
  λ h', ∃ o, h' = <[lv := o]> h ∧ R o.

(** The exceptions of the two [raise] statements of
    [validate_parameters]. *)
Definition unsupported_model (model : string) (supported : list string)
    : exn :=
  ValueError ("Model '" +:+ model +:+ "' not supported. Supported models: "
              +:+ join ", " supported).

Definition missing_input : exn :=
  ValueError "Parameter 'prompt' or 'messages' is required".

Definition has_input (d : dict) : Prop :=
  is_Some (d !! "prompt") ∨ is_Some (d !! "messages").

(** [conv_error ints floats d e]: [e] is what [int] raises on the value
    [d] has at one of the keys [ints], or [float] on the value at one of
    the keys [floats]. *)
Inductive conv_error `{NumericLiterals} (ints floats : list string)
    (d : dict) : exn → Prop :=
  | conv_error_int k v e :
      k ∈ ints → d !! k = Some v → py_int v = Raise e →
      conv_error ints floats d e
  | conv_error_float k v e :
      k ∈ floats → d !! k = Some v → py_float v = Raise e →
      conv_error ints floats d e.

(** The outcomes of [validate_parameters] on a store [h] in which
    [parameters] is the dictionary [d].  It returns a new object, which
    obeys the provider's [rule] at the keys [assigned] and agrees with [d]
    elsewhere; or it raises, and leaves the store as it was unless a
    conversion failed after the copy was made. *)
Inductive accepts (supported : list string)
    (rule : string → option pyval → Prop) (assigned : list string)
    (model : string) (d : dict) (h : heap) : loc → heap → Prop :=
  | accepts_intro o :
      model ∈ supported → has_input d → Inv rule d assigned o →
      accepts supported rule assigned model d h
        (fresh (dom h)) (<[fresh (dom h) := o]> h).

Inductive rejects `{NumericLiterals} (supported : list string)
    (ints floats : list string) (model : string) (d : dict) (h : heap)
    : exn → heap → Prop :=
  | rejects_model :
      model ∉ supported →
      rejects supported ints floats model d h
        (unsupported_model model supported) h
  | rejects_input :
      model ∈ supported →
      d !! "prompt" = None → d !! "messages" = None →
      rejects supported ints floats model d h missing_input h
  | rejects_conversion e o :
      model ∈ supported → has_input d → conv_error ints floats d e →
      rejects supported ints floats model d h e (<[fresh (dom h) := o]> h).

Section rules.
Context `{NumericLiterals}.

(** What the Aliyun [validate_parameters] leaves at each key it
    assigns, from the caller's dictionary [d]. *)
Inductive aliyun_rule (model : string) (d : dict)
    : string → option pyval → Prop :=
  | ar_model :
      aliyun_rule model d "model" (Some (VStr model))
  | ar_messages m :
      d !! "messages" = Some m →
      aliyun_rule model d "messages" (Some m)
  | ar_prompt p :
      d !! "messages" = None → d !! "prompt" = Some p →
      aliyun_rule model d "messages"
        (Some (VList [VDict (<["role" := VStr "user"]>
                            (<["content" := p]> ∅))]))
  | ar_max_tokens v n :
      d !! "max_tokens" = Some v → py_int v = Ok n →
      aliyun_rule model d "max_tokens" (Some (VInt (py_min n 6000)))
  | ar_max_tokens_default :
      d !! "max_tokens" = None →
      aliyun_rule model d "max_tokens" (Some (VInt 2048))
  | ar_temperature v x :
      d !! "temperature" = Some v → py_float v = Ok x →
      aliyun_rule model d "temperature"
        (Some (VFloat (py_fmax Float.zero (py_fmin x Float.one))))
  | ar_temperature_default :
      d !! "temperature" = None →
      aliyun_rule model d "temperature" (Some (VFloat Float.f0_7))
  | ar_top_p v x :
      d !! "top_p" = Some v → py_float v = Ok x →
      aliyun_rule model d "top_p"
        (Some (VFloat (py_fmax Float.zero (py_fmin x Float.one))))
  | ar_top_p_default :
      d !! "top_p" = None →
      aliyun_rule model d "top_p" (Some (VFloat Float.f0_9))
  | ar_top_k v n :
      d !! "top_k" = Some v → py_int v = Ok n →
      aliyun_rule model d "top_k" (Some (VInt (py_max 1 (py_min n 100))))
  | ar_top_k_absent :
      d !! "top_k" = None →
      aliyun_rule model d "top_k" None
  | ar_stream v :
      d !! "stream" = Some v →
      aliyun_rule model d "stream" (Some (VBool (py_bool v)))
  | ar_stream_default :
      d !! "stream" = None →
      aliyun_rule model d "stream" (Some (VBool false))
  | ar_seed v n :
      d !! "seed" = Some v → py_int v = Ok n →
      aliyun_rule model d "seed" (Some (VInt n))
  | ar_seed_absent :
      d !! "seed" = None →
      aliyun_rule model d "seed" None
  | ar_enable_thinking v :
      d !! "enable_thinking" = Some v →
      aliyun_rule model d "enable_thinking" (Some v)
  | ar_enable_thinking_default :
      d !! "enable_thinking" = None →
      aliyun_rule model d "enable_thinking" (Some (VBool false)).

(** What the DeepSeek [validate_parameters] leaves at each key it
    assigns or deletes. *)
Inductive deepseek_rule (model : string) (d : dict)
    : string → option pyval → Prop :=
  | dr_model :
      deepseek_rule model d "model" (Some (VStr model))
  | dr_messages m :
      d !! "messages" = Some m →
      deepseek_rule model d "messages" (Some m)
  | dr_prompt p :
      d !! "messages" = None → d !! "prompt" = Some p →
      deepseek_rule model d "messages"
        (Some (VList [VDict (<["role" := VStr "user"]>
                            (<["content" := p]> ∅))]))
  | dr_prompt_kept m :
      d !! "messages" = Some m →
      deepseek_rule model d "prompt" (d !! "prompt")
  | dr_prompt_deleted :
      d !! "messages" = None →
      deepseek_rule model d "prompt" None
  | dr_max_tokens v n :
      d !! "max_tokens" = Some v → py_int v = Ok n →
      deepseek_rule model d "max_tokens" (Some (VInt (py_min n 32768)))
  | dr_max_tokens_default :
      d !! "max_tokens" = None →
      deepseek_rule model d "max_tokens" (Some (VInt 4096))
  | dr_temperature v x :
      model ≠ "deepseek-reasoner" →
      d !! "temperature" = Some v → py_float v = Ok x →
      deepseek_rule model d "temperature"
        (Some (VFloat (py_fmax Float.zero (py_fmin x Float.two))))
  | dr_temperature_default :
      model ≠ "deepseek-reasoner" →
      d !! "temperature" = None →
      deepseek_rule model d "temperature" (Some (VFloat Float.f0_7))
  | dr_temperature_reasoner :
      model = "deepseek-reasoner" →
      deepseek_rule model d "temperature" (d !! "temperature")
  | dr_top_p v x :
      model ≠ "deepseek-reasoner" →
      d !! "top_p" = Some v → py_float v = Ok x →
      deepseek_rule model d "top_p"
        (Some (VFloat (py_fmax Float.zero (py_fmin x Float.one))))
  | dr_top_p_default :
      model ≠ "deepseek-reasoner" →
      d !! "top_p" = None →
      deepseek_rule model d "top_p" (Some (VFloat Float.f0_9))
  | dr_top_p_reasoner :
      model = "deepseek-reasoner" →
      deepseek_rule model d "top_p" (d !! "top_p")
  | dr_stream v :
      d !! "stream" = Some v →
      deepseek_rule model d "stream" (Some (VBool (py_bool v)))
  | dr_stream_default :
      d !! "stream" = None →
      deepseek_rule model d "stream" (Some (VBool false)).

Definition rule (P : provider) (model : string) (d : dict)
    : string → option pyval → Prop :=
  match P with
  | aliyun => aliyun_rule model d
  | deepseek => deepseek_rule model d
  end.

End rules.

(** The keys [validate_parameters] assigns or deletes, the last one
    first. *)
Definition assigned (P : provider) : list string :=
  match P with
  | aliyun =>
      ["enable_thinking"; "seed"; "stream"; "top_k"; "top_p"; "temperature";
       "max_tokens"; "messages"; "model"]
  | deepseek =>
      ["stream"; "top_p"; "temperature"; "max_tokens"; "prompt"; "messages";
       "model"]
  end.

(** The keys whose value goes through [int], and through [float]. *)
Definition ints (P : provider) : list string :=
  match P with
  | aliyun => ["max_tokens"; "top_k"; "seed"]
  | deepseek => ["max_tokens"]
  end.

Definition floats (P : provider) (model : string) : list string :=
  match P with
  | aliyun => ["temperature"; "top_p"]
  | deepseek =>
      if bool_decide (model ≠ "deepseek-reasoner")
      then ["temperature"; "top_p"] else []
  end.

(** The core set of parameter names of the specification. *)
Definition core_keys : list string :=
  ["model"; "messages"; "prompt"; "max_tokens"; "temperature"; "top_p";
   "top_k"; "stream"; "seed"; "enable_thinking"].

(** ** Declared bounds *)

(** The bounds written in the clamping statements of the providers:
    [min(int(v), hi)] declares a maximum only, [max(lo, min(.., hi))] a
    minimum and a maximum. *)
Inductive range : Type :=
  | AtMost (hi : Z)
  | IntBetween (lo hi : Z)
  | FloatBetween (lo hi : spec_float).

Definition within (r : range) (v : pyval) : Prop :=
  match r, v with
  | AtMost hi, VInt n => n ≤ hi
  | IntBetween lo hi, VInt n => lo ≤ n ≤ hi
  | FloatBetween lo hi, VFloat x =>
      Float.leb lo x = true ∧ Float.leb x hi = true
  | _, _ => False
  end.

Definition bounds (P : provider) : list (string * range) :=
  match P with
  | aliyun =>
      [("max_tokens", AtMost 6000);
       ("temperature", FloatBetween Float.zero Float.one);
       ("top_p", FloatBetween Float.zero Float.one);
       ("top_k", IntBetween 1 100)]
  | deepseek =>
      [("max_tokens", AtMost 32768);
       ("temperature", FloatBetween Float.zero Float.two);
       ("top_p", FloatBetween Float.zero Float.one)]
  end.

(** ** Usage statistics *)

Definition usage_stats (prompt completion total : pyval) : pyval :=
  VDict (<["prompt_tokens" := prompt]>
        (<["completion_tokens" := completion]>
        (<["total_tokens" := total]> ∅))).

Definition zero_usage : pyval := usage_stats (VInt 0) (VInt 0) (VInt 0).

(** One normalised choice. *)
Definition assistant_choice (i : Z) (text finish_reason : pyval) : pyval :=
  VDict (<["index" := VInt i]>
        (<["message" :=
             VDict (<["role" := VStr "assistant"]>
                   (<["content" := text]> ∅))]>
        (<["finish_reason" := finish_reason]> ∅))).

(** ** Sample data *)

(** A reader of plain decimal integers, with an optional sign: a part of
    what [int] and [float] read in a string. *)
Definition digit (c : ascii) : option Z :=
  let n := Z.of_N (N_of_ascii c) in
  if (48 <=? n) && (n <=? 57) then Some (n - 48) else None.

Fixpoint digits (acc : Z) (s : string) : option Z :=
  match s with
  | EmptyString => Some acc
  | String c s' =>
      match digit c with
      | Some n => digits (10 * acc + n) s'
      | None => None
      end
  end.

Definition decimal (s : string) : option Z :=
  match s with
  | EmptyString => None
  | _ => digits 0 s
  end.

Definition signed_decimal (s : string) : option (bool * Z) :=
  match s with
  | String "-" s' => pair true <$> decimal s'
  | String "+" s' => pair false <$> decimal s'
  | _ => pair false <$> decimal s
  end.

Definition decimal_literals : NumericLiterals := {|
  int_of_str s :=
    (λ sn : bool * Z, if sn.1 then - sn.2 else sn.2) <$> signed_decimal s;
  float_of_str s :=
    (λ sn : bool * Z,
       if sn.1 then SFopp (Float.of_Z sn.2) else Float.of_Z sn.2)
      <$> signed_decimal s
|}.

(** No table of models in the configuration: the providers fall back on
    their own lists. *)
Definition no_settings : Settings := {| PROVIDER_SUPPORTED_MODELS := ∅ |}.

(** A store with one dictionary, the caller's. *)
Definition store_of (d : dict) : heap := {[ 1%positive := d ]}.

(** Parameters of a caller. *)
Definition hello_params : dict := {[ "prompt" := VStr "hello" ]}.

Definition hot_params : dict :=
  <["prompt" := VStr "hello"]>
  (<["temperature" := VFloat Float.five]>
  (<["top_k" := VInt 1000]>
  (<["max_tokens" := VInt 99999]> ∅))).

Definition sampling_params : dict :=
  <["prompt" := VStr "hello"]>
  (<["temperature" := VFloat Float.f0_5]>
  (<["top_p" := VFloat Float.f0_5]> ∅)).

Definition custom_params : dict :=
  <["prompt" := VStr "hello"]> (<["custom_flag" := VStr "on"]> ∅).

Definition no_input_params : dict := {[ "max_tokens" := VInt 5 ]}.

Definition negative_max_tokens_params : dict :=
  <["prompt" := VStr "hello"]> (<["max_tokens" := VInt (-5)]> ∅).

Definition null_max_tokens_params : dict :=
  <["prompt" := VStr "hello"]> (<["max_tokens" := VNone]> ∅).

(** Payloads of the Aliyun service. *)
Definition hello_payload : dict :=
  <["output" := VDict {[ "text" := VStr "hi there" ]}]>
  (<["usage" := VDict (<["input_tokens" := VInt 2]>
                      (<["output_tokens" := VInt 3]> ∅))]> ∅).

Definition no_usage_payload : dict :=
  {[ "output" := VDict {[ "text" := VStr "hi there" ]} ]}.

Definition empty_output_payload : dict :=
  <["output" := VDict ∅]> (<["request_id" := VStr "req-1"]> ∅).

Definition odd_usage_payload : dict :=
  <["output" := VDict ∅]> (<["usage" := VInt 5]> ∅).

(** A response of the DeepSeek client that carries no usage. *)
Definition no_usage_response : DeepSeek.ChatCompletion := {|
  DeepSeek.id := "cmpl-1";
  DeepSeek.object := "chat.completion";
  DeepSeek.model := "deepseek-chat";
  DeepSeek.choices := [];
  DeepSeek.usage := None
|}.

(** ** Statements about a validated dictionary and a normalised result *)

(** The usage field of a payload is absent, false or a dictionary. *)
Definition usage_readable (api_response : dict) : Prop :=
  py_bool (get_default api_response "usage" (VDict ∅)) = false ∨
  ∃ u, api_response !! "usage" = Some (VDict u).


(** Every field of [o] that has declared bounds lies within them. *)
Definition in_declared_bounds (P : provider) (o : dict) : Prop :=
  ∀ k r v, (k, r) ∈ bounds P → o !! k = Some v → within r v.

(** [m] is the conversation [validate_parameters] takes from [d]: the
    messages given, or else the list of one message, of role ["user"],
    with the prompt as its content. *)
Definition messages_from (d : dict) (m : pyval) : Prop :=
  d !! "messages" = Some m ∨
  (d !! "messages" = None ∧
   ∃ prompt,
     d !! "prompt" = Some prompt ∧
     m = VList [VDict (<["role" := VStr "user"]>
                      (<["content" := prompt]> ∅))]).

Definition is_ok {A : Type} (r : result A) : bool :=
  match r with
  | Ok _ => true
  | Raise _ => false
  end.

(** The value of [d] at [k], if any, goes through the conversion. *)
Definition converts {A : Type} (conv : pyval → result A) (d : dict)
    (k : string) : bool :=
  match d !! k with
  | Some v => is_ok (conv v)
  | None => true
  end.

(** Every supplied value that [validate_parameters] converts goes
    through its conversion. *)
Definition convertible `{NumericLiterals} (P : provider) (model : string)
    (d : dict) : bool :=
  forallb (converts py_int d) (ints P) &&
  forallb (converts py_float d) (floats P model).

(** ** Defaults *)

(** The values [validate_parameters] assigns to the keys the caller left
    out. *)
Definition defaults (P : provider) (model : string) : list (string * pyval) :=
  match P with
  | aliyun =>
      [("max_tokens", VInt 2048); ("temperature", VFloat Float.f0_7);
       ("top_p", VFloat Float.f0_9); ("stream", VBool false);
       ("enable_thinking", VBool false)]
  | deepseek =>
      [("max_tokens", VInt 4096); ("stream", VBool false)] ++
      (if bool_decide (model ≠ "deepseek-reasoner")
       then [("temperature", VFloat Float.f0_7); ("top_p", VFloat Float.f0_9)]
       else [])
  end.

(** The keys of the core set a provider reads and writes nowhere. *)
Definition passed_through (P : provider) : list string :=
  match P with
  | aliyun => ["prompt"]
  | deepseek => ["top_k"; "seed"; "enable_thinking"]
  end.

(** [v] is a value the clamping of range [r] leaves as it is. *)
Definition inside (r : range) (v : pyval) : Prop :=
  match r, v with
  | AtMost hi, VInt n => n ≤ hi
  | IntBetween lo hi, VInt n => lo ≤ n ≤ hi
  | FloatBetween lo hi, VFloat x =>
      Float.ltb lo x = true ∧ Float.leb x hi = true
  | _, _ => False
  end.

Definition both_inputs_params : dict :=
  <["messages" := VList []]>
  (<["prompt" := VStr "hello"]>
  (<["stream" := VInt 1]>
  (<["model" := VStr "other"]> ∅))).

Definition loose_params : dict :=
  <["prompt" := VStr "hello"]>
  (<["top_k" := VStr "many"]>
  (<["seed" := VNone]> ∅)).

Definition in_range_params : dict :=
  <["prompt" := VStr "hello"]>
  (<["temperature" := VFloat Float.f0_5]>
  (<["max_tokens" := VInt 100]> ∅)).

Definition nan_params : dict :=
  <["prompt" := VStr "hello"]> (<["temperature" := VFloat S754_nan]> ∅).

(** ** Statements about normalised choices *)

(** The keys of every result of the Aliyun [_format_response]. *)
Definition result_keys : gset string :=
  {[ "id"; "model"; "created"; "choices"; "usage" ]}.

(** An upstream choice the loop of [_format_response] can read: a
    dictionary whose [message], when there is one, is a dictionary. *)
Definition readable_choice (choice : pyval) : Prop :=
  ∃ c, choice = VDict c ∧
       (c !! "message" = None ∨ ∃ msg, c !! "message" = Some (VDict msg)).

(** The message of an upstream choice, [{}] when there is none. *)
Definition message_of (c : dict) : pyval :=
  get_default c "message" (VDict ∅).

Definition is_scalar (v : pyval) : bool :=
  match v with
  | VNone | VBool _ | VInt _ | VFloat _ => true
  | VStr _ | VList _ | VDict _ => false
  end.

Definition tool_choice : dict :=
  <["message" := VDict (<["content" := VStr "calling"]>
                       (<["tool_calls" := VList [VStr "call-1"]]> ∅))]>
  (<["finish_reason" := VStr "tool_calls"]> ∅).

Definition choices_payload : dict :=
  <["output" := VDict {[ "choices" := VList [VDict ∅; VDict tool_choice] ]}]>
  (<["usage" := VDict {[ "total_tokens" := VInt 9 ]}]> ∅).

Definition text_and_choices_payload : dict :=
  {[ "output" := VDict (<["text" := VStr "flat"]>
                       (<["choices" := VInt 7]> ∅)) ]}.

Definition null_output_payload : dict := {[ "output" := VNone ]}.

Definition empty_usage_payload : dict :=
  <["output" := VDict {[ "text" := VStr "hi" ]}]>
  (<["usage" := VDict ∅]> ∅).

(** ** Statements about calls *)

(** The address a provider uses: the configured one, or its own. *)
Definition address (configured : option string) (fallback : string)
    : string :=
  if unset configured then fallback else default "" configured.

(** The truth value of the caller's [stream], [False] when absent. *)
Definition streams (d : dict) : bool :=
  from_option py_bool false (d !! "stream").

Definition configuration : Endpoints := {|
  ALIYUN_API_KEY := Some "sk-a";
  ALIYUN_API_URL := None;
  DEEPSEEK_API_KEY := Some "sk-d";
  DEEPSEEK_API_URL := Some "https://proxy.example/v1"
|}.

Definition no_configuration : Endpoints := {|
  ALIYUN_API_KEY := None;
  ALIYUN_API_URL := None;
  DEEPSEEK_API_KEY := Some "";
  DEEPSEEK_API_URL := None
|}.

Definition streaming_params : dict :=
  <["prompt" := VStr "hello"]>
  (<["stream" := VStr "yes"]>
  (<["custom_flag" := VStr "on"]> ∅)).

(** Services that answer every request in the same way. *)
Definition hello_service (_ : AliyunCall.request) : AliyunCall.reply :=
  AliyunCall.Document (VDict hello_payload).

Definition broken_service (_ : AliyunCall.request) : AliyunCall.reply :=
  AliyunCall.Document (VDict null_output_payload).

Definition busy_service (_ : AliyunCall.request) : AliyunCall.reply :=
  AliyunCall.BadStatus 429 "{'message': 'busy'}".

Definition silent_client (_ : DeepSeekCall.request) : DeepSeekCall.reply :=
  DeepSeekCall.Completion no_usage_response.

Definition failing_client (_ : DeepSeekCall.request) : DeepSeekCall.reply :=
  DeepSeekCall.Failure "Connection error.".

(** A response of the DeepSeek client with a reasoning trace and a
    function call. *)
Definition reasoned_response : DeepSeek.ChatCompletion := {|
  DeepSeek.id := "cmpl-2";
  DeepSeek.object := "chat.completion";
  DeepSeek.model := "deepseek-reasoner-0528";
  DeepSeek.choices :=
    [{| DeepSeek.index := 3;
        DeepSeek.message :=
          {| DeepSeek.role := "assistant";
             DeepSeek.content := VStr "42";
             DeepSeek.reasoning_content := Some (VStr "six times seven");
             DeepSeek.function_call :=
               Some {| DeepSeek.name := "answer";
                       DeepSeek.arguments := "{}" |} |};
        DeepSeek.finish_reason := "stop" |}];
  DeepSeek.usage :=
    Some {| DeepSeek.prompt_tokens := 5;
            DeepSeek.completion_tokens := 7;
            DeepSeek.total_tokens := 12 |}
|}.

Definition reasoning_client (_ : DeepSeekCall.request)
    : DeepSeekCall.reply :=
  DeepSeekCall.Completion reasoned_response.

(** * Properties *)

(** ** Comparison of floats *)

Section float_order.

Lemma SFcompare_antisym (x y : spec_float) :
  SFcompare y x = CompOpp <$> SFcompare x y.
Proof.
  destruct x as [sx|sx| |sx mx ex], y as [sy|sy| |sy my ey]; simpl;
    try done; try (by destruct sx); try (by destruct sy);
    try (by destruct sx, sy).
  pose proof (Pos.compare_cont_antisym mx my Eq) as Hm. simpl in Hm.
  destruct sx, sy; simpl; try done;
    rewrite (Z.compare_antisym ex ey);
    destruct (ex ?= ey); simpl; try done; by rewrite <- Hm.
Qed.

Lemma SFcompare_refl (x : spec_float) (c : comparison) (y : spec_float) :
  SFcompare x y = Some c → SFcompare x x = Some Eq.
Proof.
  destruct x as [sx|sx| |sx mx ex]; simpl; try done.
  - by destruct sx.
  - intros _. destruct sx; rewrite Z.compare_refl;
      by rewrite (Pos.compare_cont_refl mx Eq).
Qed.

Lemma ltb_leb (x y : spec_float) :
  Float.ltb x y = true → Float.leb x y = true.
Proof.
  unfold Float.ltb, Float.leb, SFltb, SFleb.
  by destruct (SFcompare x y) as [[]|].
Qed.

Lemma leb_refl (x y : spec_float) :
  Float.leb x y = true → Float.leb x x = true ∧ Float.leb y y = true.
Proof.
  unfold Float.leb, SFleb. intros Hxy.
  destruct (SFcompare x y) as [c|] eqn:Hc; [|done].
  rewrite (SFcompare_refl x c y Hc).
  assert (SFcompare y x = Some (CompOpp c)) as Hc'
    by (by rewrite SFcompare_antisym, Hc).
  by rewrite (SFcompare_refl y _ x Hc').
Qed.

Lemma SFcompare_None (x y : spec_float) :
  SFcompare x y = None → x = S754_nan ∨ y = S754_nan.
Proof. destruct x, y; simpl; auto; discriminate. Qed.

Lemma SFcompare_nan_r (x : spec_float) : SFcompare x S754_nan = None.
Proof. by destruct x. Qed.

(** Among two floats that compare with a third one, [not (y < x)] is
    [x <= y]. *)
Lemma not_ltb_leb (lo x y : spec_float) :
  Float.ltb lo x = true → Float.leb lo y = true →
  Float.ltb y x = false → Float.leb x y = true.
Proof.
  unfold Float.ltb, Float.leb, SFltb, SFleb. intros Hx Hy.
  rewrite (SFcompare_antisym x y).
  destruct (SFcompare x y) as [[]|] eqn:Hxy; simpl; try done.
  intros _. destruct (SFcompare_None _ _ Hxy) as [->| ->].
  - by rewrite SFcompare_nan_r in Hx.
  - by rewrite SFcompare_nan_r in Hy.
Qed.

(** The value of [max(lo, min(x, hi))] lies between [lo] and [hi],
    whatever [x] is, a NaN or an infinity included. *)
Lemma clamp_bounds (lo hi x : spec_float) :
  Float.leb lo hi = true →
  Float.leb lo (py_fmax lo (py_fmin x hi)) = true ∧
  Float.leb (py_fmax lo (py_fmin x hi)) hi = true.
Proof.
  intros Hlh. destruct (leb_refl _ _ Hlh) as [Hll Hhh].
  unfold py_fmax, py_fmin.
  destruct (Float.ltb hi x) eqn:Hhx.
  - by destruct (Float.ltb lo hi).
  - destruct (Float.ltb lo x) eqn:Hlx; [|done].
    split; [by apply ltb_leb|]. by apply (not_ltb_leb lo).
Qed.

End float_order.

(** ** Rules of the weakest precondition *)

Section wp_rules.
Context {A B : Type}.
Implicit Types (h : heap) (o : dict) (E : exn → heap → Prop).

Lemma wp_ret (a : A) h (Q : A → heap → Prop) E :
  Q a h → wp (ret a) h Q E.
Proof. done. Qed.

Lemma wp_raise (e : exn) h (Q : A → heap → Prop) E :
  E e h → wp (raise e) h Q E.
Proof. done. Qed.

Lemma wp_lift (r : result A) h (Q : A → heap → Prop) E :
  match r with Ok a => Q a h | Raise e => E e h end → wp (lift r) h Q E.
Proof. by destruct r. Qed.

Lemma wp_bind (c : M A) (f : A → M B) h (Q : B → heap → Prop) E :
  wp c h (λ a h', wp (f a) h' Q E) E → wp (bind c f) h Q E.
Proof. unfold wp, bind. by destruct (c h) as [[a|e] h']. Qed.

Lemma wp_mono (c : M A) h (Q Q' : A → heap → Prop) E E' :
  wp c h Q E →
  (∀ a h', Q a h' → Q' a h') → (∀ e h', E e h' → E' e h') →
  wp c h Q' E'.
Proof. unfold wp. destruct (c h) as [[a|e] h']; auto. Qed.

(** Sequencing through an intermediate assertion. *)
Lemma wp_seq (R : A → heap → Prop) (c : M A) (f : A → M B) h
    (Q : B → heap → Prop) E :
  wp c h R E → (∀ a h', R a h' → wp (f a) h' Q E) → wp (bind c f) h Q E.
Proof.
  intros Hc Hf. apply wp_bind. eapply wp_mono; [apply Hc|..]; auto.
Qed.

Lemma wp_run_ok (c : M A) h (Q : A → heap → Prop) E a h' :
  wp c h Q E → c h = (Ok a, h') → Q a h'.
Proof. unfold wp. intros Hwp Hr. by rewrite Hr in Hwp. Qed.

Lemma wp_run_raise (c : M A) h (Q : A → heap → Prop) E e h' :
  wp c h Q E → c h = (Raise e, h') → E e h'.
Proof. unfold wp. intros Hwp Hr. by rewrite Hr in Hwp. Qed.

End wp_rules.

Section wp_dict.
Implicit Types (h : heap) (o : dict) (E : exn → heap → Prop).

Lemma wp_pass h (Q : unit → heap → Prop) E : Q tt h → wp pass h Q E.
Proof. done. Qed.

Lemma wp_contains k l o h (Q : bool → heap → Prop) E :
  h !! l = Some o →
  Q (bool_decide (is_Some (o !! k))) h → wp (contains k l) h Q E.
Proof. unfold wp, contains. by intros ->. Qed.

Lemma wp_getitem l k o v h (Q : pyval → heap → Prop) E :
  h !! l = Some o → o !! k = Some v → Q v h → wp (getitem l k) h Q E.
Proof. unfold wp, getitem. by intros -> ->. Qed.

Lemma wp_setitem l k v o h (Q : unit → heap → Prop) E :
  h !! l = Some o →
  Q tt (<[l := <[k := v]> o]> h) → wp (setitem l k v) h Q E.
Proof. unfold wp, setitem. by intros ->. Qed.

Lemma wp_delitem l k o v h (Q : unit → heap → Prop) E :
  h !! l = Some o → o !! k = Some v →
  Q tt (<[l := delete k o]> h) → wp (delitem l k) h Q E.
Proof. unfold wp, delitem. by intros -> ->. Qed.

Lemma wp_dict_copy l o h (Q : loc → heap → Prop) E :
  h !! l = Some o →
  Q (fresh (dom h)) (<[fresh (dom h) := o]> h) → wp (dict_copy l) h Q E.
Proof. unfold wp, dict_copy. by intros ->. Qed.

Lemma fresh_loc h : h !! fresh (dom h) = None.
Proof. apply not_elem_of_dom, is_fresh. Qed.

Lemma fresh_loc_ne h l o : h !! l = Some o → fresh (dom h) ≠ l.
Proof. intros Hl Heq. by rewrite <- Heq, fresh_loc in Hl. Qed.

End wp_dict.

(** ** The invariant of the validated dictionary *)

Section keys.
Variable rule : string → option pyval → Prop.
Variable d : dict.

Lemma Inv_init : Inv rule d [] d.
Proof. intros k. by rewrite decide_False by apply not_elem_of_nil. Qed.

Lemma Inv_untouched done o k :
  Inv rule d done o → k ∉ done → o !! k = d !! k.
Proof. intros HI Hk. specialize (HI k). by rewrite decide_False in HI. Qed.

Lemma Inv_rule done o k : Inv rule d done o → k ∈ done → rule k (o !! k).
Proof. intros HI Hk. specialize (HI k). by rewrite decide_True in HI. Qed.

Lemma Inv_step done o o' k :
  Inv rule d done o → k ∉ done →
  (∀ k', k' ≠ k → o' !! k' = o !! k') → rule k (o' !! k) →
  Inv rule d (k :: done) o'.
Proof.
  intros HI Hk Hframe Hrule k'. specialize (HI k').
  destruct (decide (k' = k)) as [->|Hne].
  - rewrite decide_True; [done|]. apply elem_of_cons; auto.
  - rewrite Hframe by done.
    destruct (decide (k' ∈ done)) as [Hin|Hnin].
    + rewrite decide_True; [done|]. apply elem_of_cons; auto.
    + rewrite decide_False; [done|]. by apply not_elem_of_cons.
Qed.

Lemma Inv_set done o k v :
  Inv rule d done o → k ∉ done → rule k (Some v) →
  Inv rule d (k :: done) (<[k := v]> o).
Proof.
  intros HI Hk Hr. apply (Inv_step done o); [done..| |].
  - intros k' Hne. by rewrite lookup_insert_ne.
  - by rewrite lookup_insert_eq.
Qed.

Lemma Inv_delete done o k :
  Inv rule d done o → k ∉ done → rule k None →
  Inv rule d (k :: done) (delete k o).
Proof.
  intros HI Hk Hr. apply (Inv_step done o); [done..| |].
  - intros k' Hne. by rewrite lookup_delete_ne.
  - by rewrite lookup_delete_eq.
Qed.

Lemma Inv_keep done o k :
  Inv rule d done o → k ∉ done → rule k (d !! k) →
  Inv rule d (k :: done) o.
Proof.
  intros HI Hk Hr. apply (Inv_step done o); [done..| |]; [done|].
  by rewrite (Inv_untouched done).
Qed.

End keys.

(** ** Symbolic execution *)

Ltac wp_lookup :=
  first [ eassumption
        | apply lookup_insert_eq
        | rewrite lookup_insert_ne by (by eapply fresh_loc_ne); eassumption ].

(** One step of symbolic execution of a statement on [validated]. *)
Ltac wp_step :=
  lazy beta;
  lazymatch goal with
  | |- wp (bind _ _) _ _ _ => apply wp_bind
  | |- wp (contains _ _) _ _ _ => eapply wp_contains; [wp_lookup|]
  | |- wp (getitem _ _) _ _ _ => eapply wp_getitem; [wp_lookup|eassumption|]
  | |- wp (setitem _ _ _) _ _ _ =>
      eapply wp_setitem; [wp_lookup|]; rewrite ?insert_insert_eq
  | |- wp (delitem _ _) _ _ _ =>
      eapply wp_delitem; [wp_lookup|eassumption|]; rewrite ?insert_insert_eq
  | |- wp (dict_copy _) _ _ _ => eapply wp_dict_copy; [wp_lookup|]
  | |- wp pass _ _ _ => apply wp_pass
  | |- wp (ret _) _ _ _ => apply wp_ret
  | |- wp (raise _) _ _ _ => apply wp_raise
  | |- wp (lift _) _ _ _ => apply wp_lift
  end.

(** Membership of a key in a list of keys, decided by evaluation. *)
Ltac solve_key := by apply (bool_decide_unpack _).

(** The test [k in validated] of a statement, by cases on the caller's
    dictionary [d], which [validated] still agrees with at [k]. *)
Ltac wp_test HI d k v Hd :=
  let Hk := fresh "Hk" in
  wp_step; wp_step;
  pose proof (Inv_untouched _ _ _ _ k HI ltac:(solve_key)) as Hk;
  rewrite Hk;
  destruct (d !! k) as [v|] eqn:Hd; simpl.

(** The assertion after a statement. *)
Ltac wp_done :=
  lazy beta;
  lazymatch goal with
  | |- filling _ _ _ _ => eexists; split; [reflexivity|]
  end;
  first [ apply Inv_set; [eassumption|solve_key|econstructor; solve [eauto]]
        | apply Inv_keep; [eassumption|solve_key|];
          match goal with Hd : _ !! _ = _ |- _ => rewrite Hd end;
          econstructor; solve [eauto] ].

Ltac wp_fail :=
  lazy beta;
  eapply rejects_conversion; [done..|];
  first [ eapply conv_error_int; [|eassumption..]; solve_key
        | eapply conv_error_float; [|eassumption..]; solve_key ].

(** The next statement, up to the assertion that [validated] obeys
    [rule] at the keys [done]. *)
Ltac wp_stage h lv rule d done :=
  apply (wp_seq (λ _, filling h lv (Inv rule d done))).

(** ** Validation by the Aliyun provider *)

Section aliyun_validate.
Context `{NumericLiterals}.
Variable settings : Settings.

Lemma aliyun_validate_parameters_spec model p h d :
  h !! p = Some d →
  wp (Aliyun.validate_parameters settings model p) h
    (accepts (Aliyun.supported_models settings) (aliyun_rule model d)
       (assigned aliyun) model d h)
    (rejects (Aliyun.supported_models settings) (ints aliyun)
       (floats aliyun model) model d h).
Proof.
  intros Hp. unfold Aliyun.validate_parameters.
  case_bool_decide as Hm; simpl.
  2:{ apply wp_raise. by constructor. }
  do 2 (wp_step; wp_step).
  lazy beta.
  assert (has_input d ∨ d !! "prompt" = None ∧ d !! "messages" = None)
    as [Hin|[Hnp Hnm]].
  { unfold has_input. destruct (d !! "prompt"), (d !! "messages"); eauto. }
  2:{ rewrite Hnp, Hnm. simpl. apply wp_raise. by constructor. }
  replace (negb (bool_decide (is_Some (d !! "prompt"))) &&
           negb (bool_decide (is_Some (d !! "messages")))) with false.
  2:{ destruct Hin as [Hi|Hi]; rewrite (bool_decide_true _ Hi); simpl;
        by rewrite ?andb_false_r. }
  wp_step. wp_step.
  set (lv := fresh (dom h)).
  wp_stage h lv (aliyun_rule model d) d
    (["model"]).
  { wp_step. eexists; split; [done|].
    apply Inv_set; [apply Inv_init|apply not_elem_of_nil|constructor]. }
  intros [] h' (o & -> & HI).
  wp_stage h lv (aliyun_rule model d) d
    (["messages"; "model"]).
  { wp_step. wp_step.
    destruct (d !! "messages") as [vm|] eqn:Hmsg; simpl.
    - wp_step. wp_step. wp_step. wp_done.
    - wp_step. wp_step.
      destruct (d !! "prompt") as [vp|] eqn:Hprompt; simpl.
      + wp_step. wp_step. wp_step. wp_done.
      + unfold has_input in Hin. rewrite Hmsg, Hprompt in Hin.
        by destruct Hin as [[? ?]|[? ?]]. }
  clear o HI. intros [] h' (o & -> & HI).
  wp_stage h lv (aliyun_rule model d) d
    (["max_tokens"; "messages"; "model"]).
  { wp_test HI d "max_tokens" v Hd.
    - wp_step. wp_step. wp_step. wp_step.
      destruct (py_int v) as [n|e] eqn:Hn; [wp_step; wp_done|wp_fail].
    - wp_step. wp_done. }
  clear o HI. intros [] h' (o & -> & HI).
  wp_stage h lv (aliyun_rule model d) d
    (["temperature"; "max_tokens"; "messages"; "model"]).
  { wp_test HI d "temperature" v Hd.
    - wp_step. wp_step. wp_step. wp_step.
      destruct (py_float v) as [n|e] eqn:Hn; [wp_step; wp_done|wp_fail].
    - wp_step. wp_done. }
  clear o HI. intros [] h' (o & -> & HI).
  wp_stage h lv (aliyun_rule model d) d
    (["top_p"; "temperature"; "max_tokens"; "messages"; "model"]).
  { wp_test HI d "top_p" v Hd.
    - wp_step. wp_step. wp_step. wp_step.
      destruct (py_float v) as [n|e] eqn:Hn; [wp_step; wp_done|wp_fail].
    - wp_step. wp_done. }
  clear o HI. intros [] h' (o & -> & HI).
  wp_stage h lv (aliyun_rule model d) d
    (["top_k"; "top_p"; "temperature"; "max_tokens"; "messages"; "model"]).
  { wp_test HI d "top_k" v Hd.
    - wp_step. wp_step. wp_step. wp_step.
      destruct (py_int v) as [n|e] eqn:Hn; [wp_step; wp_done|wp_fail].
    - wp_step. wp_done. }
  clear o HI. intros [] h' (o & -> & HI).
  wp_stage h lv (aliyun_rule model d) d
    (["stream"; "top_k"; "top_p"; "temperature"; "max_tokens"; "messages";
      "model"]).
  { wp_test HI d "stream" v Hd.
    - wp_step. wp_step. wp_step. wp_done.
    - wp_step. wp_done. }
  clear o HI. intros [] h' (o & -> & HI).
  wp_stage h lv (aliyun_rule model d) d
    (["seed"; "stream"; "top_k"; "top_p"; "temperature"; "max_tokens";
      "messages"; "model"]).
  { wp_test HI d "seed" v Hd.
    - wp_step. wp_step. wp_step. wp_step.
      destruct (py_int v) as [n|e] eqn:Hn; [wp_step; wp_done|wp_fail].
    - wp_step. wp_done. }
  clear o HI. intros [] h' (o & -> & HI).
  wp_stage h lv (aliyun_rule model d) d
    (assigned aliyun).
  { wp_test HI d "enable_thinking" v Hd.
    - wp_step. wp_done.
    - wp_step. wp_done. }
  clear o HI. intros [] h' (o & -> & HI).
  wp_step. by constructor.
Qed.
End aliyun_validate.

(** ** Validation by the DeepSeek provider *)

Section deepseek_validate.
Context `{NumericLiterals}.
Variable settings : Settings.

Lemma deepseek_validate_parameters_spec model p h d :
  h !! p = Some d →
  wp (DeepSeek.validate_parameters settings model p) h
    (accepts (DeepSeek.supported_models settings) (deepseek_rule model d)
       (assigned deepseek) model d h)
    (rejects (DeepSeek.supported_models settings) (ints deepseek)
       (floats deepseek model) model d h).
Proof.
  intros Hp. unfold DeepSeek.validate_parameters.
  case_bool_decide as Hm; simpl.
  2:{ apply wp_raise. by constructor. }
  do 2 (wp_step; wp_step).
  lazy beta.
  assert (has_input d ∨ d !! "prompt" = None ∧ d !! "messages" = None)
    as [Hin|[Hnp Hnm]].
  { unfold has_input. destruct (d !! "prompt"), (d !! "messages"); eauto. }
  2:{ rewrite Hnp, Hnm. simpl. apply wp_raise. by constructor. }
  replace (negb (bool_decide (is_Some (d !! "prompt"))) &&
           negb (bool_decide (is_Some (d !! "messages")))) with false.
  2:{ destruct Hin as [Hi|Hi]; rewrite (bool_decide_true _ Hi); simpl;
        by rewrite ?andb_false_r. }
  wp_step. wp_step.
  set (lv := fresh (dom h)).
  wp_stage h lv (deepseek_rule model d) d
    (["model"]).
  { wp_step. eexists; split; [done|].
    apply Inv_set; [apply Inv_init|apply not_elem_of_nil|constructor]. }
  intros [] h' (o & -> & HI).
  wp_stage h lv (deepseek_rule model d) d
    (["prompt"; "messages"; "model"]).
  { wp_step. wp_step.
    destruct (d !! "messages") as [vm|] eqn:Hmsg; simpl.
    - wp_step. wp_step. wp_step.
      eexists; split; [done|].
      apply Inv_keep; [|solve_key|by econstructor].
      apply Inv_set; [done|solve_key|by constructor].
    - wp_step. wp_step.
      destruct (d !! "prompt") as [vp|] eqn:Hprompt; simpl.
      + pose proof (Inv_untouched _ _ _ _ "prompt" HI ltac:(solve_key)) as Hk.
        rewrite Hprompt in Hk.
        wp_step. wp_step. wp_step. wp_step. wp_step. wp_step.
        rewrite lookup_insert_ne, Hk by done. simpl.
        eapply wp_delitem; [wp_lookup|by rewrite lookup_insert_ne|].
        rewrite insert_insert_eq.
        eexists; split; [done|].
        apply Inv_delete; [|solve_key|by constructor].
        apply Inv_set; [done|solve_key|by constructor].
      + unfold has_input in Hin. rewrite Hmsg, Hprompt in Hin.
        by destruct Hin as [[? ?]|[? ?]]. }
  clear o HI. intros [] h' (o & -> & HI).
  wp_stage h lv (deepseek_rule model d) d
    (["max_tokens"; "prompt"; "messages"; "model"]).
  { wp_test HI d "max_tokens" v Hd.
    - wp_step. wp_step. wp_step. wp_step.
      destruct (py_int v) as [n|e] eqn:Hn; [wp_step; wp_done|wp_fail].
    - wp_step. wp_done. }
  clear o HI. intros [] h' (o & -> & HI).
  wp_stage h lv (deepseek_rule model d) d
    (["temperature"; "max_tokens"; "prompt"; "messages";
               "model"]).
  { wp_test HI d "temperature" v Hd; case_bool_decide as Hr.
    - wp_step. wp_step. wp_step. wp_step.
      destruct (py_float v) as [n|e] eqn:Hn; [wp_step; wp_done|].
      eapply rejects_conversion; [done..|].
      eapply conv_error_float; [|eassumption..].
      cbv [floats]. rewrite ?bool_decide_true by done. solve_key.
    - wp_step. eexists; split; [done|].
      apply Inv_keep; [done|solve_key|by apply dr_temperature_reasoner].
    - wp_step. wp_done.
    - wp_step. eexists; split; [done|].
      apply Inv_keep; [done|solve_key|by apply dr_temperature_reasoner]. }
  clear o HI. intros [] h' (o & -> & HI).
  wp_stage h lv (deepseek_rule model d) d
    (["top_p"; "temperature"; "max_tokens"; "prompt"; "messages";
               "model"]).
  { wp_test HI d "top_p" v Hd; case_bool_decide as Hr.
    - wp_step. wp_step. wp_step. wp_step.
      destruct (py_float v) as [n|e] eqn:Hn; [wp_step; wp_done|].
      eapply rejects_conversion; [done..|].
      eapply conv_error_float; [|eassumption..].
      cbv [floats]. rewrite ?bool_decide_true by done. solve_key.
    - wp_step. eexists; split; [done|].
      apply Inv_keep; [done|solve_key|by apply dr_top_p_reasoner].
    - wp_step. wp_done.
    - wp_step. eexists; split; [done|].
      apply Inv_keep; [done|solve_key|by apply dr_top_p_reasoner]. }
  clear o HI. intros [] h' (o & -> & HI).
  wp_stage h lv (deepseek_rule model d) d
    (assigned deepseek).
  { wp_test HI d "stream" v Hd.
    - wp_step. wp_step. wp_step. wp_done.
    - wp_step. wp_done. }
  clear o HI. intros [] h' (o & -> & HI).
  wp_step. by constructor.
Qed.
End deepseek_validate.

(** ** Bounds of the clamped values *)

Section clamping.
Context `{NumericLiterals}.

Lemma py_min_le (n hi : Z) : py_min n hi ≤ hi.
Proof. unfold py_min. destruct (Z.ltb_spec hi n); lia. Qed.

Lemma py_clamp_between (n lo hi : Z) :
  lo ≤ hi → lo ≤ py_max lo (py_min n hi) ≤ hi.
Proof.
  intros Hlh. unfold py_max, py_min.
  destruct (Z.ltb_spec hi n);
    [destruct (Z.ltb_spec lo hi)|destruct (Z.ltb_spec lo n)]; lia.
Qed.

Lemma float_between_intro lo hi x :
  Float.leb lo x = true → Float.leb x hi = true →
  within (FloatBetween lo hi) (VFloat x).
Proof. by split. Qed.

Lemma aliyun_rule_within model d k r v :
  (k, r) ∈ bounds aliyun → aliyun_rule model d k (Some v) → within r v.
Proof.
  intros Hkr Hr. apply list_elem_of_In in Hkr. cbn [bounds In] in Hkr.
  destruct Hkr as [Hkr|[Hkr|[Hkr|[Hkr|[]]]]];
    injection Hkr as <- <-; inversion Hr; subst.
  - apply py_min_le.
  - clear. cbn. lia.
  - by apply clamp_bounds.
  - by apply float_between_intro.
  - by apply clamp_bounds.
  - by apply float_between_intro.
  - by apply py_clamp_between.
Qed.

Lemma deepseek_rule_within model d k r v :
  (model = "deepseek-reasoner" → k = "max_tokens") →
  (k, r) ∈ bounds deepseek → deepseek_rule model d k (Some v) →
  within r v.
Proof.
  intros Hm Hkr Hr. apply list_elem_of_In in Hkr. cbn [bounds In] in Hkr.
  destruct Hkr as [Hkr|[Hkr|[Hkr|[]]]];
    injection Hkr as <- <-; inversion Hr;
    try (exfalso; discriminate Hm; assumption); subst.
  - apply py_min_le.
  - clear. cbn. lia.
  - by apply clamp_bounds.
  - by apply float_between_intro.
  - by apply clamp_bounds.
  - by apply float_between_intro.
Qed.

End clamping.

(** ** The outcomes of validation *)

Section outcomes.
Context `{NumericLiterals}.
Variable settings : Settings.

Lemma validate_parameters_spec P model p h d :
  h !! p = Some d →
  wp (validate_parameters settings P model p) h
    (accepts (supported_models settings P) (rule P model d) (assigned P)
       model d h)
    (rejects (supported_models settings P) (ints P) (floats P model)
       model d h).
Proof.
  destruct P.
  - apply aliyun_validate_parameters_spec.
  - apply deepseek_validate_parameters_spec.
Qed.

Lemma validate_parameters_returns P model p h d lv h' :
  h !! p = Some d →
  validate_parameters settings P model p h = (Ok lv, h') →
  accepts (supported_models settings P) (rule P model d) (assigned P)
    model d h lv h'.
Proof.
  intros Hp Hrun.
  exact (wp_run_ok _ _ _ _ _ _
           (validate_parameters_spec P model p h d Hp) Hrun).
Qed.

Lemma validate_parameters_raises P model p h d e h' :
  h !! p = Some d →
  validate_parameters settings P model p h = (Raise e, h') →
  rejects (supported_models settings P) (ints P) (floats P model)
    model d h e h'.
Proof.
  intros Hp Hrun.
  exact (wp_run_raise _ _ _ _ _ _
           (validate_parameters_spec P model p h d Hp) Hrun).
Qed.

(** The validated dictionary behind a returned location. *)
Lemma validated_object P model p h d lv h' :
  h !! p = Some d →
  validate_parameters settings P model p h = (Ok lv, h') →
  ∃ o, h' !! lv = Some o ∧ h !! lv = None ∧
       h' = <[lv := o]> h ∧
       model ∈ supported_models settings P ∧ has_input d ∧
       Inv (rule P model d) d (assigned P) o.
Proof.
  intros Hp Hrun.
  destruct (validate_parameters_returns _ _ _ _ _ _ _ Hp Hrun)
    as [o Hm Hin HI].
  exists o. rewrite lookup_insert_eq. split_and!; try done. apply fresh_loc.
Qed.

(** Whatever the outcome, the store grows by at most one object. *)
Lemma validate_parameters_store P model p h d r h' :
  h !! p = Some d →
  validate_parameters settings P model p h = (r, h') →
  h' = h ∨ ∃ o, h' = <[fresh (dom h) := o]> h.
Proof.
  intros Hp Hrun. destruct r as [lv|e].
  - destruct (validate_parameters_returns _ _ _ _ _ _ _ Hp Hrun); eauto.
  - destruct (validate_parameters_raises _ _ _ _ _ _ _ Hp Hrun); eauto.
Qed.

(** The rule of both providers at ["messages"]. *)
Lemma rule_messages P model d x :
  rule P model d "messages" x → ∃ m, x = Some m ∧ messages_from d m.
Proof.
  unfold messages_from. destruct P; inversion 1; eauto 10.
Qed.

Lemma rule_prompt_deepseek model d x :
  deepseek_rule model d "prompt" x →
  (is_Some (d !! "messages") ∧ x = d !! "prompt") ∨
  (d !! "messages" = None ∧ x = None).
Proof. inversion 1; eauto. Qed.

Lemma rule_reasoner d k x :
  k = "temperature" ∨ k = "top_p" →
  deepseek_rule "deepseek-reasoner" d k x → x = d !! k.
Proof. intros [->| ->]; inversion 1; done. Qed.

Lemma assigned_core P k : k ∈ assigned P → k ∈ core_keys.
Proof.
  intros Hk. apply list_elem_of_In in Hk. apply list_elem_of_In.
  destruct P; simpl in *; intuition.
Qed.

Lemma bounded_assigned P k r : (k, r) ∈ bounds P → k ∈ assigned P.
Proof.
  intros Hkr. apply list_elem_of_In in Hkr.
  destruct P; cbn [bounds In] in Hkr; intuition; simplify_eq; solve_key.
Qed.

Lemma convertible_no_conv_error P model d e :
  convertible P model d = true →
  ¬ conv_error (ints P) (floats P model) d e.
Proof.
  unfold convertible. intros [Hi Hf]%andb_prop.
  rewrite forallb_forall in Hi, Hf.
  intros [k v e' Hk Hd Hc|k v e' Hk Hd Hc].
  - apply list_elem_of_In, Hi in Hk. unfold converts in Hk.
    by rewrite Hd, Hc in Hk.
  - apply list_elem_of_In, Hf in Hk. unfold converts in Hk.
    by rewrite Hd, Hc in Hk.
Qed.

Lemma conv_error_not_convertible P model d e :
  conv_error (ints P) (floats P model) d e →
  convertible P model d = false.
Proof.
  intros Hc. destruct (convertible P model d) eqn:Hconv; [|done].
  by destruct (convertible_no_conv_error _ _ _ _ Hconv Hc).
Qed.

(** A dictionary that obeys the rules came through the conversions. *)
Lemma accepted_convertible P model d o :
  Inv (rule P model d) d (assigned P) o → convertible P model d = true.
Proof.
  intros HI. unfold convertible.
  apply andb_true_intro; split; apply forallb_forall; intros k Hk;
    unfold converts; destruct (d !! k) as [v|] eqn:Hd; trivial.
  - assert (k ∈ assigned P) as Ha.
    { destruct P; cbn [ints In] in Hk; intuition; subst; solve_key. }
    pose proof (Inv_rule _ _ _ _ k HI Ha) as Hr.
    destruct P; cbn [ints In rule] in Hk, Hr; intuition; subst;
      inversion Hr; simplify_eq;
      match goal with Hc : py_int _ = Ok _ |- _ => by rewrite Hc end.
  - assert (k ∈ assigned P ∧ (P = deepseek → model ≠ "deepseek-reasoner"))
      as [Ha Hm].
    { destruct P; cbn [floats] in Hk; [|case_bool_decide];
        cbn [In] in Hk; intuition; subst; solve_key. }
    pose proof (Inv_rule _ _ _ _ k HI Ha) as Hr.
    destruct P; cbn [floats] in Hk;
      [|rewrite bool_decide_true in Hk by auto];
      cbn [In rule] in Hk, Hr; intuition; subst;
      inversion Hr; simplify_eq;
      match goal with Hc : py_float _ = Ok _ |- _ => by rewrite Hc end.
Qed.

(** Validation returns exactly when the conversions succeed. *)
Lemma validate_parameters_total P model p h d :
  h !! p = Some d →
  model ∈ supported_models settings P → has_input d →
  if convertible P model d then
    ∃ lv h' o m,
      validate_parameters settings P model p h = (Ok lv, h') ∧
      h' !! lv = Some o ∧ o !! "messages" = Some m ∧ messages_from d m
  else
    ∃ e h',
      validate_parameters settings P model p h = (Raise e, h') ∧
      conv_error (ints P) (floats P model) d e.
Proof.
  intros Hp Hm Hin.
  destruct (validate_parameters settings P model p h)
    as [[lv|e] h'] eqn:Hrun.
  - destruct (validated_object _ _ _ _ _ _ _ Hp Hrun)
      as (o & Ho & _ & _ & _ & _ & HI).
    rewrite (accepted_convertible _ _ _ _ HI).
    pose proof (Inv_rule _ _ _ _ "messages" HI) as Hr.
    destruct (rule_messages P model d _ (Hr ltac:(destruct P; solve_key)))
      as (m & Hom & Hfrom).
    by exists lv, h', o, m.
  - destruct (validate_parameters_raises _ _ _ _ _ _ _ Hp Hrun)
      as [Hnm|_ Hnp Hnm|e o _ _ Hc].
    + done.
    + destruct Hin as [[? Hx]|[? Hx]]; congruence.
    + rewrite (conv_error_not_convertible _ _ _ _ Hc). eauto.
Qed.

End outcomes.

(** A run that returns [a] is the pair of [a] and its final store. *)
Lemma run_returns {A : Type} (run : result A * heap) (a : A) :
  run.1 = Ok a → run = (Ok a, run.2).
Proof. destruct run as [r h]. simpl. by intros ->. Qed.

Lemma run_raises {A : Type} (run : result A * heap) (e : exn) :
  run.1 = Raise e → run = (Raise e, run.2).
Proof. destruct run as [r h]. simpl. by intros ->. Qed.

(** ** Normalisation of responses *)

Section normalisation.

Lemma result_bind_ok {A B : Type} (c : result A) (f : A → result B) b :
  result_bind c f = Ok b → ∃ a, c = Ok a ∧ f a = Ok b.
Proof. destruct c as [a|e]; [eauto|done]. Qed.

(** The whole result for the payload of the end-to-end scenario. *)
Lemma format_response_hello uuid4 now original_params :
  Aliyun._format_response uuid4 now hello_payload original_params =
  Ok (<["usage" := usage_stats (VInt 2) (VInt 3) (VInt 0)]>
     (<["choices" :=
          VList [assistant_choice 0 (VStr "hi there") (VStr "stop")]]>
     (<["id" := VStr uuid4]>
     (<["model" := get_default original_params "model" (VStr "")]>
     (<["created" := VStr now]>
     (<["choices" := VList []]>
     (<["usage" := VDict ∅]> ∅))))))).
Proof. reflexivity. Qed.

Lemma format_response_no_usage uuid4 now api_response original_params r :
  api_response !! "usage" = None →
  Aliyun._format_response uuid4 now api_response original_params = Ok r →
  r !! "usage" = Some (VDict ∅).
Proof.
  intros Hu. unfold Aliyun._format_response. cbv zeta.
  assert (get_default api_response "usage" (VDict ∅) = VDict ∅) as ->
    by (unfold get_default; by rewrite Hu).
  intros (has_text & _ & (choices & _ & Hr)%result_bind_ok)%result_bind_ok.
  cbn [py_bool] in Hr. rewrite bool_decide_true in Hr by done.
  cbn [negb] in Hr. by injection Hr as <-.
Qed.

Lemma call_model_result_no_usage request_model now response :
  DeepSeek.usage response = None →
  DeepSeek.call_model_result request_model now response !! "usage" = None.
Proof. intros Hu. unfold DeepSeek.call_model_result. by rewrite Hu. Qed.

Lemma format_response_no_output uuid4 now api_response original_params
    out :
  get_default api_response "output" (VDict ∅) = VDict out →
  out !! "text" = None → out !! "choices" = None →
  usage_readable api_response →
  ∃ r,
    Aliyun._format_response uuid4 now api_response original_params = Ok r ∧
    r !! "choices" = Some (VList []) ∧
    r !! "id" = Some (get_default api_response "request_id" (VStr uuid4)) ∧
    r !! "model" = Some (get_default original_params "model" (VStr "")).
Proof.
  intros Hout Ht Hc Hu. unfold Aliyun._format_response. cbv zeta.
  rewrite Hout. cbn [py_in result_bind]. rewrite Ht, Hc.
  rewrite !bool_decide_false by apply is_Some_None. cbn [result_bind].
  destruct Hu as [Hu|[u Hu]].
  - rewrite Hu. eexists. split; [reflexivity|]. done.
  - assert (get_default api_response "usage" (VDict ∅) = VDict u) as ->
      by (unfold get_default; by rewrite Hu).
    destruct (py_bool (VDict u)); cbn [py_get result_bind];
      (eexists; split; [reflexivity|]); done.
Qed.

End normalisation.

(** * The properties of the specification *)

(** ** Normalised usage *)

(** C1, as the code has it: when the upstream response carries no usage,
    the Aliyun result holds the empty dictionary at ["usage"], and the
    DeepSeek result has no ["usage"] key; neither holds the zero-valued
    statistics. *)
Theorem C1_absent_usage (uuid4 now : string)
    (api_response original_params : dict)
    (request_model : string) (response : DeepSeek.ChatCompletion) :
  api_response !! "usage" = None →
  DeepSeek.usage response = None →
  (∀ r, Aliyun._format_response uuid4 now api_response original_params
          = Ok r →
        r !! "usage" = Some (VDict ∅)) ∧
  DeepSeek.call_model_result request_model now response !! "usage" = None.
Proof.
  intros Ha Hd. split.
  - intros r. by apply format_response_no_usage.
  - by apply call_model_result_no_usage.
Qed.

Lemma C1_absent_usage_witness :
  ∃ r, Aliyun._format_response "uuid" "now" no_usage_payload hello_params
         = Ok r ∧
       r !! "usage" = Some (VDict ∅) ∧
       DeepSeek.call_model_result "deepseek-chat" "now" no_usage_response
         !! "usage" = None.
Proof.
  eexists. split; [reflexivity|].
  destruct (C1_absent_usage "uuid" "now" no_usage_payload hello_params
              "deepseek-chat" no_usage_response) as [Ha Hd];
    [reflexivity..|].
  split; [apply Ha; reflexivity|exact Hd].
Defined.

(** C1, as the specification states it, fails: on a payload without
    usage the Aliyun result has the empty dictionary at ["usage"], where
    [total_tokens] cannot be read, and the DeepSeek result has no
    ["usage"] at all. *)
Lemma C1_counterexample :
  no_usage_payload !! "usage" = None ∧
  (∃ r, Aliyun._format_response "uuid" "now" no_usage_payload hello_params
          = Ok r ∧
        r !! "usage" = Some (VDict ∅) ∧
        r !! "usage" ≠ Some zero_usage ∧
        py_getitem (VDict ∅) "total_tokens" = Raise (Exc KeyErrorC None)) ∧
  DeepSeek.usage no_usage_response = None ∧
  DeepSeek.call_model_result "deepseek-chat" "now" no_usage_response
    !! "usage" = None.
Proof.
  split; [reflexivity|]. split; [|split; reflexivity].
  eexists. split; [reflexivity|]. split; [reflexivity|].
  split; [|reflexivity].
  intros Heq. apply (f_equal (λ o, o ≫= λ u, match u with
                                             | VDict d => d !! "total_tokens"
                                             | _ => None
                                             end)) in Heq.
  vm_compute in Heq. discriminate.
Qed.

(** ** Bounds of the validated values *)

(** C2, as the code has it: for both providers and every model, every
    field of the validated output with a declared bound lies within it,
    but for the [temperature] and [top_p] of the DeepSeek model
    ["deepseek-reasoner"]: [temperature] and [top_p] lie between the
    declared minimum and maximum, Aliyun's [top_k] between 1 and 100, and
    [max_tokens] is at most the declared maximum, the only bound the code
    declares for it, for ["deepseek-reasoner"] as for every other
    model. *)
Theorem C2_values_within_declared_bounds `{NumericLiterals}
    (settings : Settings) (P : provider) (model : string)
    (p : loc) (h : heap) (d : dict) (lv : loc) (h' : heap) :
  h !! p = Some d →
  validate_parameters settings P model p h = (Ok lv, h') →
  ∃ o, h' !! lv = Some o ∧
       (∀ r v, ("max_tokens", r) ∈ bounds P →
               o !! "max_tokens" = Some v → within r v) ∧
       (¬ (P = deepseek ∧ model = "deepseek-reasoner") →
        in_declared_bounds P o).
Proof.
  intros Hp Hrun.
  destruct (validated_object _ _ _ _ _ _ _ _ Hp Hrun)
    as (o & Ho & _ & _ & _ & _ & HI).
  exists o. split; [done|]. split.
  - intros r v Hkr Hv.
    pose proof (Inv_rule _ _ _ _ _ HI (bounded_assigned _ _ _ Hkr)) as Hr.
    rewrite Hv in Hr. destruct P.
    + by eapply aliyun_rule_within.
    + eapply deepseek_rule_within; [reflexivity|exact Hkr|exact Hr].
  - intros Hmodel k r v Hkr Hv.
    pose proof (Inv_rule _ _ _ _ k HI (bounded_assigned _ _ _ Hkr)) as Hr.
    rewrite Hv in Hr. destruct P.
    + by eapply aliyun_rule_within.
    + eapply deepseek_rule_within; [|done..].
      intros ->. by destruct Hmodel.
Qed.

Lemma C2_values_within_declared_bounds_witness :
  ∃ o,
    (validate_parameters (H := decimal_literals) no_settings deepseek
       "deepseek-reasoner" 1%positive (store_of hot_params)).2
      !! 2%positive = Some o ∧
    (∀ v, o !! "max_tokens" = Some v → within (AtMost 32768) v) ∧
    ∃ o',
      (validate_parameters (H := decimal_literals) no_settings aliyun
         "qwen-turbo" 1%positive (store_of hot_params)).2 !! 2%positive
        = Some o' ∧
      in_declared_bounds aliyun o'.
Proof.
  destruct (C2_values_within_declared_bounds (H := decimal_literals)
              no_settings deepseek "deepseek-reasoner" 1%positive
              (store_of hot_params) hot_params 2%positive
              (validate_parameters (H := decimal_literals) no_settings
                 deepseek "deepseek-reasoner" 1%positive
                 (store_of hot_params)).2)
    as (o & Ho & Hmax & _).
  - reflexivity.
  - apply run_returns. vm_compute. reflexivity.
  - exists o. split; [exact Ho|]. split.
    + intros v. apply Hmax. apply list_elem_of_In. simpl. auto.
    + destruct (C2_values_within_declared_bounds (H := decimal_literals)
                  no_settings aliyun "qwen-turbo" 1%positive
                  (store_of hot_params) hot_params 2%positive
                  (validate_parameters (H := decimal_literals) no_settings
                     aliyun "qwen-turbo" 1%positive
                     (store_of hot_params)).2)
        as (o' & Ho' & _ & Hall).
      * reflexivity.
      * apply run_returns. vm_compute. reflexivity.
      * exists o'. split; [exact Ho'|]. apply Hall. by intros [[=] _].
Defined.

(** C2, as the specification states it, fails for the model
    ["deepseek-reasoner"]: a temperature of 5.0 comes out of validation as
    it went in, above the maximum 2.0 the DeepSeek provider declares. *)
Lemma C2_counterexample :
  "deepseek-reasoner" ∈ supported_models no_settings deepseek ∧
  ∃ lv h' o,
    validate_parameters (H := decimal_literals) no_settings deepseek
      "deepseek-reasoner" 1%positive (store_of hot_params) = (Ok lv, h') ∧
    h' !! lv = Some o ∧
    o !! "temperature" = Some (VFloat Float.five) ∧
    ¬ in_declared_bounds deepseek o.
Proof.
  split; [solve_key|].
  set (run := validate_parameters (H := decimal_literals) no_settings
                deepseek "deepseek-reasoner" 1%positive
                (store_of hot_params)).
  assert (run = (Ok 2%positive, run.2)) as Hrun
    by (apply run_returns; vm_compute; reflexivity).
  destruct (validated_object (H := decimal_literals) no_settings deepseek
              "deepseek-reasoner" 1%positive (store_of hot_params)
              hot_params 2%positive run.2 eq_refl Hrun) as (o & Ho & _).
  assert (run.2 !! 2%positive ≫= (.!! "temperature")
            = Some (VFloat Float.five)) as Ht by (vm_compute; reflexivity).
  rewrite Ho in Ht. cbn [mbind option_bind] in Ht.
  exists 2%positive, run.2, o. split_and!; [assumption..|].
  intros Hb.
  destruct (Hb "temperature" (FloatBetween Float.zero Float.two)
              (VFloat Float.five)) as [_ Hle];
    [apply list_elem_of_In; simpl; auto|done|].
  by vm_compute in Hle.
Qed.

(** The example of the specification: a temperature of 5.0 is clamped to
    the maximum 1.0 of the Aliyun provider; [top_k] and [max_tokens] are
    clamped likewise. *)
Example aliyun_clamps_hot_params :
  ∃ lv h' o,
    validate_parameters (H := decimal_literals) no_settings aliyun
      "qwen-turbo" 1%positive (store_of hot_params) = (Ok lv, h') ∧
    h' !! lv = Some o ∧
    o !! "temperature" = Some (VFloat Float.one) ∧
    o !! "top_k" = Some (VInt 100) ∧
    o !! "max_tokens" = Some (VInt 6000).
Proof.
  set (run := validate_parameters (H := decimal_literals) no_settings
                aliyun "qwen-turbo" 1%positive (store_of hot_params)).
  assert (run = (Ok 2%positive, run.2)) as Hrun
    by (apply run_returns; vm_compute; reflexivity).
  destruct (validated_object (H := decimal_literals) no_settings aliyun
              "qwen-turbo" 1%positive (store_of hot_params)
              hot_params 2%positive run.2 eq_refl Hrun) as (o & Ho & _).
  assert (run.2 !! 2%positive ≫= (.!! "temperature")
            = Some (VFloat Float.one)) as Ht by (vm_compute; reflexivity).
  assert (run.2 !! 2%positive ≫= (.!! "top_k") = Some (VInt 100)) as Hk
    by (vm_compute; reflexivity).
  assert (run.2 !! 2%positive ≫= (.!! "max_tokens") = Some (VInt 6000))
    as Hm by (vm_compute; reflexivity).
  rewrite Ho in Ht, Hk, Hm. cbn [mbind option_bind] in Ht, Hk, Hm.
  exists 2%positive, run.2, o. split_and!; assumption.
Qed.

(** No minimum is declared for [max_tokens]: a negative value goes
    through validation unchanged. *)
Example max_tokens_has_no_minimum :
  ∃ lv h' o,
    validate_parameters (H := decimal_literals) no_settings aliyun
      "qwen-turbo" 1%positive (store_of negative_max_tokens_params)
      = (Ok lv, h') ∧
    h' !! lv = Some o ∧
    o !! "max_tokens" = Some (VInt (-5)).
Proof.
  set (run := validate_parameters (H := decimal_literals) no_settings
                aliyun "qwen-turbo" 1%positive
                (store_of negative_max_tokens_params)).
  assert (run = (Ok 2%positive, run.2)) as Hrun
    by (apply run_returns; vm_compute; reflexivity).
  destruct (validated_object (H := decimal_literals) no_settings aliyun
              "qwen-turbo" 1%positive (store_of negative_max_tokens_params)
              negative_max_tokens_params 2%positive run.2 eq_refl Hrun)
    as (o & Ho & _).
  assert (run.2 !! 2%positive ≫= (.!! "max_tokens") = Some (VInt (-5)))
    as Hm by (vm_compute; reflexivity).
  rewrite Ho in Hm. cbn [mbind option_bind] in Hm.
  exists 2%positive, run.2, o. split_and!; assumption.
Qed.

(** ** The reasoning model *)

(** C3, as the code has it: for the model ["deepseek-reasoner"],
    validation neither defaults nor changes [temperature] and [top_p]:
    each is absent from the validated output when the caller gave none
    and is the caller's value when the caller gave one. *)
Theorem C3_reasoner_sampling_untouched `{NumericLiterals}
    (settings : Settings) (p : loc) (h : heap) (d : dict)
    (lv : loc) (h' : heap) :
  h !! p = Some d →
  validate_parameters settings deepseek "deepseek-reasoner" p h
    = (Ok lv, h') →
  ∃ o, h' !! lv = Some o ∧
       o !! "temperature" = d !! "temperature" ∧
       o !! "top_p" = d !! "top_p".
Proof.
  intros Hp Hrun.
  destruct (validated_object _ _ _ _ _ _ _ _ Hp Hrun)
    as (o & Ho & _ & _ & _ & _ & HI).
  exists o. split; [done|].
  split; eapply rule_reasoner; eauto;
    apply (Inv_rule _ _ _ _ _ HI); solve_key.
Qed.

Lemma C3_reasoner_sampling_untouched_witness :
  ∃ o,
    (validate_parameters (H := decimal_literals) no_settings deepseek
       "deepseek-reasoner" 1%positive (store_of hello_params)).2
      !! 2%positive = Some o ∧
    o !! "temperature" = None ∧ o !! "top_p" = None.
Proof.
  apply (C3_reasoner_sampling_untouched (H := decimal_literals)
           no_settings 1%positive (store_of hello_params) hello_params).
  - reflexivity.
  - apply run_returns. vm_compute. reflexivity.
Defined.

(** C3, as the specification states it, fails: the [temperature] and
    [top_p] of the caller are still in the validated output for
    ["deepseek-reasoner"]. *)
Lemma C3_counterexample :
  ∃ lv h' o,
    validate_parameters (H := decimal_literals) no_settings deepseek
      "deepseek-reasoner" 1%positive (store_of sampling_params)
      = (Ok lv, h') ∧
    h' !! lv = Some o ∧
    o !! "temperature" = Some (VFloat Float.f0_5) ∧
    o !! "top_p" = Some (VFloat Float.f0_5).
Proof.
  set (run := validate_parameters (H := decimal_literals) no_settings
                deepseek "deepseek-reasoner" 1%positive
                (store_of sampling_params)).
  assert (run = (Ok 2%positive, run.2)) as Hrun
    by (apply run_returns; vm_compute; reflexivity).
  destruct (validated_object (H := decimal_literals) no_settings deepseek
              "deepseek-reasoner" 1%positive (store_of sampling_params)
              sampling_params 2%positive run.2 eq_refl Hrun)
    as (o & Ho & _).
  assert (run.2 !! 2%positive ≫= (.!! "temperature")
            = Some (VFloat Float.f0_5)) as Ht by (vm_compute; reflexivity).
  assert (run.2 !! 2%positive ≫= (.!! "top_p")
            = Some (VFloat Float.f0_5)) as Hp by (vm_compute; reflexivity).
  rewrite Ho in Ht, Hp. cbn [mbind option_bind] in Ht, Hp.
  exists 2%positive, run.2, o. split_and!; assumption.
Qed.

(** ** The end-to-end scenario *)

(** C4: for the Aliyun provider and a supported model, the parameters
    [{prompt: "hello"}] validate, and normalising the payload
    [{"output": {"text": "hi there"},
      "usage": {"input_tokens": 2, "output_tokens": 3}}]
    for the validated request yields exactly one choice, at index 0, with
    the text as the content of an assistant message and the finish reason
    ["stop"], and the usage [{2, 3, 0}]: [total_tokens] is 0, not the sum,
    when the upstream omits it. *)
Theorem C4_hello_end_to_end `{NumericLiterals} (settings : Settings)
    (model : string) (p : loc) (h : heap) (uuid4 now : string) :
  h !! p = Some hello_params →
  model ∈ Aliyun.supported_models settings →
  ∃ lv h' validated r,
    Aliyun.validate_parameters settings model p h = (Ok lv, h') ∧
    h' !! lv = Some validated ∧
    Aliyun._format_response uuid4 now hello_payload validated = Ok r ∧
    r !! "choices"
      = Some (VList [assistant_choice 0 (VStr "hi there") (VStr "stop")]) ∧
    r !! "usage" = Some (usage_stats (VInt 2) (VInt 3) (VInt 0)) ∧
    r !! "model" = Some (VStr model).
Proof.
  intros Hp Hm.
  pose proof (validate_parameters_total settings aliyun model p h
                hello_params Hp Hm) as Htotal.
  destruct Htotal as (lv & h' & o & m & Hrun & Ho & _).
  { left. by eexists. }
  destruct (validated_object settings aliyun _ _ _ _ _ _ Hp Hrun)
    as (o' & Ho' & _ & _ & _ & _ & HI).
  assert (o' = o) as -> by congruence.
  pose proof (Inv_rule _ _ _ _ "model" HI ltac:(solve_key)) as Hmodel.
  assert (o !! "model" = Some (VStr model)) as Hom
    by (by inversion Hmodel).
  eexists lv, h', o, _. split; [done|]. split; [done|].
  split; [apply format_response_hello|].
  unfold get_default. rewrite Hom. by cbn.
Qed.

Lemma C4_hello_end_to_end_witness :
  ∃ lv h' validated r,
    Aliyun.validate_parameters (H := decimal_literals) no_settings
      "qwen-turbo" 1%positive (store_of hello_params) = (Ok lv, h') ∧
    h' !! lv = Some validated ∧
    Aliyun._format_response "uuid" "now" hello_payload validated = Ok r ∧
    r !! "choices"
      = Some (VList [assistant_choice 0 (VStr "hi there") (VStr "stop")]) ∧
    r !! "usage" = Some (usage_stats (VInt 2) (VInt 3) (VInt 0)) ∧
    r !! "model" = Some (VStr "qwen-turbo").
Proof.
  apply (C4_hello_end_to_end (H := decimal_literals)).
  - reflexivity.
  - solve_key.
Defined.

(** ** The caller's dictionary *)

(** C5: whether validation returns or raises, the dictionary the caller
    supplied, and every other object of the caller's store, is left as it
    was; a returned dictionary is a new object, distinct from the
    caller's. *)
Theorem C5_caller_mapping_unchanged `{NumericLiterals}
    (settings : Settings) (P : provider) (model : string)
    (p : loc) (h : heap) (d : dict) (r : result loc) (h' : heap) :
  h !! p = Some d →
  validate_parameters settings P model p h = (r, h') →
  h' !! p = Some d ∧
  (∀ l o, h !! l = Some o → h' !! l = Some o) ∧
  (∀ lv, r = Ok lv → h !! lv = None ∧ lv ≠ p ∧ is_Some (h' !! lv)).
Proof.
  intros Hp Hrun.
  pose proof (validate_parameters_store _ _ _ _ _ _ _ _ Hp Hrun) as Hh'.
  assert (∀ l o, h !! l = Some o → h' !! l = Some o) as Hframe.
  { intros l o Hl. destruct Hh' as [->|[o' ->]]; [done|].
    rewrite lookup_insert_ne; [done|]. by eapply fresh_loc_ne. }
  split_and!; [by apply Hframe|done|].
  intros lv ->.
  destruct (validated_object _ _ _ _ _ _ _ _ Hp Hrun)
    as (o & Ho & Hnew & _).
  split_and!; [done| |by eexists]. intros ->. by rewrite Hp in Hnew.
Qed.

Lemma C5_caller_mapping_unchanged_witness :
  (validate_parameters (H := decimal_literals) no_settings aliyun
     "qwen-turbo" 1%positive (store_of hot_params)).2 !! 1%positive
    = Some hot_params.
Proof.
  refine (proj1 (C5_caller_mapping_unchanged (H := decimal_literals)
                   no_settings aliyun "qwen-turbo" 1%positive
                   (store_of hot_params) hot_params _ _ _ _)).
  - reflexivity.
  - apply surjective_pairing.
Defined.

(** C6: every key of the input outside the core set is in the validated
    output with the value it had. *)
Theorem C6_unknown_keys_preserved `{NumericLiterals}
    (settings : Settings) (P : provider) (model : string)
    (p : loc) (h : heap) (d : dict) (lv : loc) (h' : heap)
    (k : string) (x : pyval) :
  h !! p = Some d →
  validate_parameters settings P model p h = (Ok lv, h') →
  k ∉ core_keys → d !! k = Some x →
  ∃ o, h' !! lv = Some o ∧ o !! k = Some x.
Proof.
  intros Hp Hrun Hk Hd.
  destruct (validated_object _ _ _ _ _ _ _ _ Hp Hrun)
    as (o & Ho & _ & _ & _ & _ & HI).
  exists o. split; [done|].
  rewrite (Inv_untouched _ _ _ _ k HI); [done|].
  intros Hin. by apply Hk, (assigned_core P).
Qed.

Lemma C6_unknown_keys_preserved_witness :
  ∃ o,
    (validate_parameters (H := decimal_literals) no_settings deepseek
       "deepseek-chat" 1%positive (store_of custom_params)).2 !! 2%positive
      = Some o ∧
    o !! "custom_flag" = Some (VStr "on").
Proof.
  apply (C6_unknown_keys_preserved (H := decimal_literals) no_settings
           deepseek "deepseek-chat" 1%positive (store_of custom_params)
           custom_params).
  - reflexivity.
  - apply run_returns. vm_compute. reflexivity.
  - solve_key.
  - reflexivity.
Defined.

(** ** Rejected calls *)

(** C7: for a supported model, parameters with neither [prompt] nor
    [messages] are rejected with the error of the missing input, and
    nothing is added to the store. *)
Theorem C7_missing_input `{NumericLiterals}
    (settings : Settings) (P : provider) (model : string)
    (p : loc) (h : heap) (d : dict) :
  h !! p = Some d →
  model ∈ supported_models settings P →
  d !! "prompt" = None → d !! "messages" = None →
  validate_parameters settings P model p h = (Raise missing_input, h).
Proof.
  intros Hp Hm Hnp Hnm.
  assert (¬ has_input d) as Hin.
  { unfold has_input. rewrite Hnp, Hnm. by intros [[??]|[??]]. }
  destruct (validate_parameters settings P model p h)
    as [[lv|e] h'] eqn:Hrun.
  - by destruct (validate_parameters_returns _ _ _ _ _ _ _ _ Hp Hrun).
  - by destruct (validate_parameters_raises _ _ _ _ _ _ _ _ Hp Hrun).
Qed.

Lemma C7_missing_input_witness :
  validate_parameters (H := decimal_literals) no_settings deepseek
    "deepseek-chat" 1%positive (store_of no_input_params)
  = (Raise missing_input, store_of no_input_params).
Proof.
  apply (C7_missing_input (H := decimal_literals) no_settings deepseek
           "deepseek-chat" 1%positive (store_of no_input_params)
           no_input_params).
  - reflexivity.
  - solve_key.
  - reflexivity.
  - reflexivity.
Defined.

(** C8, as the code has it: for a model in the provider's list and
    parameters with [prompt] or [messages], validation returns, with
    [messages] populated, exactly when every supplied value that goes
    through [int] or [float] converts, and otherwise raises the error of
    the failed conversion; for a model outside the list it raises the
    error that names the model and the provider's whole list. *)
Theorem C8_supported_models_gate `{NumericLiterals}
    (settings : Settings) (P : provider) (model : string)
    (p : loc) (h : heap) (d : dict) :
  h !! p = Some d →
  (model ∈ supported_models settings P → has_input d →
   convertible P model d = true →
   ∃ lv h' o m,
     validate_parameters settings P model p h = (Ok lv, h') ∧
     h' !! lv = Some o ∧ o !! "messages" = Some m ∧ messages_from d m) ∧
  (model ∈ supported_models settings P → has_input d →
   convertible P model d = false →
   ∃ e h',
     validate_parameters settings P model p h = (Raise e, h') ∧
     conv_error (ints P) (floats P model) d e) ∧
  (model ∉ supported_models settings P →
   validate_parameters settings P model p h
     = (Raise (unsupported_model model (supported_models settings P)), h)).
Proof.
  intros Hp. split_and!.
  - intros Hm Hin Hconv.
    pose proof (validate_parameters_total settings P model p h d Hp Hm Hin)
      as Htotal.
    by rewrite Hconv in Htotal.
  - intros Hm Hin Hconv.
    pose proof (validate_parameters_total settings P model p h d Hp Hm Hin)
      as Htotal.
    by rewrite Hconv in Htotal.
  - intros Hm.
    destruct (validate_parameters settings P model p h)
      as [[lv|e] h'] eqn:Hrun.
    + by destruct (validate_parameters_returns _ _ _ _ _ _ _ _ Hp Hrun).
    + by destruct (validate_parameters_raises _ _ _ _ _ _ _ _ Hp Hrun).
Qed.

Lemma C8_supported_models_gate_witness :
  (∃ lv h' o m,
     validate_parameters (H := decimal_literals) no_settings aliyun
       "qwen-plus" 1%positive (store_of hot_params) = (Ok lv, h') ∧
     h' !! lv = Some o ∧ o !! "messages" = Some m ∧
     messages_from hot_params m) ∧
  validate_parameters (H := decimal_literals) no_settings aliyun
    "gpt-4" 1%positive (store_of hot_params)
  = (Raise (unsupported_model "gpt-4"
              (supported_models no_settings aliyun)),
     store_of hot_params).
Proof.
  destruct (C8_supported_models_gate (H := decimal_literals) no_settings
              aliyun "qwen-plus" 1%positive (store_of hot_params) hot_params)
    as (Hok & _ & _); [reflexivity|].
  destruct (C8_supported_models_gate (H := decimal_literals) no_settings
              aliyun "gpt-4" 1%positive (store_of hot_params) hot_params)
    as (_ & _ & Hbad); [reflexivity|].
  split.
  - apply Hok; [solve_key|left; by eexists|reflexivity].
  - apply Hbad. solve_key.
Defined.

(** C8, as the specification states it, fails: a supported model and
    parameters with a prompt, but with [max_tokens] null, are rejected by
    [int]. *)
Lemma C8_counterexample :
  "qwen-turbo" ∈ supported_models no_settings aliyun ∧
  has_input null_max_tokens_params ∧
  (validate_parameters (H := decimal_literals) no_settings aliyun
     "qwen-turbo" 1%positive (store_of null_max_tokens_params)).1
  = Raise (Exc TypeErrorC None).
Proof.
  split; [solve_key|]. split; [left; by eexists|].
  vm_compute. reflexivity.
Qed.

(** ** The prompt *)



(** ** A payload without text and without choices *)

(** C10, as the code has it: when the output object of the payload has
    neither [text] nor [choices], and the usage field is absent, false or
    a dictionary, normalisation returns a result with no choices, whose
    [id] is the [request_id] of the payload, or the fresh identifier when
    the payload has none, and whose [model] is the one of the validated
    parameters. *)
Theorem C10_no_text_no_choices (uuid4 now : string)
    (api_response original_params out : dict) :
  api_response !! "output" = Some (VDict out) →
  out !! "text" = None → out !! "choices" = None →
  usage_readable api_response →
  ∃ r,
    Aliyun._format_response uuid4 now api_response original_params = Ok r ∧
    r !! "choices" = Some (VList []) ∧
    r !! "id" = Some (get_default api_response "request_id" (VStr uuid4)) ∧
    r !! "model" = Some (get_default original_params "model" (VStr "")).
Proof.
  intros Hout. apply format_response_no_output.
  unfold get_default. by rewrite Hout.
Qed.

Lemma C10_no_text_no_choices_witness :
  ∃ r,
    Aliyun._format_response "uuid" "now" empty_output_payload
      (<["model" := VStr "qwen-turbo"]> hello_params) = Ok r ∧
    r !! "choices" = Some (VList []) ∧
    r !! "id" = Some (VStr "req-1") ∧
    r !! "model" = Some (VStr "qwen-turbo").
Proof.
  destruct (C10_no_text_no_choices "uuid" "now" empty_output_payload
              (<["model" := VStr "qwen-turbo"]> hello_params) ∅)
    as (r & Hr & Hchoices & Hid & Hmodel).
  - reflexivity.
  - reflexivity.
  - reflexivity.
  - left. reflexivity.
  - exists r. split_and!.
    + exact Hr.
    + exact Hchoices.
    + exact Hid.
    + exact Hmodel.
Defined.

(** C10, as the specification states it, fails: with an output object
    that has neither [text] nor [choices], normalisation raises when the
    usage field is a number, which has no method [get]. *)
Lemma C10_counterexample :
  odd_usage_payload !! "output" = Some (VDict ∅) ∧
  Aliyun._format_response "uuid" "now" odd_usage_payload hello_params
  = Raise (Exc AttributeErrorC None).
Proof. split; reflexivity. Qed.

Section more_float_order.

Lemma leb_not_ltb (x y : spec_float) :
  Float.leb x y = true → Float.ltb y x = false.
Proof.
  unfold Float.ltb, Float.leb, SFltb, SFleb.
  rewrite (SFcompare_antisym x y).
  by destruct (SFcompare x y) as [[]|].
Qed.

Lemma ltb_irrefl (x : spec_float) : Float.ltb x x = false.
Proof.
  unfold Float.ltb, SFltb.
  destruct (SFcompare x x) as [c|] eqn:Hc; [|done].
  by rewrite (SFcompare_refl x c x Hc) in Hc; simplify_eq.
Qed.

(** Clamping a clamped value changes nothing. *)
Lemma clamp_idempotent (lo hi x : spec_float) :
  Float.leb lo hi = true →
  py_fmax lo (py_fmin (py_fmax lo (py_fmin x hi)) hi)
  = py_fmax lo (py_fmin x hi).
Proof.
  intros Hlh. pose proof (leb_not_ltb _ _ Hlh) as Hhl.
  unfold py_fmax, py_fmin.
  destruct (Float.ltb hi x) eqn:Hhx.
  - destruct (Float.ltb lo hi) eqn:Hlo.
    + by rewrite ltb_irrefl, Hlo.
    + by rewrite Hhl, ltb_irrefl.
  - destruct (Float.ltb lo x) eqn:Hlx.
    + by rewrite Hhx, Hlx.
    + by rewrite Hhl, ltb_irrefl.
Qed.

(** A value strictly above the minimum and not above the maximum is its
    own clamping. *)
Lemma clamp_in_range (lo hi x : spec_float) :
  Float.ltb lo x = true → Float.leb x hi = true →
  py_fmax lo (py_fmin x hi) = x.
Proof.
  intros Hlx Hxh. unfold py_fmax, py_fmin.
  by rewrite (leb_not_ltb _ _ Hxh), Hlx.
Qed.

(** A NaN is clamped to the minimum. *)
Lemma clamp_nan (lo hi : spec_float) :
  py_fmax lo (py_fmin S754_nan hi) = lo.
Proof.
  unfold py_fmax, py_fmin, Float.ltb, SFltb.
  by rewrite !SFcompare_nan_r.
Qed.

Lemma py_min_Zmin (a b : Z) : py_min a b = Z.min a b.
Proof. unfold py_min. destruct (Z.ltb_spec b a); lia. Qed.

Lemma py_max_Zmax (a b : Z) : py_max a b = Z.max a b.
Proof. unfold py_max. destruct (Z.ltb_spec a b); lia. Qed.

Lemma py_min_idempotent (n hi : Z) : py_min (py_min n hi) hi = py_min n hi.
Proof. rewrite !py_min_Zmin. lia. Qed.

Lemma py_clamp_idempotent (n lo hi : Z) :
  lo ≤ hi →
  py_max lo (py_min (py_max lo (py_min n hi)) hi) = py_max lo (py_min n hi).
Proof. intros Hlh. rewrite !py_max_Zmax, !py_min_Zmin. lia. Qed.

Lemma py_min_in_range (n hi : Z) : n ≤ hi → py_min n hi = n.
Proof. intros Hle. rewrite py_min_Zmin. lia. Qed.

Lemma py_clamp_in_range (n lo hi : Z) :
  lo ≤ n ≤ hi → py_max lo (py_min n hi) = n.
Proof. intros Hle. rewrite py_max_Zmax, py_min_Zmin. lia. Qed.

End more_float_order.

(** * Further properties of validation *)

(** X1: the validated output always has the requested model at [model],
    whatever the caller had there; at [messages] the messages of the
    caller or, when there are none, the list of the one message of role
    ["user"] whose content is the prompt; an integer at [max_tokens]; and
    a boolean at [stream], the truth value of the caller's [stream] or
    [False]. *)
Theorem validated_required_fields `{NumericLiterals}
    (settings : Settings) (P : provider) (model : string)
    (p : loc) (h : heap) (d : dict) (lv : loc) (h' : heap) :
  h !! p = Some d →
  validate_parameters settings P model p h = (Ok lv, h') →
  ∃ o m n,
    h' !! lv = Some o ∧
    o !! "model" = Some (VStr model) ∧
    o !! "messages" = Some m ∧ messages_from d m ∧
    o !! "max_tokens" = Some (VInt n) ∧
    o !! "stream"
      = Some (VBool (from_option py_bool false (d !! "stream"))).
Proof.
  intros Hp Hrun.
  destruct (validated_object _ _ _ _ _ _ _ _ Hp Hrun)
    as (o & Ho & _ & _ & _ & _ & HI).
  pose proof (Inv_rule _ _ _ _ "model" HI ltac:(destruct P; solve_key))
    as Hmodel.
  pose proof (Inv_rule _ _ _ _ "messages" HI ltac:(destruct P; solve_key))
    as Hmsg.
  pose proof (Inv_rule _ _ _ _ "max_tokens" HI ltac:(destruct P; solve_key))
    as Hmax.
  pose proof (Inv_rule _ _ _ _ "stream" HI ltac:(destruct P; solve_key))
    as Hstream.
  destruct (rule_messages P model d _ Hmsg) as (m & Hom & Hfrom).
  assert (∃ n, o !! "max_tokens" = Some (VInt n)) as [n Hn]
    by (destruct P; inversion Hmax; eauto).
  exists o, m, n. split_and!; try assumption.
  - by destruct P; inversion Hmodel.
  - destruct P; inversion Hstream;
      match goal with Hd : d !! "stream" = _ |- _ => rewrite Hd end;
      simpl; congruence.
Qed.

Lemma validated_required_fields_witness :
  ∃ o n,
    (validate_parameters (H := decimal_literals) no_settings aliyun
       "qwen-max" 1%positive (store_of hello_params)).2 !! 2%positive
      = Some o ∧
    o !! "model" = Some (VStr "qwen-max") ∧
    o !! "messages"
      = Some (VList [VDict (<["role" := VStr "user"]>
                           (<["content" := VStr "hello"]> ∅))]) ∧
    o !! "max_tokens" = Some (VInt n) ∧
    o !! "stream" = Some (VBool false).
Proof.
  destruct (validated_required_fields (H := decimal_literals) no_settings
              aliyun "qwen-max" 1%positive (store_of hello_params)
              hello_params 2%positive
              (validate_parameters (H := decimal_literals) no_settings
                 aliyun "qwen-max" 1%positive (store_of hello_params)).2)
    as (o & m & n & Ho & Hmodel & Hm & Hfrom & Hmax & Hstream).
  - reflexivity.
  - apply run_returns. vm_compute. reflexivity.
  - exists o, n. split_and!.
    + exact Ho.
    + exact Hmodel.
    + destruct Hfrom as [Hgiven|(_ & prompt & Hprompt & ->)].
      * discriminate Hgiven.
      * injection Hprompt as <-. exact Hm.
    + exact Hmax.
    + exact Hstream.
Defined.

(** X2: messages given by the caller are used as they are, also when a
    prompt is given with them, and then the prompt stays in the output of
    both providers: the DeepSeek provider deletes it only after it has
    made the messages from it. *)
Theorem messages_take_precedence `{NumericLiterals}
    (settings : Settings) (P : provider) (model : string)
    (p : loc) (h : heap) (d : dict) (m : pyval) (lv : loc) (h' : heap) :
  h !! p = Some d →
  d !! "messages" = Some m →
  validate_parameters settings P model p h = (Ok lv, h') →
  ∃ o, h' !! lv = Some o ∧
       o !! "messages" = Some m ∧
       o !! "prompt" = d !! "prompt".
Proof.
  intros Hp Hm Hrun.
  destruct (validated_object _ _ _ _ _ _ _ _ Hp Hrun)
    as (o & Ho & _ & _ & _ & _ & HI).
  exists o. split; [done|]. split.
  - pose proof (Inv_rule _ _ _ _ "messages" HI
                  ltac:(destruct P; solve_key)) as Hr.
    destruct (rule_messages P model d _ Hr)
      as (m' & -> & [Hm'|(Hnone & _)]); congruence.
  - destruct P.
    + by rewrite (Inv_untouched _ _ _ _ "prompt" HI) by solve_key.
    + pose proof (Inv_rule _ _ _ _ "prompt" HI ltac:(solve_key)) as Hr.
      destruct (rule_prompt_deepseek _ _ _ Hr) as [[_ ?]|[? _]];
        congruence.
Qed.

Lemma messages_take_precedence_witness :
  ∃ o,
    (validate_parameters (H := decimal_literals) no_settings deepseek
       "deepseek-chat" 1%positive (store_of both_inputs_params)).2
      !! 2%positive = Some o ∧
    o !! "messages" = Some (VList []) ∧
    o !! "prompt" = Some (VStr "hello").
Proof.
  apply (messages_take_precedence (H := decimal_literals) no_settings
           deepseek "deepseek-chat" 1%positive
           (store_of both_inputs_params) both_inputs_params (VList [])).
  - reflexivity.
  - reflexivity.
  - apply run_returns. vm_compute. reflexivity.
Defined.

(** X3: a key the caller left out comes out with the provider's default:
    for Aliyun [max_tokens] 2048, [temperature] 0.7, [top_p] 0.9,
    [stream] and [enable_thinking] false; for DeepSeek [max_tokens] 4096
    and [stream] false, and [temperature] 0.7 and [top_p] 0.9 unless the
    model is ["deepseek-reasoner"]. *)
Theorem defaults_for_absent_keys `{NumericLiterals}
    (settings : Settings) (P : provider) (model : string)
    (p : loc) (h : heap) (d : dict) (lv : loc) (h' : heap)
    (k : string) (v : pyval) :
  h !! p = Some d →
  validate_parameters settings P model p h = (Ok lv, h') →
  (k, v) ∈ defaults P model → d !! k = None →
  ∃ o, h' !! lv = Some o ∧ o !! k = Some v.
Proof.
  intros Hp Hrun Hkv Hd.
  destruct (validated_object _ _ _ _ _ _ _ _ Hp Hrun)
    as (o & Ho & _ & _ & _ & _ & HI).
  exists o. split; [done|].
  apply list_elem_of_In in Hkv.
  assert (k ∈ assigned P) as Hk.
  { destruct P; cbn [defaults] in Hkv; [|case_bool_decide];
      cbn [In app] in Hkv; intuition; simplify_eq; solve_key. }
  pose proof (Inv_rule _ _ _ _ k HI Hk) as Hr.
  destruct P; cbn [defaults] in Hkv; [|case_bool_decide];
    cbn [In app rule] in Hkv, Hr; intuition; simplify_eq;
    inversion Hr; congruence.
Qed.

Lemma defaults_for_absent_keys_witness :
  ∃ o,
    (validate_parameters (H := decimal_literals) no_settings aliyun
       "qwen-turbo" 1%positive (store_of hello_params)).2 !! 2%positive
      = Some o ∧
    o !! "temperature" = Some (VFloat Float.f0_7).
Proof.
  apply (defaults_for_absent_keys (H := decimal_literals) no_settings
           aliyun "qwen-turbo" 1%positive (store_of hello_params)
           hello_params).
  - reflexivity.
  - apply run_returns. vm_compute. reflexivity.
  - apply list_elem_of_In. simpl. auto.
  - reflexivity.
Defined.

Section again.
Context `{NumericLiterals}.

(** The rule of a key, applied to a dictionary that already obeys the
    rules, prescribes the value the dictionary has. *)
Lemma rule_again P model d o k x :
  Inv (rule P model d) d (assigned P) o →
  k ∈ assigned P → rule P model o k x → x = o !! k.
Proof.
  intros HI Hk H2.
  pose proof (Inv_rule _ _ _ _ k HI Hk) as H1.
  assert (∃ m, o !! "messages" = Some m) as [m Hm].
  { pose proof (Inv_rule _ _ _ _ "messages" HI
                  ltac:(destruct P; solve_key)) as Hr.
    destruct P; inversion Hr; eauto. }
  apply list_elem_of_In in Hk.
  destruct P; cbn [assigned In rule] in Hk, H1, H2; intuition; subst.
  all: inversion H2; subst.
  all: inversion H1; subst.
  all: try congruence.
  all: repeat match goal with
       | Ha : Some _ = ?o !! ?k, Hb : ?o !! ?k = Some _ |- _ =>
           rewrite <- Ha in Hb; injection Hb as <-
       end.
  all: cbn [py_int py_float py_bool] in *; simplify_eq.
  all: rewrite ?py_min_idempotent, ?py_clamp_idempotent by lia.
  all: rewrite ?clamp_idempotent by reflexivity.
  all: reflexivity.
Qed.

(** A dictionary that obeys the rules goes through the conversions. *)
Lemma accepted_reconvertible P model d o :
  Inv (rule P model d) d (assigned P) o → convertible P model o = true.
Proof.
  intros HI. unfold convertible.
  apply andb_true_intro; split; apply forallb_forall; intros k Hk;
    unfold converts; destruct (o !! k) as [v|] eqn:Ho; trivial.
  - assert (k ∈ assigned P) as Ha.
    { destruct P; cbn [ints In] in Hk; intuition; subst; solve_key. }
    pose proof (Inv_rule _ _ _ _ k HI Ha) as Hr. rewrite Ho in Hr.
    destruct P; cbn [ints In rule] in Hk, Hr; intuition; subst;
      inversion Hr; reflexivity.
  - assert (k ∈ assigned P ∧ (P = deepseek → model ≠ "deepseek-reasoner"))
      as [Ha Hm].
    { destruct P; cbn [floats] in Hk; [|case_bool_decide];
        cbn [In] in Hk; intuition; subst; solve_key. }
    pose proof (Inv_rule _ _ _ _ k HI Ha) as Hr. rewrite Ho in Hr.
    destruct P; cbn [floats] in Hk;
      [|rewrite bool_decide_true in Hk by auto];
      cbn [In rule] in Hk, Hr; intuition; subst;
      inversion Hr; try reflexivity; congruence.
Qed.

End again.

(** X4: validating a validated dictionary returns a new dictionary equal
    to it. *)
Theorem validation_idempotent `{NumericLiterals}
    (settings : Settings) (P : provider) (model : string)
    (p : loc) (h : heap) (d : dict) (lv : loc) (h' : heap) :
  h !! p = Some d →
  validate_parameters settings P model p h = (Ok lv, h') →
  ∃ o lv2 h2,
    h' !! lv = Some o ∧
    validate_parameters settings P model lv h' = (Ok lv2, h2) ∧
    h2 !! lv2 = Some o ∧ lv2 ≠ lv.
Proof.
  intros Hp Hrun.
  destruct (validated_object _ _ _ _ _ _ _ _ Hp Hrun)
    as (o & Ho & _ & _ & Hm & _ & HI).
  assert (has_input o) as Hin.
  { right. pose proof (Inv_rule _ _ _ _ "messages" HI
                         ltac:(destruct P; solve_key)) as Hr.
    destruct (rule_messages P model d _ Hr) as (m & -> & _). by eexists. }
  pose proof (validate_parameters_total settings P model lv h' o Ho Hm Hin)
    as Htotal.
  rewrite (accepted_reconvertible _ _ _ _ HI) in Htotal.
  destruct Htotal as (lv2 & h2 & o2 & _ & Hrun2 & Ho2 & _).
  destruct (validated_object _ _ _ _ _ _ _ _ Ho Hrun2)
    as (o2' & Ho2' & Hnew & _ & _ & _ & HI2).
  assert (o2' = o2) as -> by congruence.
  exists o, lv2, h2. split_and!; [done..| |].
  - rewrite Ho2. f_equal. apply map_eq. intros k.
    destruct (decide (k ∈ assigned P)) as [Hk|Hk].
    + apply (rule_again P model d o k); [done..|].
      by apply (Inv_rule _ _ _ _ k HI2).
    + by apply (Inv_untouched _ _ _ _ k HI2).
  - intros ->. by rewrite Ho in Hnew.
Qed.

Lemma validation_idempotent_witness :
  ∃ o lv2 h2,
    (validate_parameters (H := decimal_literals) no_settings aliyun
       "qwen-turbo" 1%positive (store_of hot_params)).2 !! 2%positive
      = Some o ∧
    validate_parameters (H := decimal_literals) no_settings aliyun
      "qwen-turbo" 2%positive
      (validate_parameters (H := decimal_literals) no_settings aliyun
         "qwen-turbo" 1%positive (store_of hot_params)).2
      = (Ok lv2, h2) ∧
    h2 !! lv2 = Some o ∧ lv2 ≠ 2%positive.
Proof.
  apply (validation_idempotent (H := decimal_literals) no_settings aliyun
           "qwen-turbo" 1%positive (store_of hot_params) hot_params).
  - reflexivity.
  - apply run_returns. vm_compute. reflexivity.
Defined.

(** X5: the keys a provider reads and writes nowhere come out as the
    caller gave them, without conversion, clamping or default: for
    DeepSeek [top_k], [seed] and [enable_thinking], for Aliyun [prompt]. *)
Theorem core_keys_passed_through `{NumericLiterals}
    (settings : Settings) (P : provider) (model : string)
    (p : loc) (h : heap) (d : dict) (lv : loc) (h' : heap) (k : string) :
  h !! p = Some d →
  validate_parameters settings P model p h = (Ok lv, h') →
  k ∈ passed_through P →
  ∃ o, h' !! lv = Some o ∧ o !! k = d !! k.
Proof.
  intros Hp Hrun Hk.
  destruct (validated_object _ _ _ _ _ _ _ _ Hp Hrun)
    as (o & Ho & _ & _ & _ & _ & HI).
  exists o. split; [done|].
  apply (Inv_untouched _ _ _ _ k HI).
  apply list_elem_of_In in Hk.
  destruct P; cbn [passed_through In] in Hk.
  - destruct Hk as [<-|[]]. solve_key.
  - destruct Hk as [<-|[<-|[<-|[]]]]; solve_key.
Qed.

Lemma core_keys_passed_through_witness :
  ∃ o,
    (validate_parameters (H := decimal_literals) no_settings deepseek
       "deepseek-chat" 1%positive (store_of loose_params)).2 !! 2%positive
      = Some o ∧
    o !! "top_k" = Some (VStr "many").
Proof.
  apply (core_keys_passed_through (H := decimal_literals) no_settings
           deepseek "deepseek-chat" 1%positive (store_of loose_params)
           loose_params).
  - reflexivity.
  - apply run_returns. vm_compute. reflexivity.
  - solve_key.
Defined.

(** X6: neither provider adds [top_k] or [seed]: a caller who gave none
    gets none. *)
Theorem top_k_and_seed_not_defaulted `{NumericLiterals}
    (settings : Settings) (P : provider) (model : string)
    (p : loc) (h : heap) (d : dict) (lv : loc) (h' : heap) (k : string) :
  h !! p = Some d →
  validate_parameters settings P model p h = (Ok lv, h') →
  k = "top_k" ∨ k = "seed" → d !! k = None →
  ∃ o, h' !! lv = Some o ∧ o !! k = None.
Proof.
  intros Hp Hrun Hk Hd.
  destruct (validated_object _ _ _ _ _ _ _ _ Hp Hrun)
    as (o & Ho & _ & _ & _ & _ & HI).
  exists o. split; [done|]. destruct P.
  - assert (k ∈ assigned aliyun) as Ha by (destruct Hk; subst; solve_key).
    pose proof (Inv_rule _ _ _ _ k HI Ha) as Hr.
    destruct Hk; subst; inversion Hr; congruence.
  - rewrite (Inv_untouched _ _ _ _ k HI); [done|].
    destruct Hk; subst; solve_key.
Qed.

Lemma top_k_and_seed_not_defaulted_witness :
  ∃ o,
    (validate_parameters (H := decimal_literals) no_settings aliyun
       "qwen-turbo" 1%positive (store_of hello_params)).2 !! 2%positive
      = Some o ∧
    o !! "top_k" = None.
Proof.
  apply (top_k_and_seed_not_defaulted (H := decimal_literals) no_settings
           aliyun "qwen-turbo" 1%positive (store_of hello_params)
           hello_params).
  - reflexivity.
  - apply run_returns. vm_compute. reflexivity.
  - by left.
  - reflexivity.
Defined.

(** X7: a value already in range comes out as it went in: an integer
    within the declared bounds, a float above the minimum and not above
    the maximum. *)
Theorem in_range_values_unchanged `{NumericLiterals}
    (settings : Settings) (P : provider) (model : string)
    (p : loc) (h : heap) (d : dict) (lv : loc) (h' : heap)
    (k : string) (r : range) (v : pyval) :
  h !! p = Some d →
  validate_parameters settings P model p h = (Ok lv, h') →
  (k, r) ∈ bounds P → d !! k = Some v → inside r v →
  ∃ o, h' !! lv = Some o ∧ o !! k = Some v.
Proof.
  intros Hp Hrun Hkr Hd Hin.
  destruct (validated_object _ _ _ _ _ _ _ _ Hp Hrun)
    as (o & Ho & _ & _ & _ & _ & HI).
  exists o. split; [done|].
  pose proof (Inv_rule _ _ _ _ k HI (bounded_assigned _ _ _ Hkr)) as Hr.
  apply list_elem_of_In in Hkr.
  destruct P; cbn [bounds In rule] in Hkr, Hr; intuition; simplify_eq;
    destruct v; cbn [inside] in Hin; try (exfalso; exact Hin);
    inversion Hr; try congruence.
  all: rewrite Hd in *; simplify_eq.
  all: cbn [py_int py_float] in *; simplify_eq.
  all: rewrite ?py_min_in_range, ?py_clamp_in_range by assumption.
  all: try reflexivity.
  all: destruct Hin as [Hlo Hhi]; by rewrite clamp_in_range.
Qed.

Lemma in_range_values_unchanged_witness :
  ∃ o,
    (validate_parameters (H := decimal_literals) no_settings deepseek
       "deepseek-chat" 1%positive (store_of in_range_params)).2
      !! 2%positive = Some o ∧
    o !! "temperature" = Some (VFloat Float.f0_5).
Proof.
  apply (in_range_values_unchanged (H := decimal_literals) no_settings
           deepseek "deepseek-chat" 1%positive (store_of in_range_params)
           in_range_params 2%positive _ "temperature"
           (FloatBetween Float.zero Float.two)).
  - reflexivity.
  - apply run_returns. vm_compute. reflexivity.
  - apply list_elem_of_In. simpl. auto.
  - reflexivity.
  - split; reflexivity.
Defined.

(** X8: a NaN given for a clamped float field comes out as the declared
    minimum. *)
Theorem nan_is_clamped_to_minimum `{NumericLiterals}
    (settings : Settings) (P : provider) (model : string)
    (p : loc) (h : heap) (d : dict) (lv : loc) (h' : heap)
    (k : string) (lo hi : spec_float) :
  h !! p = Some d →
  (P = deepseek → model ≠ "deepseek-reasoner") →
  validate_parameters settings P model p h = (Ok lv, h') →
  (k, FloatBetween lo hi) ∈ bounds P → d !! k = Some (VFloat S754_nan) →
  ∃ o, h' !! lv = Some o ∧ o !! k = Some (VFloat lo).
Proof.
  intros Hp Hmodel Hrun Hkr Hd.
  destruct (validated_object _ _ _ _ _ _ _ _ Hp Hrun)
    as (o & Ho & _ & _ & _ & _ & HI).
  exists o. split; [done|].
  pose proof (Inv_rule _ _ _ _ k HI (bounded_assigned _ _ _ Hkr)) as Hr.
  apply list_elem_of_In in Hkr.
  destruct P; cbn [bounds In rule] in Hkr, Hr; intuition; simplify_eq;
    inversion Hr; try congruence.
  all: rewrite Hd in *; simplify_eq.
  all: cbn [py_float] in *; simplify_eq.
  all: by rewrite clamp_nan.
Qed.

Lemma nan_is_clamped_to_minimum_witness :
  ∃ o,
    (validate_parameters (H := decimal_literals) no_settings aliyun
       "qwen-turbo" 1%positive (store_of nan_params)).2 !! 2%positive
      = Some o ∧
    o !! "temperature" = Some (VFloat Float.zero).
Proof.
  apply (nan_is_clamped_to_minimum (H := decimal_literals) no_settings
           aliyun "qwen-turbo" 1%positive (store_of nan_params) nan_params
           2%positive _ "temperature" Float.zero Float.one).
  - reflexivity.
  - discriminate.
  - apply run_returns. vm_compute. reflexivity.
  - apply list_elem_of_In. simpl. auto.
  - reflexivity.
Defined.

(** * Further properties of the Aliyun normalisation *)

Section more_normalisation.

(** Every result is the first dictionary of [_format_response] with its
    choices and, for a true usage, its statistics. *)
Lemma format_response_shape uuid4 now api_response original_params r :
  Aliyun._format_response uuid4 now api_response original_params = Ok r →
  ∃ cs u,
    r = <["usage" := VDict u]>
        (<["choices" := VList cs]>
        (<["id" := get_default api_response "request_id" (VStr uuid4)]>
        (<["model" := get_default original_params "model" (VStr "")]>
        (<["created" := VStr now]>
        (<["choices" := VList []]>
        (<["usage" := VDict ∅]> ∅)))))).
Proof.
  unfold Aliyun._format_response. cbv zeta.
  intros (has_text & _ & (cs & _ & Hr)%result_bind_ok)%result_bind_ok.
  destruct (py_bool _).
  - apply result_bind_ok in Hr as (pt & _ & Hr).
    apply result_bind_ok in Hr as (ct & _ & Hr).
    apply result_bind_ok in Hr as (tt & _ & Hr).
    injection Hr as <-. by eexists cs, _.
  - injection Hr as <-. exists cs, ∅.
    symmetry. apply insert_id. reflexivity.
Qed.

End more_normalisation.

(** X9: every result of the Aliyun normalisation has exactly the keys
    [id], [model], [created], [choices] and [usage]; [id] is the
    [request_id] of the payload or else the fresh identifier, [model] the
    model of the request parameters or else the empty string, [choices]
    a list and [usage] a dictionary. *)
Theorem format_response_envelope (uuid4 now : string)
    (api_response original_params r : dict) :
  Aliyun._format_response uuid4 now api_response original_params = Ok r →
  dom r = result_keys ∧
  r !! "id" = Some (get_default api_response "request_id" (VStr uuid4)) ∧
  r !! "model" = Some (get_default original_params "model" (VStr "")) ∧
  r !! "created" = Some (VStr now) ∧
  (∃ cs, r !! "choices" = Some (VList cs)) ∧
  (∃ u, r !! "usage" = Some (VDict u)).
Proof.
  intros (cs & u & ->)%format_response_shape. split_and!.
  - rewrite !dom_insert_L, dom_empty_L. unfold result_keys. set_solver.
  - reflexivity.
  - reflexivity.
  - reflexivity.
  - by exists cs.
  - by exists u.
Qed.

Lemma format_response_envelope_witness :
  ∃ r,
    Aliyun._format_response "uuid" "now" hello_payload hello_params = Ok r ∧
    dom r = result_keys ∧ r !! "id" = Some (VStr "uuid").
Proof.
  eexists. split; [reflexivity|].
  destruct (format_response_envelope "uuid" "now" hello_payload
              hello_params _ eq_refl) as (Hdom & Hid & _).
  split; [exact Hdom|exact Hid].
Defined.

Section choices.

(** What the body of the loop makes of a readable choice. *)
Lemma format_choice_readable (i : Z) (c : dict) (msg : dict) :
  message_of c = VDict msg →
  ∃ m,
    Aliyun.format_choice i (VDict c)
    = Ok (VDict (<["index" := VInt i]>
                (<["message" := VDict m]>
                (<["finish_reason" :=
                     get_default c "finish_reason" (VStr "stop")]> ∅)))) ∧
    m !! "role" = Some (VStr "assistant") ∧
    m !! "content" = Some (get_default msg "content" (VStr "")) ∧
    m !! "tool_calls" = msg !! "tool_calls".
Proof.
  unfold message_of. intros Hmsg. unfold Aliyun.format_choice.
  cbn [py_get result_bind]. rewrite Hmsg. cbn [py_get py_in result_bind].
  destruct (msg !! "tool_calls") as [tc|] eqn:Htc.
  - rewrite bool_decide_true by eauto. cbn [py_getitem result_bind].
    assert (c !! "message" = Some (VDict msg)) as ->.
    { unfold get_default in Hmsg. destruct (c !! "message") as [v|] eqn:Hc.
      - by rewrite <- Hmsg.
      - cbn in Hmsg. injection Hmsg as <-. by rewrite lookup_empty in Htc. }
    cbn [py_getitem result_bind]. rewrite Htc. cbn [result_bind].
    eexists. split; [reflexivity|]. done.
  - rewrite bool_decide_false by (by intros [? ?]). cbn [result_bind].
    eexists. split; [reflexivity|]. done.
Qed.

Lemma readable_message (choice : pyval) :
  readable_choice choice →
  ∃ c msg, choice = VDict c ∧ message_of c = VDict msg.
Proof.
  intros (c & -> & [Hnone|[msg Hmsg]]); exists c.
  - exists ∅. split; [done|]. unfold message_of, get_default.
    by rewrite Hnone.
  - exists msg. split; [done|]. unfold message_of, get_default.
    by rewrite Hmsg.
Qed.

(** The loop over readable choices returns one choice for each, with its
    position as index. *)
Lemma format_choices_readable (items : list pyval) (i : Z) :
  Forall readable_choice items →
  ∃ cs,
    Aliyun.format_choices i items = Ok cs ∧
    length cs = length items ∧
    ∀ (j : nat) c msg,
      items !! j = Some (VDict c) → message_of c = VDict msg →
      ∃ m,
        cs !! j
        = Some (VDict (<["index" := VInt (i + Z.of_nat j)]>
                      (<["message" := VDict m]>
                      (<["finish_reason" :=
                           get_default c "finish_reason" (VStr "stop")]>
                         ∅)))) ∧
        m !! "role" = Some (VStr "assistant") ∧
        m !! "content" = Some (get_default msg "content" (VStr "")) ∧
        m !! "tool_calls" = msg !! "tool_calls".
Proof.
  intros Hall. revert i.
  induction Hall as [|item items Hitem _ IH]; intros i.
  - exists []. split; [done|]. split; [done|]. intros j c msg Hj.
    by rewrite lookup_nil in Hj.
  - destruct (readable_message _ Hitem) as (c & msg & -> & Hmsg).
    destruct (format_choice_readable i c msg Hmsg) as (m & Hfc & Hm).
    destruct (IH (i + 1)) as (cs & Hcs & Hlen & Hnth).
    cbn [Aliyun.format_choices]. rewrite Hfc. cbn [result_bind].
    rewrite Hcs. cbn [result_bind].
    eexists. split; [reflexivity|]. split; [by cbn; rewrite Hlen|].
    intros [|j] c' msg' Hj Hmsg'.
    + cbn in Hj. injection Hj as <-.
      assert (msg' = msg) as -> by congruence.
      exists m. split; [|done]. cbn. by rewrite Z.add_0_r.
    + cbn in Hj. destruct (Hnth j c' msg' Hj Hmsg') as (m' & Hcj & Hm').
      exists m'. split; [|done].
      replace (i + Z.of_nat (S j)) with (i + 1 + Z.of_nat j) by lia.
      exact Hcj.
Qed.

End choices.

Section usage_part.

(** The last part of [_format_response], once the choices are there. *)
Lemma format_response_usage_readable uuid4 now api_response original_params
    (output : pyval) (cs : list pyval) :
  get_default api_response "output" (VDict ∅) = output →
  (has_text ← py_in "text" output;
   if has_text : bool then
     text ← py_getitem output "text";
     finish_reason ← py_get output "finish_reason" (VStr "stop");
     Ok [assistant_choice 0 text finish_reason]
   else
     has_choices ← py_in "choices" output;
     if has_choices : bool then
       choices ← py_getitem output "choices";
       items ← py_iter choices;
       Aliyun.format_choices 0 items
     else Ok [])%result = Ok cs →
  usage_readable api_response →
  ∃ r,
    Aliyun._format_response uuid4 now api_response original_params = Ok r ∧
    r !! "choices" = Some (VList cs).
Proof.
  intros Hout Hcs Hu. unfold Aliyun._format_response. cbv zeta.
  rewrite Hout. unfold assistant_choice in Hcs.
  apply result_bind_ok in Hcs as (has_text & -> & Hcs).
  cbn [result_bind]. rewrite Hcs. cbn [result_bind].
  destruct Hu as [Hu|[u Hu]].
  - rewrite Hu. eexists. split; [reflexivity|]. done.
  - assert (get_default api_response "usage" (VDict ∅) = VDict u) as ->
      by (unfold get_default; by rewrite Hu).
    destruct (py_bool (VDict u)); cbn [py_get result_bind];
      (eexists; split; [reflexivity|]); done.
Qed.

End usage_part.

(** X10: when the output object has a [text], the result has exactly one
    choice, at index 0, with the text as the content of an assistant
    message and the [finish_reason] of the output, or ["stop"]; a
    [choices] field beside the text is not read. *)
Theorem flat_text_takes_precedence (uuid4 now : string)
    (api_response original_params out : dict) (text : pyval) :
  api_response !! "output" = Some (VDict out) →
  out !! "text" = Some text →
  usage_readable api_response →
  ∃ r,
    Aliyun._format_response uuid4 now api_response original_params = Ok r ∧
    r !! "choices"
    = Some (VList [assistant_choice 0 text
                     (get_default out "finish_reason" (VStr "stop"))]).
Proof.
  intros Hout Htext Hu.
  apply (format_response_usage_readable _ _ _ _ (VDict out)); [| |done].
  - unfold get_default. by rewrite Hout.
  - cbn [py_in result_bind]. rewrite bool_decide_true by eauto.
    cbn [py_getitem py_get result_bind]. by rewrite Htext.
Qed.

Lemma flat_text_takes_precedence_witness :
  ∃ r,
    Aliyun._format_response "uuid" "now" text_and_choices_payload
      hello_params = Ok r ∧
    r !! "choices"
    = Some (VList [assistant_choice 0 (VStr "flat") (VStr "stop")]).
Proof.
  destruct (flat_text_takes_precedence "uuid" "now"
              text_and_choices_payload hello_params
              (<["text" := VStr "flat"]> (<["choices" := VInt 7]> ∅))
              (VStr "flat")) as (r & Hr & Hc).
  - reflexivity.
  - reflexivity.
  - left. reflexivity.
  - exists r. split; [exact Hr|exact Hc].
Defined.

(** X11: when the output object has no [text] and a list of readable
    choices, the result has one choice for each of them, in their order,
    each with its position as [index] and with the [finish_reason] of the
    upstream choice, or ["stop"]. *)
Theorem choices_are_enumerated (uuid4 now : string)
    (api_response original_params out : dict) (items : list pyval) :
  api_response !! "output" = Some (VDict out) →
  out !! "text" = None → out !! "choices" = Some (VList items) →
  Forall readable_choice items →
  usage_readable api_response →
  ∃ r cs,
    Aliyun._format_response uuid4 now api_response original_params = Ok r ∧
    r !! "choices" = Some (VList cs) ∧
    length cs = length items ∧
    ∀ (j : nat) c,
      items !! j = Some (VDict c) →
      ∃ c', cs !! j = Some (VDict c') ∧
            c' !! "index" = Some (VInt (Z.of_nat j)) ∧
            c' !! "finish_reason"
            = Some (get_default c "finish_reason" (VStr "stop")).
Proof.
  intros Hout Htext Hchoices Hall Hu.
  destruct (format_choices_readable items 0 Hall) as (cs & Hcs & Hlen & Hnth).
  destruct (format_response_usage_readable uuid4 now api_response
              original_params (VDict out) cs) as (r & Hr & Hrc); [| |done|].
  - unfold get_default. by rewrite Hout.
  - cbn [py_in result_bind]. rewrite Htext, Hchoices.
    rewrite bool_decide_false by apply is_Some_None.
    rewrite bool_decide_true by eauto.
    cbn [py_getitem py_iter result_bind]. rewrite Hchoices.
    cbn [py_iter result_bind]. exact Hcs.
  - exists r, cs. split_and!; [done..|].
    intros j c Hj.
    assert (readable_choice (VDict c)) as Hc.
    { eapply Forall_lookup_1; eauto. }
    destruct (readable_message _ Hc) as (c0 & msg & [= <-] & Hmsg).
    destruct (Hnth j c msg Hj Hmsg) as (m & Hcj & _).
    eexists. split; [exact Hcj|]. done.
Qed.

Lemma choices_are_enumerated_witness :
  ∃ r cs,
    Aliyun._format_response "uuid" "now" choices_payload hello_params
      = Ok r ∧
    r !! "choices" = Some (VList cs) ∧
    length cs = 2%nat.
Proof.
  destruct (choices_are_enumerated "uuid" "now" choices_payload
              hello_params
              {[ "choices" := VList [VDict ∅; VDict tool_choice] ]}
              [VDict ∅; VDict tool_choice])
    as (r & cs & Hr & Hc & Hlen & _).
  - reflexivity.
  - reflexivity.
  - reflexivity.
  - repeat constructor.
    + exists ∅. split; [reflexivity|]. left. reflexivity.
    + exists tool_choice. split; [reflexivity|]. right.
      eexists. reflexivity.
  - right. eexists. reflexivity.
  - exists r, cs. split_and!; [exact Hr|exact Hc|exact Hlen].
Defined.

(** X12: the message of each normalised choice has the role
    ["assistant"], the [content] of the upstream message, or the empty
    string, and the [tool_calls] of the upstream message when it has
    some, and no [tool_calls] otherwise. *)
Theorem choice_messages_are_copied (uuid4 now : string)
    (api_response original_params out : dict) (items : list pyval)
    (j : nat) (c msg : dict) :
  api_response !! "output" = Some (VDict out) →
  out !! "text" = None → out !! "choices" = Some (VList items) →
  Forall readable_choice items →
  usage_readable api_response →
  items !! j = Some (VDict c) → message_of c = VDict msg →
  ∃ r cs c' m,
    Aliyun._format_response uuid4 now api_response original_params = Ok r ∧
    r !! "choices" = Some (VList cs) ∧
    cs !! j = Some (VDict c') ∧
    c' !! "message" = Some (VDict m) ∧
    m !! "role" = Some (VStr "assistant") ∧
    m !! "content" = Some (get_default msg "content" (VStr "")) ∧
    m !! "tool_calls" = msg !! "tool_calls".
Proof.
  intros Hout Htext Hchoices Hall Hu Hj Hmsg.
  destruct (format_choices_readable items 0 Hall) as (cs & Hcs & Hlen & Hnth).
  destruct (format_response_usage_readable uuid4 now api_response
              original_params (VDict out) cs) as (r & Hr & Hrc); [| |done|].
  - unfold get_default. by rewrite Hout.
  - cbn [py_in result_bind]. rewrite Htext, Hchoices.
    rewrite bool_decide_false by apply is_Some_None.
    rewrite bool_decide_true by eauto.
    cbn [py_getitem py_iter result_bind]. rewrite Hchoices.
    cbn [py_iter result_bind]. exact Hcs.
  - destruct (Hnth j c msg Hj Hmsg) as (m & Hcj & Hrole & Hcontent & Htc).
    exists r, cs. eexists _, m. split_and!; [done|done|exact Hcj|done..].
Qed.

Lemma choice_messages_are_copied_witness :
  ∃ r cs c' m,
    Aliyun._format_response "uuid" "now" choices_payload hello_params
      = Ok r ∧
    r !! "choices" = Some (VList cs) ∧
    cs !! 1%nat = Some (VDict c') ∧
    c' !! "message" = Some (VDict m) ∧
    m !! "role" = Some (VStr "assistant") ∧
    m !! "content" = Some (VStr "calling") ∧
    m !! "tool_calls" = Some (VList [VStr "call-1"]).
Proof.
  destruct (choice_messages_are_copied "uuid" "now" choices_payload
              hello_params
              {[ "choices" := VList [VDict ∅; VDict tool_choice] ]}
              [VDict ∅; VDict tool_choice] 1 tool_choice
              (<["content" := VStr "calling"]>
               (<["tool_calls" := VList [VStr "call-1"]]> ∅)))
    as (r & cs & c' & m & Hr & Hc & Hcs & Hm & Hrole & Hcontent & Htc).
  - reflexivity.
  - reflexivity.
  - reflexivity.
  - repeat constructor.
    + exists ∅. split; [reflexivity|]. left. reflexivity.
    + exists tool_choice. split; [reflexivity|]. right.
      eexists. reflexivity.
  - right. eexists. reflexivity.
  - reflexivity.
  - reflexivity.
  - exists r, cs, c', m.
    split_and!; [exact Hr|exact Hc|exact Hcs|exact Hm|exact Hrole
                |exact Hcontent|exact Htc].
Defined.

(** X13: a non-empty usage dictionary of the payload is copied field by
    field, [input_tokens] to [prompt_tokens] and [output_tokens] to
    [completion_tokens], each field that is missing being 0; the total is
    the [total_tokens] of the payload and is never computed. *)
Theorem usage_fields_default_to_zero (uuid4 now : string)
    (api_response original_params u r : dict) :
  api_response !! "usage" = Some (VDict u) → u ≠ ∅ →
  Aliyun._format_response uuid4 now api_response original_params = Ok r →
  r !! "usage"
  = Some (usage_stats (get_default u "input_tokens" (VInt 0))
            (get_default u "output_tokens" (VInt 0))
            (get_default u "total_tokens" (VInt 0))).
Proof.
  intros Hu Hne. unfold Aliyun._format_response. cbv zeta.
  assert (get_default api_response "usage" (VDict ∅) = VDict u) as ->
    by (unfold get_default; by rewrite Hu).
  intros (has_text & _ & (cs & _ & Hr)%result_bind_ok)%result_bind_ok.
  cbn [py_bool] in Hr. rewrite bool_decide_false in Hr by done.
  cbn [negb py_get result_bind] in Hr. by injection Hr as <-.
Qed.

Lemma usage_fields_default_to_zero_witness :
  ∃ r,
    Aliyun._format_response "uuid" "now" choices_payload hello_params
      = Ok r ∧
    r !! "usage" = Some (usage_stats (VInt 0) (VInt 0) (VInt 9)).
Proof.
  assert (is_ok (Aliyun._format_response "uuid" "now" choices_payload
                   hello_params) = true) as Hok by (vm_compute; reflexivity).
  destruct (Aliyun._format_response "uuid" "now" choices_payload
              hello_params) as [r|e] eqn:Hr.
  - exists r. split; [reflexivity|].
    refine (usage_fields_default_to_zero "uuid" "now" choices_payload
              hello_params {[ "total_tokens" := VInt 9 ]} r _ _ Hr).
    + reflexivity.
    + apply (bool_decide_unpack _). vm_compute. exact I.
  - discriminate Hok.
Defined.

(** X14: a usage of the payload that is false, as the empty dictionary,
    null or 0 are, is treated as an absent one: the result has the empty
    dictionary at [usage]. *)
Theorem false_usage_is_ignored (uuid4 now : string)
    (api_response original_params r : dict) :
  py_bool (get_default api_response "usage" (VDict ∅)) = false →
  Aliyun._format_response uuid4 now api_response original_params = Ok r →
  r !! "usage" = Some (VDict ∅).
Proof.
  intros Hu. unfold Aliyun._format_response. cbv zeta.
  intros (has_text & _ & (cs & _ & Hr)%result_bind_ok)%result_bind_ok.
  rewrite Hu in Hr. by injection Hr as <-.
Qed.

Lemma false_usage_is_ignored_witness :
  ∃ r,
    Aliyun._format_response "uuid" "now" empty_usage_payload hello_params
      = Ok r ∧
    r !! "usage" = Some (VDict ∅).
Proof.
  assert (is_ok (Aliyun._format_response "uuid" "now" empty_usage_payload
                   hello_params) = true) as Hok by (vm_compute; reflexivity).
  destruct (Aliyun._format_response "uuid" "now" empty_usage_payload
              hello_params) as [r|e] eqn:Hr.
  - exists r. split; [reflexivity|].
    refine (false_usage_is_ignored "uuid" "now" empty_usage_payload
              hello_params r _ Hr).
    reflexivity.
  - discriminate Hok.
Defined.

(** X15: a usage of the payload that is true and is no dictionary, as a
    number or a non-empty string are, makes every normalisation fail. *)
Theorem odd_usage_never_normalises (uuid4 now : string)
    (api_response original_params : dict) (v : pyval) :
  api_response !! "usage" = Some v →
  py_bool v = true → (∀ u, v ≠ VDict u) →
  ∃ e, Aliyun._format_response uuid4 now api_response original_params
       = Raise e.
Proof.
  intros Hu Htrue Hdict.
  destruct (Aliyun._format_response uuid4 now api_response original_params)
    as [r|e] eqn:Hr; [|by exists e].
  exfalso. revert Hr. unfold Aliyun._format_response. cbv zeta.
  assert (get_default api_response "usage" (VDict ∅) = v) as ->
    by (unfold get_default; by rewrite Hu).
  intros (has_text & _ & (cs & _ & Hr)%result_bind_ok)%result_bind_ok.
  rewrite Htrue in Hr.
  destruct v; try discriminate Hr. by eapply Hdict.
Qed.

Lemma odd_usage_never_normalises_witness :
  ∃ e, Aliyun._format_response "uuid" "now" odd_usage_payload hello_params
       = Raise e.
Proof.
  apply (odd_usage_never_normalises "uuid" "now" odd_usage_payload
           hello_params (VInt 5)).
  - reflexivity.
  - reflexivity.
  - discriminate.
Defined.

(** X16: an output of the payload that is null, a boolean or a number
    makes the normalisation raise a type error: the test for [text] needs
    a container. *)
Theorem scalar_output_is_type_error (uuid4 now : string)
    (api_response original_params : dict) (v : pyval) :
  api_response !! "output" = Some v → is_scalar v = true →
  Aliyun._format_response uuid4 now api_response original_params
  = Raise (Exc TypeErrorC None).
Proof.
  intros Hout Hv. unfold Aliyun._format_response. cbv zeta.
  assert (get_default api_response "output" (VDict ∅) = v) as ->
    by (unfold get_default; by rewrite Hout).
  by destruct v.
Qed.

Lemma scalar_output_is_type_error_witness :
  Aliyun._format_response "uuid" "now" null_output_payload hello_params
  = Raise (Exc TypeErrorC None).
Proof.
  apply (scalar_output_is_type_error "uuid" "now" null_output_payload
           hello_params VNone).
  - reflexivity.
  - reflexivity.
Defined.

(** X17: a payload without an output is normalised as one with an empty
    output object: the result has no choices. *)
Theorem absent_output_gives_no_choices (uuid4 now : string)
    (api_response original_params : dict) :
  api_response !! "output" = None →
  usage_readable api_response →
  ∃ r,
    Aliyun._format_response uuid4 now api_response original_params = Ok r ∧
    r !! "choices" = Some (VList []).
Proof.
  intros Hout Hu.
  destruct (format_response_no_output uuid4 now api_response
              original_params ∅) as (r & Hr & Hc & _); [|done..|by exists r].
  unfold get_default. by rewrite Hout.
Qed.

Lemma absent_output_gives_no_choices_witness :
  ∃ r,
    Aliyun._format_response "uuid" "now" ∅ hello_params = Ok r ∧
    r !! "choices" = Some (VList []).
Proof.
  apply (absent_output_gives_no_choices "uuid" "now" ∅ hello_params).
  - reflexivity.
  - left. reflexivity.
Defined.

(** * Properties of the calls *)

Section calls.
Context `{NumericLiterals}.
Variable settings : Settings.
Variable endpoints : Endpoints.

(** The request body for a validated dictionary. *)
Lemma request_data_validated model d o :
  Inv (rule aliyun model d) d (assigned aliyun) o →
  ∃ m, o !! "messages" = Some m ∧ messages_from d m ∧
       AliyunCall.request_data o
       = Ok (<["model" := VStr model]>
            (<["input" := VDict {[ "messages" := m ]}]>
            (<["parameters" :=
                 VDict (filter (λ kv, kv.1 ∉ AliyunCall.exclude_keys) o)]>
               ∅))).
Proof.
  intros HI.
  pose proof (Inv_rule _ _ _ _ "model" HI ltac:(solve_key)) as Hmodel.
  pose proof (Inv_rule _ _ _ _ "messages" HI ltac:(solve_key)) as Hmsg.
  destruct (rule_messages aliyun model d _ Hmsg) as (m & Hom & Hfrom).
  exists m. split_and!; [assumption|assumption|].
  assert (o !! "model" = Some (VStr model)) as Hom'
    by (by inversion Hmodel).
  unfold AliyunCall.request_data. cbn [py_getitem].
  rewrite Hom'. cbn [result_bind]. by rewrite Hom.
Qed.

(** [call_model] of the Aliyun provider once validation has returned. *)
Lemma aliyun_call_model_validated post uuid4 now model p h d lv h' :
  h !! p = Some d →
  Aliyun.validate_parameters settings model p h = (Ok lv, h') →
  ∃ o m data,
    h' !! lv = Some o ∧
    Inv (rule aliyun model d) d (assigned aliyun) o ∧
    o !! "messages" = Some m ∧ messages_from d m ∧
    AliyunCall.request_data o = Ok data ∧
    AliyunCall.call_model settings endpoints post uuid4 now model p h
    = if unset (ALIYUN_API_KEY endpoints) then
        {| returned := Raise (ValueError "Aliyun API key not configured");
           final := h'; calls := [] |}
      else
        let request :=
          {| AliyunCall.url :=
               address (ALIYUN_API_URL endpoints) AliyunCall.default_url;
             AliyunCall.json := data;
             AliyunCall.headers :=
               AliyunCall.request_headers
                 (default "" (ALIYUN_API_KEY endpoints)) o |} in
        {| returned :=
             match post request with
             | AliyunCall.Document (VDict api_response) =>
                 AliyunCall.wrapped
                   (Aliyun._format_response uuid4 now api_response o)
             | AliyunCall.Document _ =>
                 AliyunCall.wrapped (Raise (Exc AttributeErrorC None))
             | AliyunCall.BadStatus status_code error_detail =>
                 Raise (ValueError
                          ("Aliyun API HTTP error: " +:+
                           pretty status_code +:+ ", " +:+ error_detail))
             | AliyunCall.Failure text =>
                 Raise (ValueError ("Aliyun API error: " +:+ text))
             end;
           final := h'; calls := [request] |}.
Proof.
  intros Hp Hrun.
  destruct (validated_object settings aliyun _ _ _ _ _ _ Hp Hrun)
    as (o & Ho & _ & _ & _ & _ & HI).
  destruct (request_data_validated _ _ _ HI) as (m & Hom & Hfrom & Hdata).
  eexists o, m, _. split_and!; try eassumption.
  unfold AliyunCall.call_model. rewrite Hrun.
  destruct (unset (ALIYUN_API_KEY endpoints)); [reflexivity|].
  cbv zeta. rewrite Ho, Hdata. reflexivity.
Qed.

(** [call_model] of the DeepSeek provider once validation has returned. *)
Lemma deepseek_call_model_validated create now model p h d lv h' :
  h !! p = Some d →
  DeepSeek.validate_parameters settings model p h = (Ok lv, h') →
  ∃ o,
    h' !! lv = Some o ∧
    Inv (rule deepseek model d) d (assigned deepseek) o ∧
    DeepSeekCall.call_model settings endpoints create now model p h
    = if unset (DEEPSEEK_API_KEY endpoints) then
        {| returned :=
             Raise (ValueError "DeepSeek API key not configured");
           final := h'; calls := [] |}
      else
        let request :=
          {| DeepSeekCall.api_key :=
               default "" (DEEPSEEK_API_KEY endpoints);
             DeepSeekCall.base_url :=
               address (DEEPSEEK_API_URL endpoints)
                 "https://api.deepseek.com";
             DeepSeekCall.kwargs := o |} in
        {| returned :=
             match create request with
             | DeepSeekCall.Completion response =>
                 Ok (DeepSeek.call_model_result model now response)
             | DeepSeekCall.Failure text =>
                 Raise (ValueError ("DeepSeek API error: " +:+ text))
             | DeepSeekCall.NoCompletion =>
                 Raise (api_error "DeepSeek API error: "
                          (Exc AttributeErrorC None))
             end;
           final := h'; calls := [request] |}.
Proof.
  intros Hp Hrun.
  destruct (validated_object settings deepseek _ _ _ _ _ _ Hp Hrun)
    as (o & Ho & _ & _ & _ & _ & HI).
  exists o. split_and!; try eassumption.
  unfold DeepSeekCall.call_model. rewrite Hrun.
  destruct (unset (DEEPSEEK_API_KEY endpoints)); [reflexivity|].
  cbv zeta. rewrite Ho. reflexivity.
Qed.

Lemma wrapped_class r e :
  AliyunCall.wrapped r = Raise e → exn_class e = ValueErrorC.
Proof. destruct r as [v|e']; [done|]. by intros [= <-]. Qed.

(** The exceptions of validation when every conversion succeeds. *)
Lemma rejected_value_error P model d h e h' :
  convertible P model d = true →
  rejects (supported_models settings P) (ints P) (floats P model)
    model d h e h' →
  exn_class e = ValueErrorC.
Proof.
  intros Hconv [Hm|Hm Hp Hms|e' o Hm Hin Hc]; [done|done|].
  by destruct (convertible_no_conv_error _ _ _ _ Hconv Hc).
Qed.

End calls.

Section call_outcomes.
Context `{NumericLiterals}.
Variable settings : Settings.
Variable endpoints : Endpoints.

Lemma conv_error_untexted P model d e :
  conv_error (ints P) (floats P model) d e → exn_text e = None.
Proof.
  intros [k v e' _ _ Hc|k v e' _ _ Hc].
  - destruct v as [| | |[]| | |]; simpl in Hc;
      try destruct (int_of_str _); by simplify_eq.
  - destruct v as [| |z| | | |]; simpl in Hc;
      try destruct (float_of_str _); try destruct (Float.of_Z z);
      by simplify_eq.
Qed.

(** The text of an exception of validation is not that of another
    statement of [call_model]. *)
Lemma rejected_text P model d h e h' text :
  rejects (supported_models settings P) (ints P) (floats P model)
    model d h e h' →
  e = ValueError text →
  ∃ rest, text = "M" +:+ rest ∨ text = "P" +:+ rest.
Proof.
  intros [Hm|Hm Hp Hms|e' o Hm Hin Hc] He.
  - injection He as <-. eexists. left. reflexivity.
  - injection He as <-. eexists. right. reflexivity.
  - apply conv_error_untexted in Hc. by subst.
Qed.

Lemma wrapped_ok r v : AliyunCall.wrapped r = Ok v → r = Ok v.
Proof. by destruct r. Qed.

Lemma wrapped_text r text :
  AliyunCall.wrapped r = Raise (ValueError text) →
  ∃ rest, text = "Aliyun API error: " +:+ rest.
Proof.
  destruct r as [v|[c [msg|]]]; [done| |done].
  intros [= <-]. by eexists.
Qed.

End call_outcomes.

(** ** What the client is called with *)

(** X18: once validation has returned and a key is configured, the Aliyun
    provider calls [client.post] once, with the configured address, or
    else the address of the DashScope text generation service, and a body
    that has exactly the fields [model], [input] and [parameters]: the
    requested model, the validated conversation under [messages], and
    every validated parameter but [model], [messages] and [prompt]. *)
Theorem aliyun_request_body `{NumericLiterals}
    (settings : Settings) (endpoints : Endpoints)
    (post : AliyunCall.request → AliyunCall.reply) (uuid4 now : string)
    (model : string) (p : loc) (h : heap) (d : dict)
    (lv : loc) (h' : heap) :
  h !! p = Some d →
  Aliyun.validate_parameters settings model p h = (Ok lv, h') →
  unset (ALIYUN_API_KEY endpoints) = false →
  ∃ o m ps request,
    h' !! lv = Some o ∧
    calls (AliyunCall.call_model settings endpoints post uuid4 now model p h)
      = [request] ∧
    AliyunCall.url request
    = address (ALIYUN_API_URL endpoints)
  "https://dashscope.aliyuncs.com/api/v1/services/aigc/text-generation/generation" ∧
    dom (AliyunCall.json request) = {[ "model"; "input"; "parameters" ]} ∧
    AliyunCall.json request !! "model" = Some (VStr model) ∧
    AliyunCall.json request !! "input"
      = Some (VDict {[ "messages" := m ]}) ∧
    messages_from d m ∧
    AliyunCall.json request !! "parameters" = Some (VDict ps) ∧
    ∀ k, ps !! k
         = if decide (k ∈ ["model"; "messages"; "prompt"]) then None
           else o !! k.
Proof.
  intros Hp Hrun Hkey.
  destruct (aliyun_call_model_validated settings endpoints post uuid4 now
              _ _ _ _ _ _ Hp Hrun)
    as (o & m & data & Ho & HI & Hom & Hfrom & Hdata & ->).
  rewrite Hkey. cbv zeta. cbn [calls].
  destruct (request_data_validated _ _ _ HI) as (m' & Hom' & _ & Hdata').
  assert (m' = m) as -> by congruence.
  rewrite Hdata' in Hdata. injection Hdata as <-.
  eexists o, m, _, _.
  split_and!; [exact Ho|reflexivity|reflexivity| |reflexivity|reflexivity
              |exact Hfrom|reflexivity|].
  - cbn [AliyunCall.json]. rewrite !dom_insert_L, dom_empty_L. set_solver.
  - intros k. destruct (decide _) as [Hk|Hk].
    + apply map_lookup_filter_None. right. intros v _ Hn. by apply Hn.
    + destruct (o !! k) as [v|] eqn:Hok.
      * by apply map_lookup_filter_Some.
      * apply map_lookup_filter_None. by left.
Qed.

Lemma aliyun_request_body_witness :
  ∃ request ps,
    calls (AliyunCall.call_model (H := decimal_literals) no_settings
             configuration hello_service "uuid" "now" "qwen-turbo"
             1%positive (store_of streaming_params)) = [request] ∧
    AliyunCall.url request =
  "https://dashscope.aliyuncs.com/api/v1/services/aigc/text-generation/generation" ∧
    AliyunCall.json request !! "model" = Some (VStr "qwen-turbo") ∧
    AliyunCall.json request !! "parameters" = Some (VDict ps) ∧
    ps !! "prompt" = None ∧
    ps !! "custom_flag" = Some (VStr "on").
Proof.
  destruct (aliyun_request_body (H := decimal_literals) no_settings
              configuration hello_service "uuid" "now" "qwen-turbo"
              1%positive (store_of streaming_params) streaming_params
              2%positive
              (validate_parameters (H := decimal_literals) no_settings
                 aliyun "qwen-turbo" 1%positive
                 (store_of streaming_params)).2)
    as (o & m & ps & request & Ho & Hs & Hu & _ & Hm & _ & _ & Hps & Hk).
  - reflexivity.
  - apply run_returns. vm_compute. reflexivity.
  - reflexivity.
  - exists request, ps. split_and!.
    + exact Hs.
    + exact Hu.
    + exact Hm.
    + exact Hps.
    + exact (Hk "prompt").
    + assert ((validate_parameters (H := decimal_literals) no_settings
                 aliyun "qwen-turbo" 1%positive
                 (store_of streaming_params)).2 !! 2%positive
              ≫= (.!! "custom_flag") = Some (VStr "on")) as Hc
        by (vm_compute; reflexivity).
      rewrite Ho in Hc. cbn [mbind option_bind] in Hc.
      rewrite <- Hc. exact (Hk "custom_flag").
Defined.

(** X19: in that request, every parameter of the caller outside the core
    set is forwarded with the value it had; [max_tokens], [temperature],
    [top_p], [stream] and [enable_thinking] are always among the
    parameters, and [stream] is a boolean. *)
Theorem aliyun_request_parameters `{NumericLiterals}
    (settings : Settings) (endpoints : Endpoints)
    (post : AliyunCall.request → AliyunCall.reply) (uuid4 now : string)
    (model : string) (p : loc) (h : heap) (d : dict)
    (lv : loc) (h' : heap) :
  h !! p = Some d →
  Aliyun.validate_parameters settings model p h = (Ok lv, h') →
  unset (ALIYUN_API_KEY endpoints) = false →
  ∃ ps request,
    calls (AliyunCall.call_model settings endpoints post uuid4 now model p h)
      = [request] ∧
    AliyunCall.json request !! "parameters" = Some (VDict ps) ∧
    (∀ k x, k ∉ core_keys → d !! k = Some x → ps !! k = Some x) ∧
    (∀ k, k ∈ ["max_tokens"; "temperature"; "top_p"; "enable_thinking"] →
          is_Some (ps !! k)) ∧
    ps !! "stream" = Some (VBool (streams d)).
Proof.
  intros Hp Hrun Hkey.
  destruct (aliyun_call_model_validated settings endpoints post uuid4 now
              _ _ _ _ _ _ Hp Hrun)
    as (o & m & data & Ho & HI & Hom & Hfrom & Hdata & ->).
  rewrite Hkey. cbv zeta. cbn [calls].
  destruct (request_data_validated _ _ _ HI) as (m' & _ & _ & Hdata').
  rewrite Hdata' in Hdata. injection Hdata as <-.
  eexists _, _. split_and!; [reflexivity|reflexivity| | |].
  - intros k x Hk Hd. apply map_lookup_filter_Some. split.
    + rewrite (Inv_untouched _ _ _ _ k HI); [done|].
      intros Hin. by apply Hk, (assigned_core aliyun).
    + cbn. intros Hin. apply Hk.
      apply list_elem_of_In in Hin. apply list_elem_of_In.
      simpl in *. intuition.
  - intros k Hk.
    assert (k ∈ assigned aliyun ∧ k ∉ AliyunCall.exclude_keys) as [Ha Hx].
    { apply list_elem_of_In in Hk. simpl in Hk.
      destruct Hk as [<-|[<-|[<-|[<-|[]]]]]; split; solve_key. }
    pose proof (Inv_rule _ _ _ _ k HI Ha) as Hr.
    assert (is_Some (o !! k)) as [v Hv].
    { apply list_elem_of_In in Hk. simpl in Hk.
      destruct Hk as [<-|[<-|[<-|[<-|[]]]]]; inversion Hr; eauto. }
    exists v. by apply map_lookup_filter_Some.
  - pose proof (Inv_rule _ _ _ _ "stream" HI ltac:(solve_key)) as Hr.
    apply map_lookup_filter_Some. split; [|solve_key].
    unfold streams.
    inversion Hr;
      match goal with Hd : d !! "stream" = _ |- _ => rewrite Hd end;
      simpl; congruence.
Qed.

Lemma aliyun_request_parameters_witness :
  ∃ ps request,
    calls (AliyunCall.call_model (H := decimal_literals) no_settings
             configuration hello_service "uuid" "now" "qwen-turbo"
             1%positive (store_of streaming_params)) = [request] ∧
    AliyunCall.json request !! "parameters" = Some (VDict ps) ∧
    ps !! "custom_flag" = Some (VStr "on") ∧
    ps !! "stream" = Some (VBool true).
Proof.
  destruct (aliyun_request_parameters (H := decimal_literals) no_settings
              configuration hello_service "uuid" "now" "qwen-turbo"
              1%positive (store_of streaming_params) streaming_params
              2%positive
              (validate_parameters (H := decimal_literals) no_settings
                 aliyun "qwen-turbo" 1%positive
                 (store_of streaming_params)).2)
    as (ps & request & Hs & Hps & Hcustom & _ & Hstream).
  - reflexivity.
  - apply run_returns. vm_compute. reflexivity.
  - reflexivity.
  - exists ps, request. split_and!.
    + exact Hs.
    + exact Hps.
    + apply Hcustom; [solve_key|reflexivity].
    + exact Hstream.
Defined.

(** X20: the headers of that request carry the configured key as a bearer
    token, and enable server-sent events exactly when the caller's
    [stream] is true. *)
Theorem aliyun_request_headers `{NumericLiterals}
    (settings : Settings) (endpoints : Endpoints)
    (post : AliyunCall.request → AliyunCall.reply) (uuid4 now : string)
    (model : string) (p : loc) (h : heap) (d : dict)
    (lv : loc) (h' : heap) (key : string) :
  h !! p = Some d →
  Aliyun.validate_parameters settings model p h = (Ok lv, h') →
  ALIYUN_API_KEY endpoints = Some key → key ≠ "" →
  ∃ request,
    calls (AliyunCall.call_model settings endpoints post uuid4 now model p h)
      = [request] ∧
    AliyunCall.headers request !! "Authorization"
      = Some ("Bearer " +:+ key) ∧
    AliyunCall.headers request !! "X-DashScope-SSE"
      = Some (if streams d then "enable" else "disable") ∧
    AliyunCall.headers request !! "Content-Type"
      = Some "application/json" ∧
    AliyunCall.headers request !! "X-DashScope-DataInspection"
      = Some "disable".
Proof.
  intros Hp Hrun Hkey Hne.
  destruct (aliyun_call_model_validated settings endpoints post uuid4 now
              _ _ _ _ _ _ Hp Hrun)
    as (o & m & data & Ho & HI & Hom & Hfrom & Hdata & ->).
  assert (unset (ALIYUN_API_KEY endpoints) = false) as ->.
  { rewrite Hkey. cbn. by apply String.eqb_neq. }
  cbv zeta. cbn [calls]. eexists. split; [reflexivity|].
  cbn [AliyunCall.headers]. rewrite Hkey. cbn [default].
  assert (o !! "stream" = Some (VBool (streams d))) as Hstream.
  { pose proof (Inv_rule _ _ _ _ "stream" HI ltac:(solve_key)) as Hr.
    unfold streams.
    inversion Hr;
      match goal with Hd : d !! "stream" = _ |- _ => rewrite Hd end;
      simpl; congruence. }
  unfold AliyunCall.request_headers, get_default. rewrite Hstream.
  cbn [default py_bool]. split_and!; reflexivity.
Qed.

Lemma aliyun_request_headers_witness :
  ∃ request,
    calls (AliyunCall.call_model (H := decimal_literals) no_settings
             configuration hello_service "uuid" "now" "qwen-turbo"
             1%positive (store_of streaming_params)) = [request] ∧
    AliyunCall.headers request !! "Authorization" = Some "Bearer sk-a" ∧
    AliyunCall.headers request !! "X-DashScope-SSE" = Some "enable".
Proof.
  destruct (aliyun_request_headers (H := decimal_literals) no_settings
              configuration hello_service "uuid" "now" "qwen-turbo"
              1%positive (store_of streaming_params) streaming_params
              2%positive
              (validate_parameters (H := decimal_literals) no_settings
                 aliyun "qwen-turbo" 1%positive
                 (store_of streaming_params)).2 "sk-a")
    as (request & Hs & Hauth & Hsse & _).
  - reflexivity.
  - apply run_returns. vm_compute. reflexivity.
  - reflexivity.
  - discriminate.
  - exists request. split_and!.
    + exact Hs.
    + exact Hauth.
    + exact Hsse.
Defined.

(** X21: once validation has returned and a key is configured, the
    DeepSeek provider calls the client once, with the configured key, the
    configured address or else its own, and the whole validated
    dictionary as keyword arguments: the requested model, the
    conversation, every parameter of the caller outside the core set, and
    no prompt unless the caller gave messages as well. *)
Theorem deepseek_request_kwargs `{NumericLiterals}
    (settings : Settings) (endpoints : Endpoints)
    (create : DeepSeekCall.request → DeepSeekCall.reply) (now : string)
    (model : string) (p : loc) (h : heap) (d : dict)
    (lv : loc) (h' : heap) (key : string) :
  h !! p = Some d →
  DeepSeek.validate_parameters settings model p h = (Ok lv, h') →
  DEEPSEEK_API_KEY endpoints = Some key → key ≠ "" →
  ∃ request m,
    calls (DeepSeekCall.call_model settings endpoints create now model p h)
      = [request] ∧
    DeepSeekCall.api_key request = key ∧
    DeepSeekCall.base_url request
      = address (DEEPSEEK_API_URL endpoints) "https://api.deepseek.com" ∧
    h' !! lv = Some (DeepSeekCall.kwargs request) ∧
    DeepSeekCall.kwargs request !! "model" = Some (VStr model) ∧
    DeepSeekCall.kwargs request !! "messages" = Some m ∧
    messages_from d m ∧
    (d !! "messages" = None →
     DeepSeekCall.kwargs request !! "prompt" = None) ∧
    (∀ k, k ∉ core_keys → DeepSeekCall.kwargs request !! k = d !! k).
Proof.
  intros Hp Hrun Hkey Hne.
  destruct (deepseek_call_model_validated settings endpoints create now
              _ _ _ _ _ _ Hp Hrun) as (o & Ho & HI & ->).
  assert (unset (DEEPSEEK_API_KEY endpoints) = false) as ->.
  { rewrite Hkey. cbn. by apply String.eqb_neq. }
  cbv zeta. cbn [calls].
  pose proof (Inv_rule _ _ _ _ "model" HI ltac:(solve_key)) as Hmodel.
  pose proof (Inv_rule _ _ _ _ "messages" HI ltac:(solve_key)) as Hmsg.
  pose proof (Inv_rule _ _ _ _ "prompt" HI ltac:(solve_key)) as Hprompt.
  destruct (rule_messages deepseek model d _ Hmsg) as (m & Hom & Hfrom).
  eexists _, m.
  split_and!; [reflexivity| |reflexivity|exact Ho| |exact Hom|exact Hfrom
              | |].
  - cbn [DeepSeekCall.api_key]. by rewrite Hkey.
  - cbn [DeepSeekCall.kwargs]. by inversion Hmodel.
  - cbn [DeepSeekCall.kwargs]. intros Hnone.
    destruct (rule_prompt_deepseek _ _ _ Hprompt) as [[[? Hs] _]|[_ ?]];
      congruence.
  - cbn [DeepSeekCall.kwargs]. intros k Hk.
    apply (Inv_untouched _ _ _ _ k HI).
    intros Hin. by apply Hk, (assigned_core deepseek).
Qed.

Lemma deepseek_request_kwargs_witness :
  ∃ request,
    calls (DeepSeekCall.call_model (H := decimal_literals) no_settings
             configuration silent_client "now" "deepseek-chat"
             1%positive (store_of streaming_params)) = [request] ∧
    DeepSeekCall.base_url request = "https://proxy.example/v1" ∧
    DeepSeekCall.kwargs request !! "prompt" = None ∧
    DeepSeekCall.kwargs request !! "custom_flag" = Some (VStr "on").
Proof.
  destruct (deepseek_request_kwargs (H := decimal_literals) no_settings
              configuration silent_client "now" "deepseek-chat"
              1%positive (store_of streaming_params) streaming_params
              2%positive
              (validate_parameters (H := decimal_literals) no_settings
                 deepseek "deepseek-chat" 1%positive
                 (store_of streaming_params)).2 "sk-d")
    as (request & m & Hs & _ & Hurl & _ & _ & _ & _ & Hprompt & Hcustom).
  - reflexivity.
  - apply run_returns. vm_compute. reflexivity.
  - reflexivity.
  - discriminate.
  - exists request. split_and!.
    + exact Hs.
    + exact Hurl.
    + apply Hprompt. reflexivity.
    + rewrite Hcustom by solve_key. reflexivity.
Defined.

(** ** The exceptions of a call *)

(** X23: when every supplied value that validation converts goes through
    its conversion, a call raises nothing but [ValueError], whatever the
    service answers: the errors of the model, of the missing input and of
    the missing key are [ValueError]s, and every failure of the request
    or of the normalisation is wrapped into one. *)
Theorem call_model_raises_value_errors `{NumericLiterals}
    (settings : Settings) (endpoints : Endpoints)
    (post : AliyunCall.request → AliyunCall.reply)
    (create : DeepSeekCall.request → DeepSeekCall.reply)
    (uuid4 now : string) (model : string) (p : loc) (h : heap)
    (d : dict) (e : exn) :
  h !! p = Some d →
  (convertible aliyun model d = true →
   returned (AliyunCall.call_model settings endpoints post uuid4 now
               model p h) = Raise e →
   exn_class e = ValueErrorC) ∧
  (convertible deepseek model d = true →
   returned (DeepSeekCall.call_model settings endpoints create now
               model p h) = Raise e →
   exn_class e = ValueErrorC).
Proof.
  intros Hp. split; intros Hconv.
  - destruct (Aliyun.validate_parameters settings model p h)
      as [[lv|e'] h'] eqn:Hrun.
    + destruct (aliyun_call_model_validated settings endpoints post uuid4
                  now _ _ _ _ _ _ Hp Hrun) as (o & m & data & _ & _ & _
                  & _ & _ & ->).
      destruct (unset _); [by intros [= <-]|].
      cbv zeta. cbn [returned].
      destruct (post _) as [[]| |];
        first [apply wrapped_class | by intros [= <-]].
    + unfold AliyunCall.call_model. rewrite Hrun. intros [= ->].
      eapply (rejected_value_error settings aliyun); [exact Hconv|].
      exact (validate_parameters_raises settings aliyun _ _ _ _ _ _
               Hp Hrun).
  - destruct (DeepSeek.validate_parameters settings model p h)
      as [[lv|e'] h'] eqn:Hrun.
    + destruct (deepseek_call_model_validated settings endpoints create
                  now _ _ _ _ _ _ Hp Hrun) as (o & _ & _ & ->).
      destruct (unset _); [by intros [= <-]|].
      cbv zeta. cbn [returned].
      destruct (create _); [done|by intros [= <-]|by intros [= <-]].
    + unfold DeepSeekCall.call_model. rewrite Hrun. intros [= ->].
      eapply (rejected_value_error settings deepseek); [exact Hconv|].
      exact (validate_parameters_raises settings deepseek _ _ _ _ _ _
               Hp Hrun).
Qed.

Lemma call_model_raises_value_errors_witness :
  ∃ e,
    returned (AliyunCall.call_model (H := decimal_literals) no_settings
                configuration broken_service "uuid" "now" "qwen-turbo"
                1%positive (store_of hello_params)) = Raise e ∧
    exn_class e = ValueErrorC.
Proof.
  assert (is_ok (returned (AliyunCall.call_model (H := decimal_literals)
                             no_settings configuration broken_service
                             "uuid" "now" "qwen-turbo" 1%positive
                             (store_of hello_params))) = false) as Hno
    by (vm_compute; reflexivity).
  destruct (returned (AliyunCall.call_model (H := decimal_literals)
                        no_settings configuration broken_service
                        "uuid" "now" "qwen-turbo" 1%positive
                        (store_of hello_params))) as [r|e] eqn:Hr.
  - discriminate Hno.
  - exists e. split; [reflexivity|].
    refine (proj1 (call_model_raises_value_errors
                     (H := decimal_literals) no_settings configuration
                     broken_service silent_client "uuid" "now" "qwen-turbo"
                     1%positive (store_of hello_params) hello_params e
                     eq_refl) _ Hr).
    vm_compute. reflexivity.
Defined.

(** X24: validation comes before the configuration: a call raises the
    error of the missing key exactly when validation returns and the key
    is absent or empty; rejected parameters raise their own error also
    when no key is configured. *)
Theorem configuration_error_after_validation `{NumericLiterals}
    (settings : Settings) (endpoints : Endpoints)
    (post : AliyunCall.request → AliyunCall.reply)
    (create : DeepSeekCall.request → DeepSeekCall.reply)
    (uuid4 now : string) (model : string) (p : loc) (h : heap)
    (d : dict) :
  h !! p = Some d →
  (returned (AliyunCall.call_model settings endpoints post uuid4 now
               model p h)
   = Raise (ValueError "Aliyun API key not configured")
   ↔ is_ok (Aliyun.validate_parameters settings model p h).1 = true ∧
     unset (ALIYUN_API_KEY endpoints) = true) ∧
  (returned (DeepSeekCall.call_model settings endpoints create now
               model p h)
   = Raise (ValueError "DeepSeek API key not configured")
   ↔ is_ok (DeepSeek.validate_parameters settings model p h).1 = true ∧
     unset (DEEPSEEK_API_KEY endpoints) = true).
Proof.
  intros Hp. split.
  - destruct (Aliyun.validate_parameters settings model p h)
      as [[lv|e'] h'] eqn:Hrun.
    + destruct (aliyun_call_model_validated settings endpoints post uuid4
                  now _ _ _ _ _ _ Hp Hrun) as (o & m & data & _ & _ & _
                  & _ & _ & ->).
      cbn [fst is_ok]. destruct (unset _); [done|].
      cbv zeta. cbn [returned]. split; [|by intros [_ [=]]].
      destruct (post _) as [[]| |]; intros Hr;
        try (apply wrapped_text in Hr as [rest Hr]); discriminate Hr.
    + unfold AliyunCall.call_model. rewrite Hrun.
      cbn [returned fst is_ok]. split; [|by intros [[=] _]].
      intros [= ->].
      destruct (rejected_text settings aliyun _ _ _ _ _ _
                  (validate_parameters_raises settings aliyun _ _ _ _ _ _
                     Hp Hrun) eq_refl) as [rest [Hr|Hr]]; discriminate Hr.
  - destruct (DeepSeek.validate_parameters settings model p h)
      as [[lv|e'] h'] eqn:Hrun.
    + destruct (deepseek_call_model_validated settings endpoints create
                  now _ _ _ _ _ _ Hp Hrun) as (o & _ & _ & ->).
      cbn [fst is_ok]. destruct (unset _); [done|].
      cbv zeta. cbn [returned]. split; [|by intros [_ [=]]].
      destruct (create _); intros Hr; discriminate Hr.
    + unfold DeepSeekCall.call_model. rewrite Hrun.
      cbn [returned fst is_ok]. split; [|by intros [[=] _]].
      intros [= ->].
      destruct (rejected_text settings deepseek _ _ _ _ _ _
                  (validate_parameters_raises settings deepseek _ _ _ _ _ _
                     Hp Hrun) eq_refl) as [rest [Hr|Hr]]; discriminate Hr.
Qed.

Lemma configuration_error_after_validation_witness :
  returned (DeepSeekCall.call_model (H := decimal_literals) no_settings
              no_configuration silent_client "now" "deepseek-chat"
              1%positive (store_of hello_params))
  = Raise (ValueError "DeepSeek API key not configured").
Proof.
  apply (proj2 (configuration_error_after_validation
                  (H := decimal_literals) no_settings no_configuration
                  hello_service silent_client "uuid" "now" "deepseek-chat"
                  1%positive (store_of hello_params) hello_params
                  eq_refl)).
  split; vm_compute; reflexivity.
Defined.

(** ** What a call returns *)

(** X25: a result of the Aliyun provider comes from one request that the
    service answered with a dictionary; it has exactly the keys of the
    normalised result, and its [model] is the model of the call, whatever
    [model] the caller's parameters or the payload hold. *)
Theorem aliyun_result_names_requested_model `{NumericLiterals}
    (settings : Settings) (endpoints : Endpoints)
    (post : AliyunCall.request → AliyunCall.reply) (uuid4 now : string)
    (model : string) (p : loc) (h : heap) (d r : dict) :
  h !! p = Some d →
  returned (AliyunCall.call_model settings endpoints post uuid4 now
              model p h) = Ok r →
  dom r = result_keys ∧
  r !! "model" = Some (VStr model) ∧
  r !! "created" = Some (VStr now) ∧
  ∃ request api_response,
    calls (AliyunCall.call_model settings endpoints post uuid4 now
             model p h) = [request] ∧
    post request = AliyunCall.Document (VDict api_response) ∧
    r !! "id" = Some (get_default api_response "request_id" (VStr uuid4)).
Proof.
  intros Hp.
  destruct (Aliyun.validate_parameters settings model p h)
    as [[lv|e'] h'] eqn:Hrun.
  - destruct (aliyun_call_model_validated settings endpoints post uuid4
                now _ _ _ _ _ _ Hp Hrun) as (o & m & data & _ & HI & _
                & _ & _ & ->).
    destruct (unset _); [done|]. cbv zeta. cbn [returned calls].
    destruct (post _) as [[| | | | | |api_response]| |] eqn:Hpost;
      try done.
    intros (cs & u & ->)%wrapped_ok%format_response_shape.
    pose proof (Inv_rule _ _ _ _ "model" HI ltac:(solve_key)) as Hmodel.
    assert (get_default o "model" (VStr "") = VStr model) as ->.
    { unfold get_default. by inversion Hmodel. }
    split_and!.
    + rewrite !dom_insert_L, dom_empty_L. unfold result_keys. set_solver.
    + reflexivity.
    + reflexivity.
    + eexists _, api_response. split_and!; [reflexivity|exact Hpost|].
      reflexivity.
  - unfold AliyunCall.call_model. by rewrite Hrun.
Qed.

Lemma aliyun_result_names_requested_model_witness :
  ∃ r,
    returned (AliyunCall.call_model (H := decimal_literals) no_settings
                configuration hello_service "uuid" "now" "qwen-max"
                1%positive (store_of both_inputs_params)) = Ok r ∧
    r !! "model" = Some (VStr "qwen-max").
Proof.
  assert (is_ok (returned (AliyunCall.call_model (H := decimal_literals)
                             no_settings configuration hello_service
                             "uuid" "now" "qwen-max" 1%positive
                             (store_of both_inputs_params))) = true)
    as Hok by (vm_compute; reflexivity).
  destruct (returned (AliyunCall.call_model (H := decimal_literals)
                        no_settings configuration hello_service
                        "uuid" "now" "qwen-max" 1%positive
                        (store_of both_inputs_params))) as [r|e] eqn:Hr.
  - exists r. split; [reflexivity|].
    exact (proj1 (proj2 (aliyun_result_names_requested_model
                           (H := decimal_literals) no_settings
                           configuration hello_service "uuid" "now"
                           "qwen-max" 1%positive
                           (store_of both_inputs_params)
                           both_inputs_params r eq_refl Hr))).
  - discriminate Hok.
Defined.



(** X27: whatever a call returns or raises, it leaves the caller's
    dictionary, and every other object of the caller's store, as it
    was. *)
Theorem call_keeps_caller_store `{NumericLiterals}
    (settings : Settings) (endpoints : Endpoints)
    (post : AliyunCall.request → AliyunCall.reply)
    (create : DeepSeekCall.request → DeepSeekCall.reply)
    (uuid4 now : string) (model : string) (p : loc) (h : heap)
    (d : dict) (l : loc) (o : dict) :
  h !! p = Some d →
  h !! l = Some o →
  final (AliyunCall.call_model settings endpoints post uuid4 now
           model p h) !! l = Some o ∧
  final (DeepSeekCall.call_model settings endpoints create now
           model p h) !! l = Some o.
Proof.
  intros Hp Hl.
  assert (∀ P r h', validate_parameters settings P model p h = (r, h') →
                    h' !! l = Some o) as Hframe.
  { intros P r h' Hrun.
    destruct (validate_parameters_store _ _ _ _ _ _ _ _ Hp Hrun)
      as [->|[o' ->]]; [done|].
    rewrite lookup_insert_ne; [done|]. by eapply fresh_loc_ne. }
  split.
  - destruct (Aliyun.validate_parameters settings model p h)
      as [[lv|e'] h'] eqn:Hrun.
    + destruct (aliyun_call_model_validated settings endpoints post uuid4
                  now _ _ _ _ _ _ Hp Hrun) as (? & ? & ? & _ & _ & _
                  & _ & _ & ->).
      destruct (unset _); exact (Hframe aliyun _ _ Hrun).
    + unfold AliyunCall.call_model. rewrite Hrun.
      exact (Hframe aliyun _ _ Hrun).
  - destruct (DeepSeek.validate_parameters settings model p h)
      as [[lv|e'] h'] eqn:Hrun.
    + destruct (deepseek_call_model_validated settings endpoints create
                  now _ _ _ _ _ _ Hp Hrun) as (? & _ & _ & ->).
      destruct (unset _); exact (Hframe deepseek _ _ Hrun).
    + unfold DeepSeekCall.call_model. rewrite Hrun.
      exact (Hframe deepseek _ _ Hrun).
Qed.

Lemma call_keeps_caller_store_witness :
  final (AliyunCall.call_model (H := decimal_literals) no_settings
           configuration hello_service "uuid" "now" "qwen-turbo"
           1%positive (store_of hot_params)) !! 1%positive
  = Some hot_params.
Proof.
  exact (proj1 (call_keeps_caller_store (H := decimal_literals)
                  no_settings configuration hello_service silent_client
                  "uuid" "now" "qwen-turbo" 1%positive
                  (store_of hot_params) hot_params 1%positive hot_params
                  eq_refl eq_refl)).
Defined.

(** * Properties of the DeepSeek result *)

(** X28: the result has one choice for each choice of the completion, in
    the same order; each carries the index, the role, the content and the
    finish reason of its own upstream choice, the index as the service
    gave it and not the position in the list. *)
Theorem deepseek_choices_in_order (request_model now : string)
    (response : DeepSeek.ChatCompletion) (j : nat)
    (choice : DeepSeek.Choice) :
  DeepSeek.choices response !! j = Some choice →
  ∃ cs c msg,
    DeepSeek.call_model_result request_model now response !! "choices"
      = Some (VList cs) ∧
    length cs = length (DeepSeek.choices response) ∧
    cs !! j = Some (VDict c) ∧
    c !! "index" = Some (VInt (DeepSeek.index choice)) ∧
    c !! "finish_reason" = Some (VStr (DeepSeek.finish_reason choice)) ∧
    c !! "message" = Some (VDict msg) ∧
    msg !! "role" = Some (VStr (DeepSeek.role (DeepSeek.message choice))) ∧
    msg !! "content" = Some (DeepSeek.content (DeepSeek.message choice)).
Proof.
  intros Hj.
  exists (DeepSeek.choice_data request_model <$> DeepSeek.choices response).
  assert (∃ c, DeepSeek.choice_data request_model choice = VDict c ∧
               c !! "index" = Some (VInt (DeepSeek.index choice)) ∧
               c !! "finish_reason"
                 = Some (VStr (DeepSeek.finish_reason choice)) ∧
               ∃ msg, c !! "message" = Some (VDict msg) ∧
                 msg !! "role"
                   = Some (VStr (DeepSeek.role (DeepSeek.message choice))) ∧
                 msg !! "content"
                   = Some (DeepSeek.content (DeepSeek.message choice)))
    as (c & Hc & Hi & Hf & msg & Hm & Hr & Hco).
  { unfold DeepSeek.choice_data. cbv zeta. eexists.
    split; [reflexivity|]. split_and!; [reflexivity|reflexivity|].
    eexists. split; [reflexivity|].
    destruct (DeepSeek.reasoning_content _), (DeepSeek.function_call _);
      try case_bool_decide; by split. }
  exists c, msg. split_and!; try assumption.
  - unfold DeepSeek.call_model_result. cbv zeta.
    by destruct (DeepSeek.usage response).
  - by rewrite length_fmap.
  - by rewrite list_lookup_fmap, Hj, <- Hc.
Qed.

Lemma deepseek_choices_in_order_witness :
  ∃ cs c,
    DeepSeek.call_model_result "deepseek-reasoner" "now" reasoned_response
      !! "choices" = Some (VList cs) ∧
    cs !! 0%nat = Some (VDict c) ∧
    c !! "index" = Some (VInt 3).
Proof.
  destruct (deepseek_choices_in_order "deepseek-reasoner" "now"
              reasoned_response 0 _ eq_refl)
    as (cs & c & msg & Hcs & _ & Hc & Hi & _).
  exists cs, c. split_and!.
  - exact Hcs.
  - exact Hc.
  - exact Hi.
Defined.

(** X29: the message of a normalised choice holds a reasoning trace only
    when the model of the call is ["deepseek-reasoner"] and the upstream
    message has one, which it then copies; it holds a function call exactly
    when the upstream message has one, with its name and arguments; and it
    holds nothing besides these, the role and the content. *)
Theorem deepseek_optional_fields (request_model now : string)
    (response : DeepSeek.ChatCompletion) (j : nat)
    (choice : DeepSeek.Choice) :
  DeepSeek.choices response !! j = Some choice →
  ∃ cs c msg,
    DeepSeek.call_model_result request_model now response !! "choices"
      = Some (VList cs) ∧
    cs !! j = Some (VDict c) ∧
    c !! "message" = Some (VDict msg) ∧
    msg !! "reasoning_content"
      = (if bool_decide (request_model = "deepseek-reasoner")
         then DeepSeek.reasoning_content (DeepSeek.message choice)
         else None) ∧
    msg !! "function_call"
      = ((λ fc, VDict (<["name" := VStr (DeepSeek.name fc)]>
                      (<["arguments" := VStr (DeepSeek.arguments fc)]> ∅)))
         <$> DeepSeek.function_call (DeepSeek.message choice)) ∧
    dom msg ⊆ {[ "role"; "content"; "reasoning_content"; "function_call" ]}.
Proof.
  intros Hj.
  exists (DeepSeek.choice_data request_model <$> DeepSeek.choices response).
  assert (DeepSeek.call_model_result request_model now response !! "choices"
          = Some (VList (DeepSeek.choice_data request_model
                           <$> DeepSeek.choices response))) as Hcs.
  { unfold DeepSeek.call_model_result. cbv zeta.
    by destruct (DeepSeek.usage response). }
  unfold DeepSeek.choice_data. cbv zeta.
  eexists _, _. split; [exact Hcs|].
  split; [by rewrite list_lookup_fmap, Hj|].
  split; [reflexivity|].
  destruct (DeepSeek.reasoning_content _) as [rc|],
           (DeepSeek.function_call _) as [fc|];
    destruct (bool_decide (request_model = "deepseek-reasoner"));
    cbn [fmap option_fmap option_map];
    (split_and!; [reflexivity|reflexivity|]);
    rewrite ?dom_insert_L, dom_empty_L; clear; set_unfold; tauto.
Qed.

Lemma deepseek_optional_fields_witness :
  ∃ cs c msg,
    DeepSeek.call_model_result "deepseek-chat" "now" reasoned_response
      !! "choices" = Some (VList cs) ∧
    cs !! 0%nat = Some (VDict c) ∧
    c !! "message" = Some (VDict msg) ∧
    msg !! "reasoning_content" = None.
Proof.
  destruct (deepseek_optional_fields "deepseek-chat" "now"
              reasoned_response 0 _ eq_refl)
    as (cs & c & msg & Hcs & Hc & Hm & Hr & _).
  exists cs, c, msg. split_and!.
  - exact Hcs.
  - exact Hc.
  - exact Hm.
  - exact Hr.
Defined.
